(** * SMH graphical layer: line lists, spectral models, fitting and masks

    A shallow embedding of the session logic found in the Qt widgets of
    [smh/gui]: [linelist_manager.py], [chemical_abundances.py], [base.py]
    and [balmer.py].  Widgets, signals and plotting are left out; what is
    kept is every read and write of the session, of the spectral models and
    of their metadata, in the order the handlers perform them. *)

From Stdlib Require Import Floats ssreflect.
From stdpp Require Import gmap strings list fin_maps pretty.

Set Warnings "-inexact-float,-rewrite-rw,-clear-no-such-hyp".

(** ** Python control flow: exceptions over a threaded state *)

Module Py.

(** The exception classes the handlers raise, catch or let through. *)
Inductive exn : Set :=
| KeyError | IndexError | ValueError | RuntimeError | NameError
| TypeError | AttributeError | AssertionError | ConflictError.

Global Instance exn_eq_dec : EqDecision exn.
Proof. solve_decision. Defined.

(** A handler either returns a value or raises; either way the writes it
    has done so far to the state stay done. *)
Inductive outcome (S A : Type) : Type :=
| Returned (s : S) (a : A)
| Raised (s : S) (e : exn).
Arguments Returned {S A} s a.
Arguments Raised {S A} s e.

Definition M (S A : Type) : Type := S → outcome S A.

Definition ret {S A} (a : A) : M S A := λ s, Returned s a.
Definition raise {S A} (e : exn) : M S A := λ s, Raised s e.
Definition bind {S A B} (c : M S A) (k : A → M S B) : M S B :=
  λ s, match c s with
       | Returned s' a => k a s'
       | Raised s' e => Raised s' e
       end.
Definition get {S} : M S S := λ s, Returned s s.
Definition put {S} (s : S) : M S unit := λ _, Returned s tt.
Definition modify {S} (f : S → S) : M S unit := λ s, Returned (f s) tt.

(** [d[k]] and [l[i]] on a missing key or index. *)
Definition subscript {S A} (e : exn) (o : option A) : M S A :=
  match o with Some a => ret a | None => raise e end.

(** [try: c  except classes: handler]. *)
Definition try_except {S A} (c : M S A) (classes : list exn)
    (handler : exn → M S A) : M S A :=
  λ s, match c s with
       | Returned s' a => Returned s' a
       | Raised s' e =>
           if bool_decide (e ∈ classes) then handler e s' else Raised s' e
       end.

Definition state_of {S A} (o : outcome S A) : S :=
  match o with Returned s _ => s | Raised s _ => s end.

Definition returned {S A} (o : outcome S A) : bool :=
  match o with Returned _ _ => true | Raised _ _ => false end.

(** [for x in xs: body x], stopping at the first exception. *)
Fixpoint for_each {S A} (xs : list A) (body : A → M S unit) : M S unit :=
  match xs with
  | [] => ret tt
  | x :: xs' => bind (body x) (λ _, for_each xs' body)
  end.

End Py.

Export Py.

Declare Scope py_scope.
Delimit Scope py_scope with py.
Notation "'let!' x ':=' c 'in' k" := (Py.bind c (λ x, k))
  (at level 10, x pattern, c at level 100, k at level 200) : py_scope.
Notation "c ';;;' k" := (Py.bind c (λ _, k))
  (at level 100, k at level 200, right associativity) : py_scope.
Open Scope py_scope.

(** ** numpy helpers *)

Module Np.

(** [np.isfinite] on a Python float (binary64). *)
Definition isfinite (x : float) : bool :=
  negb (PrimFloat.is_nan x) && negb (PrimFloat.is_infinity x).

Section Argsort.
Context {A : Type} (ltb : A → A → bool).

Fixpoint insert_sorted (x : A * nat) (l : list (A * nat)) : list (A * nat) :=
  match l with
  | [] => [x]
  | y :: l' => if ltb y.1 x.1 then y :: insert_sorted x l' else x :: l
  end.

(** Indices that sort [keys] ascending; equal keys keep their order. *)
Definition argsort_by (keys : list A) : list nat :=
  snd <$> foldr insert_sorted [] (zip keys (seq 0 (length keys))).
End Argsort.

(** [np.argsort] of a column of hash strings. *)
Definition argsort (keys : list string) : list nat := argsort_by String.ltb keys.

(** [a[idx]] with an index array: one entry per index, in index order. *)
Definition take {A} (a : list A) (idx : list nat) : option (list A) :=
  mapM (λ i, a !! i) idx.

(** [a[mask]] with a boolean array. *)
Definition select {A} (a : list A) (mask : list bool) : list A :=
  fst <$> filter (λ p, p.2 = true) (zip a mask).

(** [a[mask]] where the mask may be of another length than the array,
    which numpy refuses with [IndexError]. *)
Definition select_checked {A} (a : list A) (mask : list bool) : option (list A) :=
  if bool_decide (length mask = length a) then Some (select a mask) else None.

(** [np.all]. *)
Definition all (mask : list bool) : bool := forallb id mask.

End Np.

(** ** Data model: transitions, spectral models, the session *)

Module Model.

(** One row of the line list table. *)
Record Transition : Type := mkTransition {
  wavelength : float;
  element : string;
  expot : float;
  loggf : float;
  damp_vdw : float;
  dissoc_E : float;
  comments : string;
  hash : string;
  (** the optional [equivalent_width] column of pre-measured lists *)
  equivalent_width : option float;
}.

Abbreviation LineList := (list Transition).

Definition column_hash (ll : LineList) : list string := hash <$> ll.

(** [line_list["equivalent_width"]]: the column exists when every row
    carries a value. *)
Definition column_equivalent_width (ll : LineList) : option (list float) :=
  mapM equivalent_width ll.

Inductive ModelKind : Type :=
| Profile
| Synthesis (elements : list string).

(** The third entry of [metadata["fitted_result"]], the dictionary of
    derived quantities; each key may be missing. *)
Record FitMeta : Type := mkFitMeta {
  fit_equivalent_width : option (float * float * float);
  fit_reduced_equivalent_width : option (float * float * float);
  fit_abundances : option (list float);
}.

Record Metadata : Type := mkMetadata {
  is_acceptable : bool;
  use_for_stellar_parameter_inference : bool;
  use_for_stellar_composition_inference : bool;
  mask : list (float * float);
  antimask_flag : option bool;
  fitted_result : option FitMeta;
}.

Record SpectralModel : Type := mkSpectralModel {
  kind : ModelKind;
  _transition_hashes : list string;
  _transition_indices : list nat;
  metadata : Metadata;
}.

Definition set_metadata (f : Metadata → Metadata) (m : SpectralModel) : SpectralModel :=
  {| kind := kind m; _transition_hashes := _transition_hashes m;
     _transition_indices := _transition_indices m; metadata := f (metadata m) |}.

Definition isinstance_profile (m : SpectralModel) : bool :=
  match kind m with Profile => true | Synthesis _ => false end.
Definition isinstance_synthesis (m : SpectralModel) : bool :=
  match kind m with Profile => false | Synthesis _ => true end.

(** [session.metadata] restricted to the keys the widgets use, each
    possibly absent, and the [_spectral_model_conflicts] attribute. *)
Record Session : Type := mkSession {
  line_list : option LineList;
  line_list_argsort_hashes : option (list nat);
  spectral_models : option (list SpectralModel);
  _spectral_model_conflicts : list (list nat);
}.

Definition set_line_list (ll : LineList) (s : Session) : Session :=
  {| line_list := Some ll;
     line_list_argsort_hashes := line_list_argsort_hashes s;
     spectral_models := spectral_models s;
     _spectral_model_conflicts := _spectral_model_conflicts s |}.

Definition set_line_list_argsort_hashes (ix : list nat) (s : Session) : Session :=
  {| line_list := line_list s;
     line_list_argsort_hashes := Some ix;
     spectral_models := spectral_models s;
     _spectral_model_conflicts := _spectral_model_conflicts s |}.

Definition set_spectral_models (sms : list SpectralModel) (s : Session) : Session :=
  {| line_list := line_list s;
     line_list_argsort_hashes := line_list_argsort_hashes s;
     spectral_models := Some sms;
     _spectral_model_conflicts := _spectral_model_conflicts s |}.

Definition set_spectral_model_conflicts (c : list (list nat)) (s : Session) : Session :=
  {| line_list := line_list s;
     line_list_argsort_hashes := line_list_argsort_hashes s;
     spectral_models := spectral_models s;
     _spectral_model_conflicts := c |}.

(** [session.metadata.get("spectral_models", [])]. *)
Definition get_spectral_models (s : Session) : list SpectralModel :=
  default [] (spectral_models s).

End Model.

Export Model.


(** ** Collaborators that live outside [smh/gui]

    The widgets call into [smh.linelists], [smh.spectral_models],
    [smh.utils] and the radiative-transfer package.  Their code is not part
    of this development; each is an interface whose operations the
    handlers below are parametric in. *)

(** [smh.linelists.LineList]. *)
Class LineLists : Type := {
  (** [self.merge(other, in_place=False, skip_exactly_equal_lines=..,
      ignore_conflicts=..)]: a new table, or an exception.  A keyword that
      the caller leaves out is [None]. *)
  merge : LineList → LineList → option bool → option bool → exn + LineList;
  (** the [unique_elements] property *)
  unique_elements : LineList → list string;
}.

(** [smh.spectral_models]. *)
Class SpectralModels : Type := {
  (** the metadata a freshly constructed model of a given kind starts with *)
  initial_metadata : ModelKind → Metadata;
  (** how a model resolves its hashes to row numbers of the line list *)
  resolve_indices : Session → list string → list nat;
  (** [model.fit()]: the model as the call leaves it, and the exception it
      ends with, if any *)
  fit : SpectralModel → SpectralModel * option exn;
}.

(** [smh.radiative_transfer]; the photosphere is the session's. *)
Class RadiativeTransfer : Type := {
  abundance_cog : LineList → exn + list float;
}.

(** [smh.utils.spectral_model_conflicts]. *)
Class Utils : Type := {
  spectral_model_conflicts : list SpectralModel → LineList → list (list nat);
}.

(** [np.log10]. *)
Class Numpy : Type := {
  log10 : float → float;
}.

(** ** [linelist_manager.py] *)

Module LineListManager.

Section Common.
Context `{SpectralModels} `{Utils}.

(** [ProfileFittingModel(session, hashes)]. *)
Definition ProfileFittingModel (session : Session) (hashes : list string) : SpectralModel :=
  {| kind := Profile; _transition_hashes := hashes;
     _transition_indices := resolve_indices session hashes;
     metadata := initial_metadata Profile |}.

(** [SpectralSynthesisModel(session, hashes, elements)]. *)
Definition SpectralSynthesisModel (session : Session) (hashes : list string)
    (elements : list string) : SpectralModel :=
  {| kind := Synthesis elements; _transition_hashes := hashes;
     _transition_indices := resolve_indices session hashes;
     metadata := initial_metadata (Synthesis elements) |}.

(** [self.session.metadata["line_list"]]. *)
Definition metadata_line_list : M Session LineList :=
  let! s := get in subscript KeyError (line_list s).

(** [self.session.metadata["spectral_models"]]. *)
Definition metadata_spectral_models : M Session (list SpectralModel) :=
  let! s := get in subscript KeyError (spectral_models s).

(** [self.session.metadata.setdefault("spectral_models", [])]. *)
Definition setdefault_spectral_models : M Session unit :=
  modify (λ s, match spectral_models s with
               | Some _ => s
               | None => set_spectral_models [] s
               end).

(** [self.session.metadata["spectral_models"].extend(models)]. *)
Definition extend_spectral_models (models : list SpectralModel) : M Session unit :=
  let! sms := metadata_spectral_models in
  modify (set_spectral_models (sms ++ models)).

(** [self.session._spectral_model_conflicts = spectral_model_conflicts(
      self.session.metadata["spectral_models"],
      self.session.metadata["line_list"])]. *)
Definition update_spectral_model_conflicts : M Session unit :=
  let! sms := metadata_spectral_models in
  let! ll := metadata_line_list in
  modify (set_spectral_model_conflicts (spectral_model_conflicts sms ll)).

(** [self.session.metadata["line_list_argsort_hashes"] = np.argsort(
      self.session.metadata["line_list"]["hash"])]. *)
Definition update_line_list_argsort_hashes : M Session unit :=
  let! ll := metadata_line_list in
  modify (set_line_list_argsort_hashes (Np.argsort (column_hash ll))).

End Common.

(** *** [LineListTableModel] *)

Module LineListTableModel.

Inductive Column : Set :=
| col_wavelength | col_element | col_expot | col_loggf | col_damp_vdw
| col_dissoc_E | col_comments.

Definition columns : list Column :=
  [col_wavelength; col_element; col_expot; col_loggf; col_damp_vdw;
   col_dissoc_E; col_comments].

Inductive Cell : Type := CFloat (x : float) | CStr (s : string).

Definition cell (c : Column) (t : Transition) : Cell :=
  match c with
  | col_wavelength => CFloat (wavelength t)
  | col_element => CStr (element t)
  | col_expot => CFloat (expot t)
  | col_loggf => CFloat (loggf t)
  | col_damp_vdw => CFloat (damp_vdw t)
  | col_dissoc_E => CFloat (dissoc_E t)
  | col_comments => CStr (comments t)
  end.

(** [line_list.sort(column)] is the table's own method, of the library
    the line list is built on: it puts the rows in the order of one
    column.  Where it puts rows whose cells are equal or NaN is the
    library's choice, which [sort] below takes as it comes. *)
Class Table := { table_sort : Column → LineList → LineList }.

Inductive SortOrder : Set := AscendingOrder | DescendingOrder.

Section Sorting.
Context `{Table}.

(** [LineListTableModel.sort(column, order)]. *)
Definition sort (column : nat) (order : SortOrder) : M Session unit :=
  let! s := get in
  match line_list s with
  | None => ret tt
  | Some ll =>
      let! c := subscript IndexError (columns !! column) in
      let sorted := table_sort c ll in
      modify (set_line_list
                (match order with
                 | DescendingOrder => reverse sorted
                 | AscendingOrder => sorted
                 end));;;
      update_line_list_argsort_hashes
  end.

End Sorting.

End LineListTableModel.

(** *** [LineListTableView] *)

Module LineListTableView.

(** The loop over the selected rows of [delete_selected_rows]: a row whose
    hash a model uses is counted, any other row is struck from [mask]. *)
Fixpoint mark_rows (hashes used : list string) (rows : list nat)
    (mask : list bool) (N_skipped : nat) : option (list bool * nat) :=
  match rows with
  | [] => Some (mask, N_skipped)
  | row :: rows' =>
      match hashes !! row with
      | None => None
      | Some t_hash =>
          if bool_decide (t_hash ∈ used)
          then mark_rows hashes used rows' mask (S N_skipped)
          else mark_rows hashes used rows' (<[row := false]> mask) N_skipped
      end
  end.

(** The hashes any spectral model of the session refers to. *)
Definition all_hashes_used (s : Session) : list string :=
  remove_dups (get_spectral_models s ≫= _transition_hashes).

(** [delete_selected_rows()], given the rows selected in the view.  The
    value returned is the count shown in the warning dialog, when the
    dialog is shown. *)
Definition delete_selected_rows (selectedRows : list nat) : M Session (option nat) :=
  let! ll := LineListManager.metadata_line_list in
  let! s := get in
  let! r := subscript IndexError
              (mark_rows (column_hash ll) (all_hashes_used s) selectedRows
                 (replicate (length ll) true) 0) in
  let warning := if bool_decide (0 < r.2) then Some r.2 else None in
  if Np.all r.1 then ret warning
  else
    modify (set_line_list (Np.select ll r.1));;;
    LineListManager.update_line_list_argsort_hashes;;;
    ret warning.

Section Handlers.
Context `{LineLists} `{SpectralModels} `{Utils} `{Numpy}.

(** [for row in rows: models.append(ProfileFittingModel(session,
    line_list["hash"][[row]]))]. *)
Definition profile_models_of_rows (s : Session) (hashes : list string)
    (rows : list nat) : option (list SpectralModel) :=
  mapM (λ row, (λ h, LineListManager.ProfileFittingModel s [h]) <$> hashes !! row) rows.

(** [add_selected_rows_as_profile_models()].  The line list is looked up
    in the body of the loop, once for each selected row: with nothing
    selected it is not looked up before the conflicts are computed. *)
Definition add_selected_rows_as_profile_models (selectedRows : list nat) : M Session unit :=
  let! s := get in
  let! spectral_models_to_add :=
    match selectedRows with
    | [] => ret []
    | _ :: _ =>
        let! ll := LineListManager.metadata_line_list in
        subscript IndexError (profile_models_of_rows s (column_hash ll) selectedRows)
    end in
  LineListManager.setdefault_spectral_models;;;
  LineListManager.extend_spectral_models spectral_models_to_add;;;
  LineListManager.update_spectral_model_conflicts.

(** [add_selected_rows_as_synthesis_model()]; [dialog_selected_elements]
    is what the periodic-table dialog hands back when it is opened. *)
Definition add_selected_rows_as_synthesis_model (selectedRows : list nat)
    (dialog_selected_elements : list string) : M Session unit :=
  let! ll := LineListManager.metadata_line_list in
  let! transitions := subscript IndexError (Np.take ll selectedRows) in
  let elements := unique_elements transitions in
  LineListManager.setdefault_spectral_models;;;
  let! s := get in
  if bool_decide (length elements = 1) then
    LineListManager.extend_spectral_models
      [LineListManager.SpectralSynthesisModel s (column_hash transitions) elements];;;
    LineListManager.update_spectral_model_conflicts
  else if bool_decide (length dialog_selected_elements = 0) then
    ret tt
  else
    LineListManager.extend_spectral_models
      [LineListManager.SpectralSynthesisModel s (column_hash transitions)
         dialog_selected_elements];;;
    LineListManager.update_spectral_model_conflicts.

(** Exceptions of a collaborator surface in the handler that called it. *)
Definition lift_exn {A} (r : exn + A) : M Session A :=
  match r with inl e => raise e | inr a => ret a end.

(** [for filename in filenames[1:]: line_list = line_list.merge(
    LineList.read(filename), ...)].  Reading the files is the caller's
    business: [files] are the tables read, in the order of the file names. *)
Fixpoint merge_files (line_list : LineList) (rest : list LineList)
    (skip_exactly_equal_lines ignore_conflicts : option bool) : exn + LineList :=
  match rest with
  | [] => inr line_list
  | new_lines :: rest' =>
      match merge line_list new_lines skip_exactly_equal_lines ignore_conflicts with
      | inl e => inl e
      | inr merged => merge_files merged rest' skip_exactly_equal_lines ignore_conflicts
      end
  end.

(** [import_from_filename(filenames, full_output=True)];
    [merge_without_conflicts] is the state of the dialog's check box. *)
Definition import_from_filename (files : list LineList)
    (merge_without_conflicts : bool) : M Session (option (LineList * list LineList)) :=
  match files with
  | [] => ret None
  | first :: rest =>
      let! line_list :=
        lift_exn (merge_files first rest (Some true) (Some merge_without_conflicts)) in
      let! s := get in
      match Model.line_list s with
      | None => modify (set_line_list line_list)
      | Some current =>
          let! merged :=
            lift_exn (merge current line_list (Some true) (Some merge_without_conflicts)) in
          modify (set_line_list merged)
      end;;;
      LineListManager.update_line_list_argsort_hashes;;;
      ret (Some (line_list, files))
  end.

(** [add_imported_lines_as_profile_models(filenames)]. *)
Definition add_imported_lines_as_profile_models (files : list LineList)
    (merge_without_conflicts : bool) : M Session unit :=
  let! imported := import_from_filename files merge_without_conflicts in
  match imported with
  | None => ret tt
  | Some (transitions, _) =>
      let! s := get in
      let spectral_models_to_add :=
        (λ t, LineListManager.ProfileFittingModel s [hash t]) <$> transitions in
      LineListManager.setdefault_spectral_models;;;
      LineListManager.extend_spectral_models spectral_models_to_add;;;
      LineListManager.update_spectral_model_conflicts
  end.

(** One synthesis model appended to the session's list. *)
Definition append_synthesis_model (transitions : LineList)
    (elements : list string) : M Session unit :=
  let! s := get in
  LineListManager.extend_spectral_models
    [LineListManager.SpectralSynthesisModel s (column_hash transitions) elements].

(** [add_imported_lines_as_synthesis_model(filenames, input_elements)];
    [dialogs] holds, per file, what the periodic-table dialog returns if it
    is opened for that file. *)
Definition add_imported_lines_as_synthesis_model (files : list LineList)
    (merge_without_conflicts : bool) (input_elements : option (list (list string)))
    (dialogs : list (list string)) : M Session unit :=
  let! selected := import_from_filename files merge_without_conflicts in
  match selected with
  | None => ret tt
  | Some (_, filename_transitions) =>
      LineListManager.setdefault_spectral_models;;;
      match input_elements with
      | Some elems =>
          if bool_decide (length files = length elems) then
            for_each elems (λ elements_to_measure,
              if bool_decide (1 ≤ length elements_to_measure) then ret tt
              else raise AssertionError);;;
            for_each (zip filename_transitions elems)
              (λ p, append_synthesis_model p.1 p.2)
          else
            for_each (zip filename_transitions dialogs) (λ p,
              if bool_decide (length (unique_elements p.1) = 1)
              then append_synthesis_model p.1 (unique_elements p.1)
              else if bool_decide (length p.2 = 0) then ret tt
              else append_synthesis_model p.1 p.2)
      | None =>
          for_each (zip filename_transitions dialogs) (λ p,
            if bool_decide (length (unique_elements p.1) = 1)
            then append_synthesis_model p.1 (unique_elements p.1)
            else if bool_decide (length p.2 = 0) then ret tt
            else append_synthesis_model p.1 p.2)
      end;;;
      LineListManager.update_spectral_model_conflicts
  end.

(** The model that [import_transitions_with_measured_equivalent_widths]
    builds for one row: a profile model whose metadata is updated with
    [is_acceptable] and a [fitted_result] made from the row's equivalent
    width, taken to be in milliAngstroms. *)
Definition measured_profile_model (s : Session) (t : Transition)
    (equivalent_width : float) : SpectralModel :=
  set_metadata
    (λ md, {| is_acceptable := true;
              use_for_stellar_parameter_inference := use_for_stellar_parameter_inference md;
              use_for_stellar_composition_inference := use_for_stellar_composition_inference md;
              mask := mask md;
              antimask_flag := antimask_flag md;
              fitted_result := Some
                {| fit_equivalent_width := Some (1e-3 * equivalent_width, 0, 0)%float;
                   fit_reduced_equivalent_width :=
                     Some ((-3) + log10 (equivalent_width / wavelength t), 0, 0)%float;
                   fit_abundances := None |} |})
    (LineListManager.ProfileFittingModel s [hash t]).

(** [import_transitions_with_measured_equivalent_widths(filenames)]. *)
Definition import_transitions_with_measured_equivalent_widths
    (files : list LineList) : M Session unit :=
  match files with
  | [] => ret tt
  | first :: rest =>
      let! loaded := lift_exn (merge_files first rest None None) in
      let! s := get in
      let! line_list :=
        match Model.line_list s with
        | Some current => lift_exn (merge current loaded None None)
        | None => modify (set_line_list loaded);;; ret loaded
        end in
      LineListManager.update_line_list_argsort_hashes;;;
      let! widths := subscript KeyError (column_equivalent_width line_list) in
      modify (set_line_list line_list);;;
      let! s := get in
      let spectral_models_to_add :=
        (λ p, measured_profile_model s p.1 p.2) <$> zip line_list widths in
      LineListManager.setdefault_spectral_models;;;
      LineListManager.extend_spectral_models spectral_models_to_add;;;
      LineListManager.update_spectral_model_conflicts
  end.

End Handlers.

End LineListTableView.

(** *** [SpectralModelsTableModel] and [SpectralModelsTableView] *)

Inductive UseFlag : Set :=
| use_for_parameters   (* "use_for_stellar_parameter_inference" *)
| use_for_composition. (* "use_for_stellar_composition_inference" *)

(** [spectral_model.metadata[attr] = value]. *)
Definition set_use_flag (attr : UseFlag) (value : bool) (md : Metadata) : Metadata :=
  {| is_acceptable := is_acceptable md;
     use_for_stellar_parameter_inference :=
       match attr with
       | use_for_parameters => value
       | use_for_composition => use_for_stellar_parameter_inference md
       end;
     use_for_stellar_composition_inference :=
       match attr with
       | use_for_parameters => use_for_stellar_composition_inference md
       | use_for_composition => value
       end;
     mask := mask md;
     antimask_flag := antimask_flag md;
     fitted_result := fitted_result md |}.

(** [self.session.metadata["spectral_models"][row].metadata[attr] = value]:
    the model object in the list is updated in place. *)
Definition assign_use_flag (row : nat) (attr : UseFlag) (value : bool) : M Session unit :=
  let! sms := metadata_spectral_models in
  let! sm := subscript IndexError (sms !! row) in
  modify (set_spectral_models (<[row := set_metadata (set_use_flag attr value) sm]> sms)).

Module SpectralModelsTableModel.

Section Handlers.
Context `{Utils}.

(** [setData(index, value, role)] for the cell at [(row, column)]; the
    value returned is [None] for Python's [False]. *)
Definition setData (row column : nat) (value : bool) : M Session (option bool) :=
  match column with
  | 3 =>
      assign_use_flag row use_for_parameters value;;;
      update_spectral_model_conflicts;;;
      ret (Some value)
  | 4 =>
      assign_use_flag row use_for_composition value;;;
      update_spectral_model_conflicts;;;
      ret (Some value)
  | _ => ret None
  end.

End Handlers.

End SpectralModelsTableModel.

Module SpectralModelsTableView.

(** [flag_selected(index, value)]. *)
Definition flag_selected (index : nat) (value : bool) (selectedRows : list nat) : M Session unit :=
  let! attr := subscript IndexError ([use_for_parameters; use_for_composition] !! index) in
  for_each selectedRows (λ row, assign_use_flag row attr value).

Section Handlers.
Context `{Utils}.

(** [[sm for i, sm in enumerate(models) if i not in delete_indices]]. *)
Definition remaining_models (models : list SpectralModel) (delete_indices : list nat)
    : list SpectralModel :=
  snd <$> filter (λ p, p.1 ∉ delete_indices) (imap pair models).

(** [delete_selected_rows()]. *)
Definition delete_selected_rows (selectedRows : list nat) : M Session unit :=
  let! sms := metadata_spectral_models in
  modify (set_spectral_models (remaining_models sms selectedRows));;;
  update_spectral_model_conflicts.

End Handlers.

End SpectralModelsTableView.

End LineListManager.

(** ** Masks of a spectral model *)

Module Mask.

(** [e >= xdata >= s]. *)
Definition contains (xdata : float) (interval : float * float) : bool :=
  PrimFloat.leb xdata interval.2 && PrimFloat.leb interval.1 xdata.

(** [for i, (s, e) in enumerate(mask[::-1]): if e >= xdata >= s: ...]:
    the position, in the reversed list, of the first interval that holds
    [xdata], counting from [i]. *)
Fixpoint first_containing (reversed : list (float * float)) (xdata : float) (i : nat)
    : option nat :=
  match reversed with
  | [] => None
  | interval :: rest =>
      if contains xdata interval then Some i
      else first_containing rest xdata (S i)
  end.

(** The body of the double-click loop on a mask list:
    [index = len(mask) - 1 - i; del mask[index]] at the first hit. *)
Definition remove_containing (mask : list (float * float)) (xdata : float)
    : option (list (float * float)) :=
  match first_containing (reverse mask) xdata 0 with
  | Some i => Some (delete (length mask - 1 - i) mask)
  | None => None
  end.

Definition set_mask (new_mask : list (float * float)) (md : Metadata) : Metadata :=
  {| is_acceptable := is_acceptable md;
     use_for_stellar_parameter_inference := use_for_stellar_parameter_inference md;
     use_for_stellar_composition_inference := use_for_stellar_composition_inference md;
     mask := new_mask;
     antimask_flag := antimask_flag md;
     fitted_result := fitted_result md |}.

Definition set_antimask_flag (flag : bool) (md : Metadata) : Metadata :=
  {| is_acceptable := is_acceptable md;
     use_for_stellar_parameter_inference := use_for_stellar_parameter_inference md;
     use_for_stellar_composition_inference := use_for_stellar_composition_inference md;
     mask := mask md;
     antimask_flag := Some flag;
     fitted_result := fitted_result md |}.

End Mask.

(** ** [chemical_abundances.py] *)

Module ChemicalAbundancesTab.

(** What the tab works on: the parent's session, the records handed to
    [logger.debug], and the argument of every call made to
    [rt.abundance_cog]. *)
Record Tab : Type := mkTab {
  session : Session;
  debug_log : list exn;
  cog_calls : list LineList;
}.

Definition set_session (f : Session → Session) (t : Tab) : Tab :=
  {| session := f (session t); debug_log := debug_log t; cog_calls := cog_calls t |}.

Definition logger_debug (e : exn) : M Tab unit :=
  modify (λ t, {| session := session t; debug_log := debug_log t ++ [e];
                  cog_calls := cog_calls t |}).

(** [self.all_spectral_models.spectral_models], which is
    [session.metadata.get("spectral_models", [])]. *)
Definition all_spectral_models : M Tab (list SpectralModel) :=
  let! t := get in ret (get_spectral_models (session t)).

(** The model object at position [i] replaced by its new state. *)
Definition store_model (i : nat) (m : SpectralModel) : M Tab unit :=
  modify (set_session (λ s, set_spectral_models (<[i := m]> (get_spectral_models s)) s)).

Section Handlers.
Context `{SpectralModels} `{RadiativeTransfer}.

(** [m.fit()] on the model at position [i]. *)
Definition call_fit (i : nat) : M Tab unit :=
  let! models := all_spectral_models in
  let! m := subscript IndexError (models !! i) in
  store_model i (fit m).1;;;
  match (fit m).2 with
  | Some e => raise e
  | None => ret tt
  end.

(** [try: res = m.fit()
    except (ValueError, RuntimeError) as e: logger.debug(...)]. *)
Definition try_fit (i : nat) : M Tab unit :=
  try_except (call_fit i) [ValueError; RuntimeError] logger_debug.

(** The two [isinstance] branches of the loops of [fit_all]. *)
Definition fit_by_kind (i : nat) (m : SpectralModel) : M Tab unit :=
  (if isinstance_synthesis m then try_fit i else ret tt);;;
  (if isinstance_profile m then try_fit i else ret tt).

(** First loop of [fit_all]: fit the acceptable models, count the others. *)
Fixpoint fit_acceptable (indices : list nat) (num_unacceptable : nat) : M Tab nat :=
  match indices with
  | [] => ret num_unacceptable
  | i :: rest =>
      let! models := all_spectral_models in
      let! m := subscript IndexError (models !! i) in
      if negb (is_acceptable (metadata m))
      then fit_acceptable rest (S num_unacceptable)
      else fit_by_kind i m;;; fit_acceptable rest num_unacceptable
  end.

(** [_check_for_spectral_models()]: when no model is used for abundances
    the transitions dialog is run; [transitions_dialog] is what the user
    does to the session there. *)
Definition _check_for_spectral_models (transitions_dialog : Session → Session)
    : M Tab bool :=
  let! t := get in
  if existsb (λ sm, use_for_stellar_composition_inference (metadata sm))
       (get_spectral_models (session t))
  then ret true
  else
    modify (set_session transitions_dialog);;;
    let! t := get in
    ret (existsb (λ sm, use_for_stellar_composition_inference (metadata sm))
           (get_spectral_models (session t))).

(** [fit_all()]. *)
Definition fit_all (transitions_dialog : Session → Session) : M Tab unit :=
  _check_for_spectral_models transitions_dialog;;;
  let! models := all_spectral_models in
  let! num_unacceptable := fit_acceptable (seq 0 (length models)) 0 in
  let! models := all_spectral_models in
  if bool_decide (num_unacceptable = length models)
  then for_each (seq 0 (length models)) (λ i,
         let! models := all_spectral_models in
         let! m := subscript IndexError (models !! i) in
         fit_by_kind i m)
  else ret tt.

(** [1000. * m.metadata["fitted_result"][-1]["equivalent_width"][0]] for an
    acceptable model, [np.nan] for any other. *)
Definition equivalent_width_mA (m : SpectralModel) : exn + float :=
  if is_acceptable (metadata m) then
    match fitted_result (metadata m) with
    | None => inl KeyError
    | Some result =>
        match fit_equivalent_width result with
        | None => inl KeyError
        | Some ew => inr (1000 * ew.1.1)%float
        end
    end
  else inr nan.

(** The three lists that the first loop of [measure_all] builds. *)
Record Collected : Type := mkCollected {
  equivalent_widths : list float;
  transition_indices : list nat;
  spectral_model_indices : list nat;
}.

(** The first loop of [measure_all] over [enumerate(spectral_models)]. *)
Fixpoint collect (enumerated : list (nat * SpectralModel)) (acc : Collected)
    : exn + Collected :=
  match enumerated with
  | [] => inr acc
  | (i, m) :: rest =>
      if isinstance_profile m then
        match equivalent_width_mA m with
        | inl e => inl e
        | inr ew =>
            collect rest
              {| equivalent_widths := equivalent_widths acc ++ [ew];
                 transition_indices := transition_indices acc ++ _transition_indices m;
                 spectral_model_indices := spectral_model_indices acc ++ [i] |}
        end
      else collect rest acc
  end.

Definition set_equivalent_width (t : Transition) (ew : float) : Transition :=
  {| wavelength := wavelength t; element := element t; expot := expot t;
     loggf := loggf t; damp_vdw := damp_vdw t; dissoc_E := dissoc_E t;
     comments := comments t; hash := hash t; equivalent_width := Some ew |}.

(** [metadata["fitted_result"][-1]["abundances"] = [abundance]]. *)
Definition set_abundances (abundance : float) (m : SpectralModel) : option SpectralModel :=
  match fitted_result (metadata m) with
  | None => None
  | Some result =>
      Some (set_metadata
              (λ md, {| is_acceptable := is_acceptable md;
                        use_for_stellar_parameter_inference :=
                          use_for_stellar_parameter_inference md;
                        use_for_stellar_composition_inference :=
                          use_for_stellar_composition_inference md;
                        mask := mask md;
                        antimask_flag := antimask_flag md;
                        fitted_result := Some
                          {| fit_equivalent_width := fit_equivalent_width result;
                             fit_reduced_equivalent_width :=
                               fit_reduced_equivalent_width result;
                             fit_abundances := Some [abundance] |} |}) m)
  end.

(** One turn of the last loop of [measure_all]. *)
Definition write_abundance (index : nat) (abundance : float) : M Tab unit :=
  let! t := get in
  let! models := subscript KeyError (spectral_models (session t)) in
  let! m := subscript IndexError (models !! index) in
  let! m' := subscript KeyError (set_abundances abundance m) in
  store_model index m'.

Definition call_abundance_cog (transitions : LineList) : M Tab (list float) :=
  modify (λ t, {| session := session t; debug_log := debug_log t;
                  cog_calls := cog_calls t ++ [transitions] |});;;
  match abundance_cog transitions with
  | inl e => raise e
  | inr abundances => ret abundances
  end.

(** [line_list[np.array(transition_indices)]]: the rows at the indices,
    in their order.  The array of an empty list is one of floats, and
    indexes no table. *)
Definition table_rows (ll : LineList) (indices : list nat) : option LineList :=
  match indices with
  | [] => None
  | _ :: _ => Np.take ll indices
  end.

(** [transitions["equivalent_width"] = values] on a table of [n] rows: a
    list of [n] values fills the column, a list of one value is repeated
    in every row, and a list of any other length is refused. *)
Definition column_values (n : nat) (values : list float) : option (list float) :=
  if bool_decide (length values = n) then Some values
  else match values with
       | [v] => Some (replicate n v)
       | _ => None
       end.

(** [measure_all()]. *)
Definition measure_all : M Tab unit :=
  let! t := get in
  let! models := subscript KeyError (spectral_models (session t)) in
  match collect (imap pair models) (mkCollected [] [] []) with
  | inl e => raise e
  | inr c =>
      if bool_decide (length (equivalent_widths c) = 0)
         || bool_decide (length (filter (λ x, Np.isfinite x = true) (equivalent_widths c)) = 0)
      then raise ValueError
      else
        let! ll := subscript KeyError (line_list (session t)) in
        let! rows := subscript IndexError (table_rows ll (transition_indices c)) in
        let! column :=
          subscript ValueError (column_values (length rows) (equivalent_widths c)) in
        let transitions := zip_with set_equivalent_width rows column in
        let finite := Np.isfinite <$> column in
        let! abundances := call_abundance_cog (Np.select transitions finite) in
        let! indices :=
          subscript IndexError (Np.select_checked (spectral_model_indices c) finite) in
        for_each (zip indices abundances) (λ p, write_abundance p.1 p.2)
  end.

(** The double-click branch of [spectrum_axis_mouse_press(event)];
    [selected] is the row that [_get_selected_model] finds, if any.  A
    single click only prepares the patch that is drawn while dragging. *)
Definition spectrum_axis_mouse_press (dblclick : bool) (selected : option nat)
    (xdata : float) : M Tab unit :=
  if dblclick then
    let! index := subscript AttributeError selected in
    let! models := all_spectral_models in
    let! spectral_model := subscript IndexError (models !! index) in
    match Mask.remove_containing (mask (metadata spectral_model)) xdata with
    | Some remaining =>
        store_model index (set_metadata (Mask.set_mask remaining) spectral_model);;;
        call_fit index
    | None => call_fit index
    end
  else ret tt.

End Handlers.

End ChemicalAbundancesTab.

(** ** [base.py]: the spectrum display *)

Module SMHSpecDisplay.

(** Name lookup in a function body: [frame] lists the names bound there
    (parameters and assigned locals, then the module's globals) that denote
    a value of type [A]. *)
Fixpoint lookup_name {A} (frame : list (string * A)) (name : string) : option A :=
  match frame with
  | [] => None
  | (bound, value) :: rest =>
      if String.eqb bound name then Some value else lookup_name rest name
  end.

(** The attribute [_interactive_mask_region_signal]: set to [None] by
    [__init__], to a pair by a click, and deleted by a release. *)
Inductive Signal : Type :=
| signal_deleted
| signal_None
| signal_set (signal_time : float) (signal_cid : nat).

Record Display : Type := mkDisplay {
  session : Session;
  (** the selected model, a reference into the session's list *)
  selected_model : option nat;
  shift_key_pressed : bool;
  _interactive_mask_region_signal : Signal;
  (** [xy[0, 0]] and [xy[2, 0]] of the patch drawn while dragging *)
  interactive_mask_xy : float * float;
}.

Definition set_session (f : Session → Session) (d : Display) : Display :=
  {| session := f (session d); selected_model := selected_model d;
     shift_key_pressed := shift_key_pressed d;
     _interactive_mask_region_signal := _interactive_mask_region_signal d;
     interactive_mask_xy := interactive_mask_xy d |}.

Definition set_selected_model (model : option nat) : M Display unit :=
  modify (λ d, {| session := session d; selected_model := model;
                  shift_key_pressed := shift_key_pressed d;
                  _interactive_mask_region_signal := _interactive_mask_region_signal d;
                  interactive_mask_xy := interactive_mask_xy d |}).

Definition set_signal (sig : Signal) : M Display unit :=
  modify (λ d, {| session := session d; selected_model := selected_model d;
                  shift_key_pressed := shift_key_pressed d;
                  _interactive_mask_region_signal := sig;
                  interactive_mask_xy := interactive_mask_xy d |}).

Definition set_xy (xy : float * float) : M Display unit :=
  modify (λ d, {| session := session d; selected_model := selected_model d;
                  shift_key_pressed := shift_key_pressed d;
                  _interactive_mask_region_signal := _interactive_mask_region_signal d;
                  interactive_mask_xy := xy |}).

Definition set_shift_key_pressed (b : bool) : M Display unit :=
  modify (λ d, {| session := session d; selected_model := selected_model d;
                  shift_key_pressed := b;
                  _interactive_mask_region_signal := _interactive_mask_region_signal d;
                  interactive_mask_xy := interactive_mask_xy d |}).

(** The model object a reference points to: [None.metadata] is an
    [AttributeError]. *)
Definition deref (ref : option nat) : M Display (nat * SpectralModel) :=
  let! i := subscript AttributeError ref in
  let! d := get in
  let! m := subscript IndexError (get_spectral_models (session d) !! i) in
  ret (i, m).

Definition store_model (i : nat) (m : SpectralModel) : M Display unit :=
  modify (set_session (λ s, set_spectral_models (<[i := m]> (get_spectral_models s)) s)).

Definition DOUBLE_CLICK_INTERVAL : float := 0.1.

(** Python's [min(a, b)] and [max(a, b)]. *)
Definition py_min (a b : float) : float := if PrimFloat.ltb b a then b else a.
Definition py_max (a b : float) : float := if PrimFloat.ltb a b then b else a.

Record MouseEvent : Type := mkMouseEvent {
  button : nat;
  (** [event.inaxes in (self.ax_residual, self.ax_spectrum)] *)
  inaxes : bool;
  dblclick : bool;
  (** [event.xdata]; a number whenever the click is inside an axis *)
  xdata : float;
}.

Section Handlers.
Context `{SpectralModels}.

(** [selected_model.fit()]. *)
Definition call_fit (i : nat) (m : SpectralModel) : M Display unit :=
  store_model i (fit m).1;;;
  match (fit m).2 with
  | Some e => raise e
  | None => ret tt
  end.

(** [update_selected_model()]; [parent_selected] is what the parent's
    [_get_selected_model()] returns. *)
Definition update_selected_model (parent_selected : option nat) : M Display unit :=
  set_selected_model parent_selected.

(** [update_spectrum_figure(redraw)], up to where it first touches the
    model: the body reads a name [selected_model] that neither its
    parameters ([self], [redraw]) nor its assignments bind. *)
Definition update_spectrum_figure (parent_selected : option nat) : M Display unit :=
  update_selected_model parent_selected;;;
  let! d := get in
  match selected_model d with
  | None => ret tt
  | Some _ =>
      let! selected_model :=
        subscript NameError (lookup_name ([] : list (string * option nat)) "selected_model") in
      deref selected_model;;; ret tt
  end.

(** [_remove_mask(self, selected_model, event)].  The body names
    [spectral_model]; the names bound in it that denote a model are the
    parameter [selected_model] alone, and the module has no global of that
    name. *)
Definition _remove_mask (selected_model : option nat) (xdata : float) : M Display bool :=
  let frame := [("selected_model", selected_model)] in
  let! spectral_model := subscript NameError (lookup_name frame "spectral_model") in
  let! r := deref spectral_model in
  match Mask.remove_containing (mask (metadata r.2)) xdata with
  | Some remaining =>
      store_model r.1 (set_metadata (Mask.set_mask remaining) r.2);;;
      ret true
  | None => ret false
  end.

(** The names bound at the top of [base.py]: what the module imports, its
    constants and its classes.  Neither [np] nor [time] is among them. *)
Definition module_globals : list (string * unit) :=
  (λ name, (name, tt)) <$>
    ["division"; "print_function"; "absolute_import"; "unicode_literals";
     "sys"; "logging"; "os"; "QtCore"; "QtGui"; "mpl";
     "DOUBLE_CLICK_INTERVAL"; "PICKER_TOLERANCE";
     "_allattrs"; "_labels"; "_short_labels"; "_formats";
     "_attr2label"; "_attr2slabel"; "_attr2format";
     "SMHWidgetBase"; "SMHSpecDisplay"; "SMHScatterplot"; "SMHFittingOptions";
     "SMHMeasurementList"; "MeasurementTableModelBase"]%string.

(** A name that a method reads and does not bind itself is looked up in
    the module. *)
Definition global_name (name : string) : M Display unit :=
  subscript NameError (lookup_name module_globals name).

(** [spectrum_left_mouse_press(event)]; [now] stands for [time.time()]
    and [cid] for the connection id that [mpl_connect] returns.  After the
    mask and the flag are seen to, the single click goes on to
    [xmin, xmax, ymin, ymax = (event.xdata, np.nan, -1e8, +1e8)]. *)
Definition spectrum_left_mouse_press (event : MouseEvent) (parent_selected : option nat)
    (now : float) (cid : nat) : M Display unit :=
  if negb (bool_decide (button event = 1)) then ret tt
  else if negb (inaxes event) then ret tt
  else
    update_selected_model parent_selected;;;
    let! d := get in
    if dblclick event then
      let! mask_removed := _remove_mask (selected_model d) (xdata event) in
      if mask_removed then
        let! r := deref (selected_model d) in
        call_fit r.1 r.2;;;
        update_spectrum_figure parent_selected
      else ret tt
    else
      let! r := deref (selected_model d) in
      let! flag := subscript KeyError (antimask_flag (metadata r.2)) in
      (if negb (eqb flag (shift_key_pressed d)) then
         store_model r.1
           (set_metadata (λ md, Mask.set_antimask_flag (negb flag) (Mask.set_mask [] md)) r.2)
       else ret tt);;;
      global_name "np";;;
      set_xy (xdata event, nan);;;
      global_name "time";;;
      set_signal (signal_set now cid).

(** [update_mask_region(event)], the handler of mouse motion; [now]
    stands for [time.time()]. *)
Definition update_mask_region (event_xdata : option float) (now : float) : M Display unit :=
  match event_xdata with
  | None => ret tt
  | Some x =>
      let! d := get in
      match _interactive_mask_region_signal d with
      | signal_deleted => raise AttributeError
      | signal_None => raise TypeError
      | signal_set signal_time _ =>
          global_name "time";;;
          if PrimFloat.ltb DOUBLE_CLICK_INTERVAL (now - signal_time)
          then set_xy ((interactive_mask_xy d).1, x)
          else ret tt
      end
  end.

(** [spectrum_left_mouse_release(event)]; [now] stands for [time.time()].
    The test [time.time() - signal_time > DOUBLE_CLICK_INTERVAL and
    np.abs(xy[0,0] - xdata) > 0] reads [time] first, and [np] when its
    first half holds; [xy[:, 0] = np.nan] reads [np] again. *)
Definition spectrum_left_mouse_release (event_xdata : option float)
    (parent_selected : option nat) (now : float) : M Display unit :=
  let! d := get in
  match _interactive_mask_region_signal d with
  | signal_deleted => ret tt
  | signal_None => raise TypeError
  | signal_set signal_time _ =>
      let xy := interactive_mask_xy d in
      let x := match event_xdata with None => xy.2 | Some x => x end in
      global_name "time";;;
      let! dragged :=
        if PrimFloat.ltb DOUBLE_CLICK_INTERVAL (now - signal_time)
        then global_name "np";;; ret (PrimFloat.ltb 0 (abs (xy.1 - x)))
        else ret false in
      (if dragged
       then
         match selected_model d with
         | None => raise RuntimeError
         | Some _ =>
             let! r := deref (selected_model d) in
             let minx := py_min xy.1 xy.2 in
             let maxx := py_max xy.1 xy.2 in
             let appended :=
               set_metadata (λ md, Mask.set_mask (mask md ++ [(minx, maxx)]) md) r.2 in
             store_model r.1 appended;;;
             call_fit r.1 appended
         end
       else ret tt);;;
      global_name "np";;;
      set_xy (nan, nan);;;
      set_signal signal_deleted;;;
      update_spectrum_figure parent_selected
  end.

End Handlers.

End SMHSpecDisplay.

(** ** [balmer.py]: the table of fit options *)

Module BalmerLineOptionsTableModel.

(** What a cell editor hands to [setData]. *)
Inductive Value : Type :=
| VBool (b : bool)
| VNumber (x : float)
| VText (s : string).

(** [bool(value)]. *)
Definition py_bool (v : Value) : bool :=
  match v with
  | VBool b => b
  | VNumber x => negb (PrimFloat.eqb x 0)
  | VText s => negb (String.eqb s "")
  end.

(** [float(value)]; [parse] reads the text of a cell as Python does, and
    leaves out what is no number. *)
Definition py_float (parse : string → option float) (v : Value) : option float :=
  match v with
  | VBool b => Some (if b then 1 else 0)%float
  | VNumber x => Some x
  | VText s => parse s
  end.

(** The table model with the part of [parent.metadata] it writes. *)
Record Options : Type := mkOptions {
  _parameters : list string;
  (** [metadata["bounds"]]: parameter name to [[lower, upper]] *)
  bounds : gmap string (option float * option float);
  (** [metadata[parameter]] for the check boxes *)
  enabled : gmap string bool;
  continuum_order : option nat;
}.

Definition _max_continuum_order : nat := 30.

Definition set_bounds (b : gmap string (option float * option float)) (o : Options) : Options :=
  {| _parameters := _parameters o; bounds := b; enabled := enabled o;
     continuum_order := continuum_order o |}.

(** [metadata["bounds"].setdefault(parameter, [None, None])]. *)
Definition setdefault_bounds (parameter : string) (o : Options) : Options :=
  match bounds o !! parameter with
  | Some _ => o
  | None => set_bounds (<[parameter := (None, None)]> (bounds o)) o
  end.

(** [metadata["bounds"].get(parameter, (None, None))], as [data] reads it. *)
Definition get_bounds (o : Options) (parameter : string) : option float * option float :=
  default (None, None) (bounds o !! parameter).

(** The names [c0 .. cN]; [show] prints a number as ["{}".format] does. *)
Definition continuum_parameters (show : nat → string) (N : nat) : list string :=
  (λ i, String.append "c" (show i)) <$> seq 0 (1 + N).

Section Handlers.
Context (parse : string → option float) (show : nat → string).

(** [setData(index, value, role)] for the cell at [(row, column)].
    [dialog] is the answer of the continuum-order dialog: the order chosen
    and whether the dialog was accepted. *)
Definition setData (row column : nat) (value : Value) (dialog : nat * bool)
    : M Options bool :=
  let! o := get in
  match column with
  | 0 =>
      match _parameters o !! row with
      | None => ret false
      | Some parameter =>
          let checked := py_bool value in
          let! go_on :=
            if bool_decide (row = 2) then
              if checked then
                if negb dialog.2 || bool_decide (_max_continuum_order < dialog.1)
                then ret false
                else
                  put {| _parameters := _parameters o ++ continuum_parameters show dialog.1;
                         bounds := bounds o; enabled := enabled o;
                         continuum_order := Some dialog.1 |};;;
                  ret true
              else
                put {| _parameters := take 3 (_parameters o);
                       bounds := bounds o; enabled := enabled o;
                       continuum_order := continuum_order o |};;;
                ret true
            else ret true in
          if go_on then
            modify (λ o, {| _parameters := _parameters o; bounds := bounds o;
                            enabled := <[parameter := checked]> (enabled o);
                            continuum_order := continuum_order o |});;;
            ret true
          else ret false
      end
  | _ =>
      let! parameter := subscript IndexError (_parameters o !! row) in
      modify (setdefault_bounds parameter);;;
      match py_float parse value with
      | None => ret false
      | Some x =>
          let! o := get in
          let stored := get_bounds o parameter in
          if (bool_decide (column = 1)
              && match stored.2 with Some upper => PrimFloat.leb upper x | None => false end)
             || (bool_decide (column = 2)
                 && match stored.1 with Some lower => PrimFloat.leb x lower | None => false end)
          then raise ValueError
          else if negb (Np.isfinite x) then ret false
          else
            match column with
            | 1 => modify (set_bounds (<[parameter := (Some x, stored.2)]> (bounds o)));;; ret true
            | 2 => modify (set_bounds (<[parameter := (stored.1, Some x)]> (bounds o)));;; ret true
            | _ => raise IndexError
            end
      end
  end.

End Handlers.

End BalmerLineOptionsTableModel.

(** ** Exporting spectral models ([linelist_manager.py])

    [export_selected_spectral_models] and [save_as_default] take the state
    of a model, copy it and strip the copy.  Whether the model itself is
    left alone depends on what is shared between the model and its state,
    so here the metadata dictionaries are objects in a store and the models
    and their states refer to them. *)

Module ModelExport.

(** The values kept in a metadata dictionary. *)
#[local] Set Warnings "-register-all".
Inductive PyVal : Type :=
| PNone
| PBool (b : bool)
| PInt (n : Z)
| PFloat (x : float)
| PStr (s : string)
| PList (items : list PyVal)
| PDict (items : list (string * PyVal)).

(** A spectral model object. *)
Record ModelObject : Type := mkModelObject {
  (** the entries of its state other than the two below *)
  obj_entries : gmap string PyVal;
  obj_transition_hashes : list string;
  obj_transition_indices : list nat;
  (** where its [metadata] dictionary lives *)
  obj_metadata : nat;
}.

Record Store : Type := mkStore {
  dicts : gmap nat (gmap string PyVal);
  spectral_models : list ModelObject;
  line_list : LineList;
}.

(** A state dictionary, as [__getstate__] returns it and [deepcopy]
    copies it. *)
Record State : Type := mkState {
  state_entries : gmap string PyVal;
  state_transition_hashes : list string;
  state_metadata : nat;
}.

(** What is written out for a state: its entries with the metadata
    dictionary the state refers to at the time of writing. *)
Record Written : Type := mkWritten {
  written_entries : gmap string PyVal;
  written_transition_hashes : list string;
  written_metadata : gmap string PyVal;
}.

(** Modelled from the spec: [__getstate__] belongs to
    [smh.spectral_models], which is not among the sources.  The state
    holds the model's transition hashes and its configuration bag; the bag
    is the model's own dictionary, not a copy of it, which is the case that
    the deep copy in the exporters is there for. *)
Definition __getstate__ (m : ModelObject) : State :=
  {| state_entries := obj_entries m;
     state_transition_hashes := obj_transition_hashes m;
     state_metadata := obj_metadata m |}.

Definition the_dict (st : Store) (l : nat) : gmap string PyVal :=
  default ∅ (dicts st !! l).

Definition set_dicts (f : gmap nat (gmap string PyVal) → gmap nat (gmap string PyVal))
    (st : Store) : Store :=
  {| dicts := f (dicts st); spectral_models := spectral_models st;
     line_list := line_list st |}.

(** [deepcopy(state)]: the metadata dictionary is copied to a new object. *)
Definition deepcopy (state : State) : M Store State :=
  let! st := get in
  let fresh_loc := fresh (dom (dicts st)) in
  modify (set_dicts (insert fresh_loc (the_dict st (state_metadata state))));;;
  ret {| state_entries := state_entries state;
         state_transition_hashes := state_transition_hashes state;
         state_metadata := fresh_loc |}.

(** [state["metadata"].pop(key, None)]. *)
Definition metadata_pop (state : State) (key : string) : M Store unit :=
  modify (set_dicts (alter (delete key) (state_metadata state))).

Definition write_state (st : Store) (state : State) : Written :=
  {| written_entries := state_entries state;
     written_transition_hashes := state_transition_hashes state;
     written_metadata := the_dict st (state_metadata state) |}.

Section Exporters.
(** [index_transitions()] of [smh.spectral_models]: the row numbers a
    model finds for its hashes in a line list. *)
Context (reindex : LineList → list string → list nat).

(** [spectral_model.index_transitions()] on the model in row [index]. *)
Definition index_transitions (index : nat) : M Store ModelObject :=
  let! st := get in
  let! m := subscript IndexError (spectral_models st !! index) in
  let m' := {| obj_entries := obj_entries m;
               obj_transition_hashes := obj_transition_hashes m;
               obj_transition_indices := reindex (line_list st) (obj_transition_hashes m);
               obj_metadata := obj_metadata m |} in
  put {| dicts := dicts st; spectral_models := <[index := m']> (spectral_models st);
         line_list := line_list st |};;;
  ret m'.

(** The "deep, clean copy of the state" both exporters make. *)
Definition clean_state (m : ModelObject) : M Store State :=
  let! state := deepcopy (__getstate__ m) in
  metadata_pop state "fitted_result";;;
  metadata_pop state "is_acceptable";;;
  ret state.

(** The loop of [export_selected_spectral_models]. *)
Fixpoint export_loop (rows : list nat) (spectral_model_states : list State)
    (transition_indices : list nat) : M Store (list State * list nat) :=
  match rows with
  | [] => ret (spectral_model_states, transition_indices)
  | index :: rest =>
      let! spectral_model := index_transitions index in
      let! state := clean_state spectral_model in
      export_loop rest (spectral_model_states ++ [state])
        (transition_indices ++ obj_transition_indices spectral_model)
  end.

(** [export_selected_spectral_models()]; [path] is what the file dialog
    returns and the value is what goes into the file. *)
Definition export_selected_spectral_models (path : option string) (selectedRows : list nat)
    : M Store (option (LineList * list Written)) :=
  match path with
  | None => ret None
  | Some _ =>
      let! r := export_loop selectedRows [] [] in
      let! st := get in
      let! line_list_subset := subscript IndexError (Np.take (line_list st) r.2) in
      ret (Some (line_list_subset, write_state st <$> r.1))
  end.

(** The loop of [save_as_default]; ["{}".format(h)] of a hash string is
    the string itself. *)
Fixpoint default_states (indices : list nat) (states : list State) : M Store (list State) :=
  match indices with
  | [] => ret states
  | index :: rest =>
      let! spectral_model := index_transitions index in
      let! state := clean_state spectral_model in
      let state := {| state_entries := state_entries state;
                      state_transition_hashes := (λ h, h) <$> state_transition_hashes state;
                      state_metadata := state_metadata state |} in
      default_states rest (states ++ [state])
  end.

(** [save_as_default()]: the value is the setting stored under
    [default_spectral_models]. *)
Definition save_as_default : M Store (list Written) :=
  let! st := get in
  let! states := default_states (seq 0 (length (spectral_models st))) [] in
  let! st := get in
  ret (write_state st <$> states).

End Exporters.

End ModelExport.


(** ** [linelist_manager.py]: sorting the table of spectral models *)

Module SpectralModelsTableSort.
Import LineListManager.

(** The values the sort keys take. *)
Inductive Key : Type := KFloat (x : float) | KStr (s : string) | KBool (b : bool).

Definition key_ltb (a b : Key) : bool :=
  match a, b with
  | KFloat x, KFloat y => PrimFloat.ltb x y
  | KStr x, KStr y => String.ltb x y
  | KBool x, KBool y => negb x && y
  | _, _ => false
  end.

Section Handlers.
Context `{Utils}.
(** [sm.transitions["wavelength"].mean()] and [sm._repr_element], which
    belong to [smh.spectral_models]. *)
Context (mean_wavelength : SpectralModel → float) (_repr_element : SpectralModel → string).

(** The dictionary [sorters]. *)
Definition sorters (column : nat) : option (SpectralModel → Key) :=
  match column with
  | 0 => Some (λ sm, KFloat (mean_wavelength sm))
  | 1 => Some (λ sm, KStr (_repr_element sm))
  | 2 => Some (λ sm, KBool (isinstance_synthesis sm))
  | 3 => Some (λ sm, KBool (use_for_stellar_parameter_inference (metadata sm)))
  | 4 => Some (λ sm, KBool (use_for_stellar_composition_inference (metadata sm)))
  | _ => None
  end.

(** [models.sort(key=key)]: ascending by key, models of equal key in the
    order they had. *)
Definition sort_by_key (key : SpectralModel → Key) (models : list SpectralModel)
    : list SpectralModel :=
  omap (λ i, models !! i) (Np.argsort_by key_ltb (key <$> models)).

(** [SpectralModelsTableModel.sort(column, order)]. *)
Definition sort (column : nat) (order : LineListTableModel.SortOrder) : M Session unit :=
  let! s := get in
  match spectral_models s with
  | None => ret tt
  | Some models =>
      let! key := subscript KeyError (sorters column) in
      let sorted := sort_by_key key models in
      modify (set_spectral_models
                (match order with
                 | LineListTableModel.DescendingOrder => reverse sorted
                 | LineListTableModel.AscendingOrder => sorted
                 end));;;
      update_spectral_model_conflicts
  end.

End Handlers.
End SpectralModelsTableSort.

(** ** [chemical_abundances.py]: drawing a mask with the mouse *)

Module MaskGesture.
Import Mask.

(** The tab together with what its mouse handlers keep between events:
    the attribute [_interactive_mask_region_signal], which exists from a
    click to the release that follows it, and [xy[0, 0]] and [xy[2, 0]] of
    the patch that is drawn while dragging. *)
Record Axis : Type := mkAxis {
  tab : ChemicalAbundancesTab.Tab;
  signal : option (float * nat);
  patch_xy : float * float;
}.

Definition set_tab (t : ChemicalAbundancesTab.Tab) (a : Axis) : Axis :=
  {| tab := t; signal := signal a; patch_xy := patch_xy a |}.

(** A handler of the tab, run on the tab of the axis. *)
Definition on_tab {A} (c : M ChemicalAbundancesTab.Tab A) : M Axis A :=
  λ a, match c (tab a) with
       | Returned t x => Returned (set_tab t a) x
       | Raised t e => Raised (set_tab t a) e
       end.

Definition DOUBLE_CLICK_INTERVAL : float := 0.1.

Section Handlers.
Context `{SpectralModels}.

(** [_get_selected_model(True)]: the row selected in the table and the
    model in that row; [None] when nothing is selected. *)
Definition _get_selected_model (selected : option nat)
    : M Axis (option (nat * SpectralModel)) :=
  match selected with
  | None => ret None
  | Some index =>
      let! a := get in
      let! models :=
        subscript KeyError (spectral_models (ChemicalAbundancesTab.session (tab a))) in
      let! model := subscript IndexError (models !! index) in
      ret (Some (index, model))
  end.

(** [spectrum_axis_mouse_press(event)]; [now] is [time.time()] and [cid]
    the connection id that [mpl_connect] returns. *)
Definition spectrum_axis_mouse_press (dblclick : bool) (selected : option nat)
    (xdata : float) (now : float) (cid : nat) : M Axis unit :=
  if dblclick then
    on_tab (ChemicalAbundancesTab.spectrum_axis_mouse_press true selected xdata)
  else
    modify (λ a, {| tab := tab a; signal := Some (now, cid); patch_xy := (xdata, nan) |}).

(** [update_mask_region(event)], the handler of mouse motion. *)
Definition update_mask_region (event_xdata : option float) (now : float) : M Axis unit :=
  match event_xdata with
  | None => ret tt
  | Some x =>
      let! a := get in
      match signal a with
      | None => raise AttributeError
      | Some (signal_time, _) =>
          if PrimFloat.ltb DOUBLE_CLICK_INTERVAL (now - signal_time)
          then put {| tab := tab a; signal := signal a; patch_xy := ((patch_xy a).1, x) |}
          else ret tt
      end
  end.

(** [spectrum_axis_mouse_release(event)]. *)
Definition spectrum_axis_mouse_release (event_xdata : option float)
    (selected : option nat) (now : float) : M Axis unit :=
  let! a := get in
  match signal a with
  | None => ret tt
  | Some (signal_time, signal_cid) =>
      let xy := patch_xy a in
      let xdata := match event_xdata with None => xy.2 | Some x => x end in
      (if PrimFloat.ltb DOUBLE_CLICK_INTERVAL (now - signal_time)
          && PrimFloat.ltb 0 (abs (xy.1 - xdata))
       then
         let! found := _get_selected_model selected in
         match found with
         | None => raise RuntimeError
         | Some (index, spectral_model) =>
             on_tab (ChemicalAbundancesTab.store_model index
                       (set_metadata
                          (λ md, set_mask (mask md ++ [(xy.1, xy.2)]) md) spectral_model));;;
             on_tab (ChemicalAbundancesTab.call_fit index)
         end
       else ret tt);;;
      modify (λ a, {| tab := tab a; signal := None; patch_xy := (nan, nan) |})
  end.

End Handlers.
End MaskGesture.

(** ** [balmer.py]: what the table of fit options shows *)

Module BalmerLineOptionsTableData.
Import BalmerLineOptionsTableModel.

Inductive Role : Set := DisplayRole | CheckStateRole | OtherRole.

Global Instance Role_eq_dec : EqDecision Role.
Proof. solve_decision. Defined.

(** What [data] hands to the view: [None], a check state, or a text. *)
Inductive Shown : Type :=
| ShownNone
| ShownCheck (checked : bool)
| ShownText (text : string).

(** [rowCount(parent)]. *)
Definition rowCount (o : Options) : nat := length (_parameters o).

Section Handlers.
(** ["{}".format(value)] of a number. *)
Context (show_float : float → string).

(** [data(index, role)] for the valid index at [(row, column)]. *)
Definition data (row column : nat) (role : Role) : M Options Shown :=
  let! o := get in
  if bool_decide (column = 0) && bool_decide (row < 3)
     && bool_decide (role = DisplayRole ∨ role = CheckStateRole)
  then
    let! parameter := subscript IndexError (_parameters o !! row) in
    let! value := subscript KeyError (enabled o !! parameter) in
    match role with
    | CheckStateRole => ret (ShownCheck value)
    | _ => ret ShownNone
    end
  else if bool_decide (column = 0) && bool_decide (3 ≤ row)
          && bool_decide (role = DisplayRole)
  then ret (ShownText "")
  else if negb (bool_decide (role = DisplayRole)) then ret ShownNone
  else
    let! parameter := subscript IndexError (_parameters o !! row) in
    let stored := get_bounds o parameter in
    let! value := subscript IndexError ([stored.1; stored.2] !! (column - 1)) in
    match value with
    | None => ret (ShownText "None")
    | Some x =>
        if PrimFloat.eqb x infinity then ret (ShownText "+inf")
        else if PrimFloat.eqb x neg_infinity then ret (ShownText "-inf")
        else ret (ShownText (show_float x))
    end.

End Handlers.
End BalmerLineOptionsTableData.

(** ** [balmer.py]: the dialog *)

Module BalmerLineFittingDialog.

(** A spectrum as far as the dialog looks into it: the values of
    [dispersion.min()] and [dispersion.max()]. *)
Record Spectrum1D : Type := mkSpectrum1D {
  dispersion_min : float;
  dispersion_max : float;
}.

Definition __balmer_line_wavelengths : list float := [6563; 4861; 4341; 4102]%float.

(** The labels that [__init__] keeps for the spectra; [show] prints a
    number as ["{}".format] does. *)
Definition observed_spectra_labels (show : nat → string)
    (observed_spectra : list Spectrum1D) (labels : option (list string))
    : exn + list string :=
  match labels with
  | Some labels =>
      if negb (bool_decide (length labels = length observed_spectra)) then inl ValueError
      else if bool_decide (length (remove_dups labels) < length labels) then inl ValueError
      else inr labels
  | None =>
      inr ((λ i, String.append "Order " (show i)) <$> seq 1 (length observed_spectra))
  end.

(** The inner loop of [_identify_balmer_lines]: the spectra that hold
    one wavelength. *)
Definition spectrum_indices (observed_spectra : list Spectrum1D) (wavelength : float)
    : list nat :=
  fst <$> filter (λ p, PrimFloat.leb wavelength (dispersion_max p.2)
                       && PrimFloat.leb (dispersion_min p.2) wavelength = true)
            (imap pair observed_spectra).

(** [_identify_balmer_lines()]. *)
Definition _identify_balmer_lines (observed_spectra : list Spectrum1D) : list (list nat) :=
  spectrum_indices observed_spectra <$> __balmer_line_wavelengths.

(** [first_available or i]. *)
Definition py_or (first_available : option nat) (i : nat) : nat :=
  match first_available with
  | None | Some 0 => i
  | Some k => k
  end.

(** The loop of [populate_widgets] over [enumerate(_balmer_line_indices)]. *)
Fixpoint first_available_from (enumerated : list (nat * list nat))
    (first_available : option nat) : option nat :=
  match enumerated with
  | [] => first_available
  | (i, indices) :: rest =>
      if bool_decide (0 < length indices)
      then first_available_from rest (Some (py_or first_available i))
      else first_available_from rest first_available
  end.

(** [populate_widgets()]: which items of the line box are enabled, and the
    index handed to [setCurrentIndex], if any. *)
Definition populate_widgets (_balmer_line_indices : list (list nat))
    : list bool * option nat :=
  ((λ indices, bool_decide (0 < length indices)) <$> _balmer_line_indices,
   first_available_from (imap pair _balmer_line_indices) None).

(** The loop of [updated_balmer_line_selected]: the items added to the
    spectrum box and the position of the one that was selected before. *)
Fixpoint add_items (labels : list string) (enumerated : list (nat * nat))
    (current_spectrum_selected : string) (items : list string)
    (selected_spectrum_index : option nat) : exn + (list string * option nat) :=
  match enumerated with
  | [] => inr (items, selected_spectrum_index)
  | (j, idx) :: rest =>
      match labels !! idx with
      | None => inl IndexError
      | Some spectrum_text =>
          add_items labels rest current_spectrum_selected (items ++ [spectrum_text])
            (if String.eqb spectrum_text current_spectrum_selected
             then Some j else selected_spectrum_index)
      end
  end.

(** [updated_balmer_line_selected()]: the items of the spectrum box and
    its current index afterwards. *)
Definition updated_balmer_line_selected (_balmer_line_indices : list (list nat))
    (labels : list string) (selected_balmer_index : nat)
    (current_spectrum_selected : string) : exn + (list string * nat) :=
  match _balmer_line_indices !! selected_balmer_index with
  | None => inl IndexError
  | Some indices =>
      match add_items labels (imap pair indices) current_spectrum_selected [] None with
      | inl e => inl e
      | inr (items, selected_spectrum_index) =>
          inr (items, default 0 selected_spectrum_index)
      end
  end.

End BalmerLineFittingDialog.


(** ** The conflict detector *)

Module ConflictDetector.
Import Model.

(** Two models share at least one transition hash. *)
Definition share_a_transition (a b : SpectralModel) : bool :=
  existsb (λ h, bool_decide (h ∈ _transition_hashes b)) (_transition_hashes a).

(** Model [j] is in [group] or shares a transition with a model of it. *)
Definition joined (models : list SpectralModel) (group : list nat) (j : nat) : bool :=
  bool_decide (j ∈ group)
  || existsb (λ i, match models !! i, models !! j with
                   | Some a, Some b => share_a_transition a b
                   | _, _ => false
                   end) group.

(** One step along the edges of the graph, from every model of [group]. *)
Definition reach (models : list SpectralModel) (group : list nat) : list nat :=
  filter (λ j, joined models group j = true) (seq 0 (length models)).

(** The connected component of model [i], its models in the order of
    their indices. *)
Definition component (models : list SpectralModel) (i : nat) : list nat :=
  Nat.iter (length models) (reach models) [i].

(** Modelled from the spec: [smh.utils.spectral_model_conflicts] is not
    among the sources.  The specification has it build a graph over the
    indices of the models, with an edge wherever two models share one
    transition hash or more, and return the connected components of two
    models or more; the components come in the order of the smallest
    index they hold, and the models of a component in the order of their
    indices.  The store is an argument that the groups do not depend
    on. *)
Definition compute (models : list SpectralModel) (store : LineList) : list (list nat) :=
  omap (λ i, let group := component models i in
             if bool_decide (head group = Some i) && bool_decide (2 ≤ length group)
             then Some group else None)
       (seq 0 (length models)).


End ConflictDetector.


(** * Sample data

    The store of three transitions and the two profile models of the
    specification's example, and stand-ins for the collaborators, used
    where a statement is tried on concrete input. *)

Module Sample.

Definition line (w : float) (el h : string) (ew : option float) : Transition :=
  mkTransition w el 0 0 0 0 "" h ew.

Definition three_lines : LineList :=
  [line 5000 "Fe" "h1" None; line 5100 "Fe" "h2" None; line 5200 "Ti" "h3" None].

Definition plain_metadata : Metadata :=
  mkMetadata false false true [] (Some false) None.

Definition profile_on (hashes : list string) : SpectralModel :=
  mkSpectralModel Profile hashes [] plain_metadata.

(** [ProfileFittingModel(h1)] and [ProfileFittingModel(h1, h2)] over the
    three transitions; the two models form the conflict group [{0, 1}]. *)
Definition two_models_session : Session :=
  mkSession (Some three_lines) (Some [0; 1; 2])
    (Some [profile_on ["h1"]; profile_on ["h1"; "h2"]]) [[0; 1]].

(** Modelled from the spec: [LineList.merge] of [smh.linelists] is not
    among the sources.  The merge makes a new table of the rows of both;
    with [skip_exactly_equal_lines] a row of [other] whose hash the table
    has already is left out; a row of [other] that shares wavelength and
    species with a row of the table but not its hash is a conflict, which
    raises unless [ignore_conflicts] is set. *)
Definition merge_tables (self other : LineList)
    (skip_exactly_equal_lines ignore_conflicts : option bool) : exn + LineList :=
  let added :=
    filter (λ t, default false skip_exactly_equal_lines = false ∨ hash t ∉ column_hash self)
      other in
  let clashes :=
    filter (λ t, Exists (λ u, PrimFloat.eqb (wavelength u) (wavelength t) = true
                               ∧ element u = element t ∧ hash u ≠ hash t) self) added in
  if bool_decide (clashes = [] ∨ default false ignore_conflicts = true)
  then inr (self ++ added)
  else inl ConflictError.

Definition sample_linelists : LineLists :=
  {| merge := merge_tables;
     unique_elements := λ ll, remove_dups (element <$> ll) |}.

(** The row of each hash in the session's line list. *)
Definition rows_of_hashes (s : Session) (hashes : list string) : list nat :=
  omap (λ h, fst <$> list_find (λ t, hash t = h) (default [] (line_list s))) hashes.

(** A fit that succeeds and changes nothing, where only the control flow
    around the call matters. *)
Definition sample_models : SpectralModels :=
  {| initial_metadata := λ _, plain_metadata;
     resolve_indices := rows_of_hashes;
     fit := λ m, (m, None) |}.

Definition used_for_inference (m : SpectralModel) : bool :=
  use_for_stellar_parameter_inference (metadata m)
  || use_for_stellar_composition_inference (metadata m).

(** A stand-in for the conflict detector, used where the groups it
    gives do not matter: for each transition of the line list, the models
    in use for inference that refer to it, when there are two or more. *)
Definition shared_transitions (models : list SpectralModel) (ll : LineList)
    : list (list nat) :=
  omap (λ t,
          let users :=
            fst <$> filter (λ p, used_for_inference p.2 = true
                                 ∧ hash t ∈ _transition_hashes p.2)
                      (imap pair models) in
          if bool_decide (2 ≤ length users) then Some users else None) ll.

Definition sample_utils : Utils :=
  {| spectral_model_conflicts := shared_transitions |}.

(** A stand-in for [np.log10], where its values do not matter. *)
Definition sample_numpy : Numpy := {| log10 := λ x, x |}.

(** A session with one pre-measured line and a file with another. *)
Definition one_measured_line : Session :=
  mkSession (Some [line 5000 "Fe" "h2" (Some 10%float)]) (Some [0]) None [].

Definition measured_file : LineList := [line 5100 "Fe" "h1" (Some 20%float)].

(** A fit that raises [ValueError] on a model without transitions and
    otherwise records an equivalent width of 0.05 Angstroms. *)
Definition fit_unless_empty (m : SpectralModel) : SpectralModel * option exn :=
  match _transition_hashes m with
  | [] => (m, Some ValueError)
  | _ =>
      (set_metadata
         (λ md, {| is_acceptable := is_acceptable md;
                   use_for_stellar_parameter_inference :=
                     use_for_stellar_parameter_inference md;
                   use_for_stellar_composition_inference :=
                     use_for_stellar_composition_inference md;
                   mask := mask md;
                   antimask_flag := antimask_flag md;
                   fitted_result := Some (mkFitMeta (Some (0.05, 0, 0)%float) None None) |}) m,
       None)
  end.

Definition failing_models : SpectralModels :=
  {| initial_metadata := λ _, plain_metadata;
     resolve_indices := rows_of_hashes;
     fit := fit_unless_empty |}.

(** A stand-in for the table's sort: rows moved up while their cell is
    smaller, so that rows with equal cells stay as they were. *)
Definition cell_ltb (a b : LineListManager.LineListTableModel.Cell) : bool :=
  match a, b with
  | LineListManager.LineListTableModel.CFloat x,
    LineListManager.LineListTableModel.CFloat y => PrimFloat.ltb x y
  | LineListManager.LineListTableModel.CStr x,
    LineListManager.LineListTableModel.CStr y => String.ltb x y
  | _, _ => false
  end.

Definition sort_by_insertion : LineListManager.LineListTableModel.Table :=
  {| LineListManager.LineListTableModel.table_sort := λ c ll,
       omap (λ i, ll !! i)
         (Np.argsort_by cell_ltb (LineListManager.LineListTableModel.cell c <$> ll)) |}.

(** A fit that does as [fit_unless_empty] does, but for the exception
    it raises on a model without transitions: [IndexError]. *)
Definition fit_or_IndexError (m : SpectralModel) : SpectralModel * option exn :=
  match _transition_hashes m with
  | [] => (m, Some IndexError)
  | _ :: _ => fit_unless_empty m
  end.

Definition stumbling_models : SpectralModels :=
  {| initial_metadata := λ _, plain_metadata;
     resolve_indices := rows_of_hashes;
     fit := fit_or_IndexError |}.

Definition acceptable_on (hashes : list string) : SpectralModel :=
  mkSpectralModel Profile hashes [] (mkMetadata true false true [] (Some false) None).

Definition two_acceptable : ChemicalAbundancesTab.Tab :=
  ChemicalAbundancesTab.mkTab
    (mkSession (Some three_lines) (Some [0; 1; 2])
       (Some [acceptable_on []; acceptable_on ["h1"]]) [])
    [] [].

(** A profile model on one row, fitted with an equivalent width of 0.05
    Angstroms. *)
Definition fitted_profile (row : nat) (h : string) (acceptable : bool) : SpectralModel :=
  mkSpectralModel Profile [h] [row]
    (mkMetadata acceptable false true [] (Some false)
       (Some (mkFitMeta (Some (0.05, 0, 0)%float) None None))).

Definition synthesis_on (hashes : list string) : SpectralModel :=
  mkSpectralModel (Synthesis ["Ti"]) hashes [] plain_metadata.




(** A stand-in for the radiative transfer: the abundance of a row is its
    equivalent width. *)
Definition echo_transfer : RadiativeTransfer :=
  {| abundance_cog := λ rows, inr ((λ t, default nan (equivalent_width t)) <$> rows) |}.

(** A profile model with three mask intervals, in mask mode. *)
Definition masked_model : SpectralModel :=
  mkSpectralModel Profile ["h1"] [0]
    (mkMetadata true false true [(1, 3); (2, 5); (6, 7)]%float (Some false) None).

Definition masked_tab : ChemicalAbundancesTab.Tab :=
  ChemicalAbundancesTab.mkTab
    (mkSession (Some three_lines) (Some [0; 1; 2]) (Some [masked_model]) []) [] [].

Definition masked_display : SMHSpecDisplay.Display :=
  SMHSpecDisplay.mkDisplay
    (mkSession (Some three_lines) (Some [0; 1; 2]) (Some [masked_model]) [])
    None false SMHSpecDisplay.signal_None (nan, nan).

(** The same display with the shift key held down. *)
Definition shift_display : SMHSpecDisplay.Display :=
  SMHSpecDisplay.mkDisplay
    (mkSession (Some three_lines) (Some [0; 1; 2]) (Some [masked_model]) [])
    None true SMHSpecDisplay.signal_None (nan, nan).

(** The same display with a signal in place, as a click that had run to
    its end would leave it. *)
Definition armed_display : SMHSpecDisplay.Display :=
  SMHSpecDisplay.mkDisplay
    (mkSession (Some three_lines) (Some [0; 1; 2]) (Some [masked_model]) [])
    (Some 0) false (SMHSpecDisplay.signal_set 10 1) (2.5, 4)%float.

(** Stand-ins for reading and printing numbers, where no text is read. *)
Definition no_parse : string → option float := λ _, None.
Definition no_show : nat → string := λ _, ""%string.

(** The fit options with bounds 0.2 and 1 on the radial velocity. *)
Definition bounded_options : BalmerLineOptionsTableModel.Options :=
  BalmerLineOptionsTableModel.mkOptions ["redshift"; "smoothing"; "continuum"]%string
    {[ "redshift"%string := (Some 0.2%float, Some 1%float) ]} ∅ None.

Definition fresh_options : BalmerLineOptionsTableModel.Options :=
  BalmerLineOptionsTableModel.mkOptions ["redshift"; "smoothing"; "continuum"]%string ∅ ∅ None.


(** The rows of a line list that carry the given hashes. *)
Definition rows_by_hash (ll : LineList) (hashes : list string) : list nat :=
  omap (λ h, fst <$> list_find (λ t, hash t = h) ll) hashes.

(** A store with one fitted profile model on [h1]. *)
Definition one_model_store : ModelExport.Store :=
  ModelExport.mkStore
    {[ 0 := {[ "window"%string := ModelExport.PFloat 5;
               "fitted_result"%string := ModelExport.PList [ModelExport.PNone];
               "is_acceptable"%string := ModelExport.PBool true ]} ]}
    [ModelExport.mkModelObject
       {[ "type"%string := ModelExport.PStr "ProfileFittingModel" ]} ["h1"%string] [0] 0]
    three_lines.

End Sample.

(** * Reasoning about handlers *)

Module PyFacts.

(** Inversion of a sequence that returned. *)
Lemma bind_Returned {S A B} (c : M S A) (k : A → M S B) s s' b :
  bind c k s = Returned s' b → ∃ s1 a, c s = Returned s1 a ∧ k a s1 = Returned s' b.
Proof. unfold bind. destruct (c s) as [s1 a|]; [eauto|done]. Qed.

Lemma subscript_Returned {S A} e (o : option A) (s s' : S) a :
  subscript e o s = Returned s' a → s' = s ∧ o = Some a.
Proof. destruct o; unfold subscript, ret, raise; intros [=]; by subst. Qed.

Lemma get_Returned {S} (s s' a : S) : get s = Returned s' a → s' = s ∧ a = s.
Proof. by intros [= <- <-]. Qed.

Lemma modify_Returned {S} (f : S → S) (s s' : S) u : modify f s = Returned s' u → s' = f s.
Proof. by intros [= <-]. Qed.

Lemma ret_Returned {S A} (a b : A) (s s' : S) : ret a s = Returned s' b → s' = s ∧ b = a.
Proof. by intros [= <- <-]. Qed.


End PyFacts.

(** * Properties of the line list manager *)

Module LineListFacts.
Import PyFacts LineListManager LineListManager.LineListTableView.

(** A selected row that the deletion is allowed to drop: no model uses
    its hash. *)
Definition deletable (used : list string) (rows : list nat) (i : nat) (t : Transition) : bool :=
  bool_decide (i ∈ rows) && negb (bool_decide (hash t ∈ used)).

(** The line list that a deletion leaves. *)
Definition surviving (ll : LineList) (rows : list nat) (used : list string) : LineList :=
  snd <$> filter (λ p, negb (deletable used rows p.1 p.2) = true) (imap pair ll).

(** The hash of row [r] is one that some model refers to. *)
Definition in_use (ll : LineList) (used : list string) (r : nat) : bool :=
  match ll !! r with
  | Some t => bool_decide (hash t ∈ used)
  | None => false
  end.

(** The loop over the selection: what the mask and the counter hold when
    it ends. *)
Lemma mark_rows_spec (ll : LineList) used rows : ∀ mask n,
  Forall (λ r, r < length ll) rows →
  length mask = length ll →
  ∃ mask' n',
    mark_rows (column_hash ll) used rows mask n = Some (mask', n') ∧
    length mask' = length ll ∧
    (∀ i t, ll !! i = Some t →
       mask' !! i = (λ b, b && negb (deletable used rows i t)) <$> mask !! i) ∧
    n' = n + length (filter (λ r, in_use ll used r = true) rows).
Proof.
  induction rows as [|row rows IH]; intros mask n Hrows Hlen; simpl.
  - exists mask, n. split; [done|]. split; [done|]. split; [|simpl; lia].
    intros i t Hi. unfold deletable.
    destruct (mask !! i) as [b|]; simpl; [|done]. by rewrite andb_true_r.
  - inversion Hrows as [|? ? Hrow Hrest]; subst.
    destruct (lookup_lt_is_Some_2 ll row Hrow) as [t Ht].
    unfold column_hash. rewrite list_lookup_fmap Ht. simpl.
    case_bool_decide as Hu.
    + destruct (IH mask (S n) Hrest Hlen) as (mask' & n' & Hm & Hl & Hchar & Hn).
      exists mask', n'. split; [done|]. split; [done|]. split.
      * intros i t' Hi. rewrite (Hchar i t' Hi). destruct (mask !! i) as [b|]; simpl; [|done].
        f_equal. f_equal. f_equal. unfold deletable.
        destruct (decide (i = row)) as [->|Hne].
        -- assert (t' = t) as -> by congruence.
           rewrite (bool_decide_eq_true_2 (hash t ∈ used)) //. simpl.
           by rewrite !andb_false_r.
        -- f_equal. apply bool_decide_ext. set_solver.
      * rewrite filter_cons_True; [|simpl; lia].
        simpl. unfold in_use. rewrite Ht. by apply bool_decide_eq_true_2.
    + assert (length (<[row:=false]> mask) = length ll) as Hlen' by by rewrite length_insert.
      destruct (IH _ n Hrest Hlen') as (mask' & n' & Hm & Hl & Hchar & Hn).
      exists mask', n'. split; [done|]. split; [done|]. split.
      * intros i t' Hi. rewrite (Hchar i t' Hi). unfold deletable.
        destruct (decide (i = row)) as [->|Hne].
        -- assert (t' = t) as -> by congruence.
           rewrite list_lookup_insert_eq; [lia|].
           destruct (lookup_lt_is_Some_2 mask row ltac:(lia)) as [b Hb]. rewrite Hb. simpl.
           rewrite (bool_decide_eq_true_2 (row ∈ row :: rows)); [set_solver|].
           rewrite (bool_decide_eq_false_2 (hash t ∈ used)) //. simpl. by rewrite andb_false_r.
        -- rewrite list_lookup_insert_ne //. destruct (mask !! i) as [b|]; simpl; [|done].
           f_equal. f_equal. f_equal. f_equal. apply bool_decide_ext. set_solver.
      * rewrite filter_cons_False; [|done].
        simpl. unfold in_use. rewrite Ht. by rewrite bool_decide_eq_false_2.
Qed.

(** Selecting with a boolean mask is filtering by position. *)
Lemma select_imap {A} (f : nat → A → bool) : ∀ (l : list A) (mask : list bool) k,
  length mask = length l →
  (∀ i t, l !! i = Some t → mask !! i = Some (f (k + i) t)) →
  Np.select l mask = snd <$> filter (λ p, f p.1 p.2 = true) (imap (λ i, pair (k + i)) l).
Proof.
  induction l as [|x l IH]; intros [|b mask] k Hlen Hm; simplify_eq/=; [done|].
  assert (b = f k x) as ->.
  { specialize (Hm 0 x eq_refl). simpl in Hm. rewrite Nat.add_0_r in Hm. congruence. }
  assert (Np.select l mask =
          snd <$> filter (λ p, f p.1 p.2 = true) (imap ((λ i, pair (k + i)) ∘ S) l)) as Htl.
  { rewrite (IH mask (S k)); [lia| |].
    - intros i t Hi. specialize (Hm (S i) t Hi). simpl in Hm. rewrite Hm.
      do 2 f_equal. lia.
    - f_equal. f_equal. apply imap_ext. intros i y _. simpl. f_equal. lia. }
  unfold Np.select in *. simpl.
  rewrite Nat.add_0_r.
  destruct (f k x) eqn:Hf.
  - rewrite !filter_cons_True //=. f_equal. exact Htl.
  - rewrite !filter_cons_False /=; [congruence..|]. exact Htl.
Qed.

Lemma select_all {A} (l : list A) : ∀ mask,
  length mask = length l → Np.all mask = true → Np.select l mask = l.
Proof.
  induction l as [|x l IH]; intros [|b mask] Hlen Hall; simplify_eq/=; [done|].
  apply andb_true_iff in Hall as [Hb Hall]. unfold id in Hb. subst b.
  unfold Np.select in *. simpl. f_equal. by apply (IH mask).
Qed.

Lemma elem_of_surviving ll rows used i t :
  ll !! i = Some t → negb (deletable used rows i t) = true → t ∈ surviving ll rows used.
Proof.
  intros Hi Hs. unfold surviving. apply list_elem_of_fmap. exists (i, t). split; [done|].
  apply list_elem_of_filter. split; [done|].
  apply list_elem_of_lookup. exists i. by rewrite list_lookup_imap Hi.
Qed.

(** C1, as amended.  Deleting the selected rows of the line list never
    raises and never removes a transition that a spectral model refers to:
    the rows that go are exactly the selected rows whose hash no model
    uses.  The selected rows that are in use stay and are counted in a
    warning; the spectral models are not touched; and when every selected
    row is in use the session is left as it was. *)
Theorem delete_selected_rows_spares_lines_in_use (s : Session) (ll : LineList) (rows : list nat) :
  line_list s = Some ll →
  Forall (λ r, r < length ll) rows →
  ∃ s' warning,
    delete_selected_rows rows s = Returned s' warning ∧
    line_list s' = Some (surviving ll rows (all_hashes_used s)) ∧
    spectral_models s' = spectral_models s ∧
    (∀ t, t ∈ ll → hash t ∈ all_hashes_used s → t ∈ surviving ll rows (all_hashes_used s)) ∧
    (∀ i t, ll !! i = Some t → i ∉ rows → t ∈ surviving ll rows (all_hashes_used s)) ∧
    warning =
      (let N_skipped := length (filter (λ r, in_use ll (all_hashes_used s) r = true) rows) in
       if bool_decide (0 < N_skipped) then Some N_skipped else None) ∧
    ((∀ r, r ∈ rows → in_use ll (all_hashes_used s) r = true) → s' = s).
Proof.
  intros Hll Hrows.
  destruct (mark_rows_spec ll (all_hashes_used s) rows (replicate (length ll) true) 0 Hrows)
    as (mask' & n' & Hm & Hl & Hchar & Hn); [by rewrite length_replicate|].
  assert (Np.select ll mask' = surviving ll rows (all_hashes_used s)) as Hsel.
  { unfold surviving. rewrite (select_imap (λ i t, negb (deletable (all_hashes_used s) rows i t)) ll mask' 0) //.
    intros i t Hi. rewrite (Hchar i t Hi). rewrite lookup_replicate_2 //.
    by eapply lookup_lt_Some. }
  assert (∀ t, t ∈ ll → hash t ∈ all_hashes_used s → t ∈ surviving ll rows (all_hashes_used s)) as Hused.
  { intros t [i Hi]%list_elem_of_lookup Hu. apply (elem_of_surviving _ _ _ i t Hi).
    unfold deletable. rewrite (bool_decide_eq_true_2 (hash t ∈ _)) //. by rewrite andb_false_r. }
  assert (∀ i t, ll !! i = Some t → i ∉ rows → t ∈ surviving ll rows (all_hashes_used s)) as Hunsel.
  { intros i t Hi Hni. apply (elem_of_surviving _ _ _ i t Hi).
    unfold deletable. by rewrite (bool_decide_eq_false_2 (i ∈ rows)). }
  unfold delete_selected_rows, metadata_line_list, update_line_list_argsort_hashes,
    metadata_line_list, bind, get, subscript, modify, ret. rewrite Hll. simpl.
  rewrite Hm. simpl. subst n'. simpl.
  destruct (Np.all mask') eqn:Hall.
  - eexists _, _. split_and!; [done| |done|done|done|done|done].
    by rewrite Hll -Hsel (select_all ll mask').
  - eexists _, _. split_and!; [done| |done|done|done|done|].
    { simpl. by rewrite Hsel. }
    intros Hin. exfalso.
    assert (Np.all mask' = true); [|congruence].
    unfold Np.all. apply forallb_forall. intros b Hb.
    apply list_elem_of_In, list_elem_of_lookup in Hb as [i Hi].
    destruct (lookup_lt_is_Some_2 ll i) as [t Ht]; [apply lookup_lt_Some in Hi; lia|].
    rewrite (Hchar i t Ht) lookup_replicate_2 in Hi; [by eapply lookup_lt_Some|].
    simpl in Hi. injection Hi as <-. unfold id, deletable.
    destruct (decide (i ∈ rows)) as [Hir|Hir].
    + specialize (Hin i Hir). unfold in_use in Hin. rewrite Ht in Hin. by rewrite Hin andb_false_r.
    + by rewrite (bool_decide_eq_false_2 (i ∈ rows)).
Qed.

(** The theorem at the specification's example, with rows 0 and 2 selected. *)
Lemma delete_selected_rows_spares_lines_in_use_witness :
  ∃ s' warning,
    delete_selected_rows [0; 2] Sample.two_models_session = Returned s' warning ∧
    line_list s' =
      Some (surviving Sample.three_lines [0; 2] (all_hashes_used Sample.two_models_session)) ∧
    spectral_models s' = spectral_models Sample.two_models_session ∧
    (∀ t, t ∈ Sample.three_lines → hash t ∈ all_hashes_used Sample.two_models_session →
          t ∈ surviving Sample.three_lines [0; 2] (all_hashes_used Sample.two_models_session)) ∧
    (∀ i t, Sample.three_lines !! i = Some t → i ∉ [0; 2] →
          t ∈ surviving Sample.three_lines [0; 2] (all_hashes_used Sample.two_models_session)) ∧
    warning =
      (let N_skipped :=
         length (filter (λ r, in_use Sample.three_lines
                                (all_hashes_used Sample.two_models_session) r = true) [0; 2]) in
       if bool_decide (0 < N_skipped) then Some N_skipped else None) ∧
    ((∀ r, r ∈ [0; 2] →
           in_use Sample.three_lines (all_hashes_used Sample.two_models_session) r = true) →
     s' = Sample.two_models_session).
Proof.
  apply (delete_selected_rows_spares_lines_in_use
           Sample.two_models_session Sample.three_lines [0; 2]).
  - reflexivity.
  - repeat constructor.
Defined.

(** C1 as stated fails.  In the specification's example rows 0 and 2 are
    selected; row 0 holds [h1], which both models use.  The handler does
    not fail: it returns, warns about one line, and the line list has lost
    row 2 ([h3]): its length went from three to two. *)
Lemma delete_selected_rows_deletes_beside_lines_in_use :
  in_use Sample.three_lines (all_hashes_used Sample.two_models_session) 0 = true ∧
  ∃ s',
    delete_selected_rows [0; 2] Sample.two_models_session = Returned s' (Some 1) ∧
    column_hash <$> line_list s' = Some ["h1"; "h2"] ∧
    length <$> line_list Sample.two_models_session = Some 3 ∧
    length <$> line_list s' = Some 2.
Proof.
  split; [reflexivity|].
  eexists. split; [vm_compute; reflexivity|]. by vm_compute.
Qed.

Lemma metadata_line_list_Returned s s' ll :
  metadata_line_list s = Returned s' ll → s' = s ∧ line_list s = Some ll.
Proof.
  unfold metadata_line_list. intros (s1 & a & [-> ->]%get_Returned & Hr)%bind_Returned.
  by apply subscript_Returned in Hr.
Qed.

Lemma metadata_spectral_models_Returned s s' sms :
  metadata_spectral_models s = Returned s' sms → s' = s ∧ spectral_models s = Some sms.
Proof.
  unfold metadata_spectral_models. intros (s1 & a & [-> ->]%get_Returned & Hr)%bind_Returned.
  by apply subscript_Returned in Hr.
Qed.

Section Conflicts.
Context `{LineLists} `{SpectralModels} `{Utils} `{Numpy} `{LineListTableModel.Table}.











(** *** Structural changes *)

(** The structural changes of a session: the handlers that create
    spectral models, the one that deletes them, and the deletion of rows
    of the line list. *)
Inductive Change : Type :=
| AddSelectedAsProfiles (rows : list nat)
| AddSelectedAsSynthesis (rows : list nat) (dialog : list string)
| ImportAsProfiles (files : list LineList) (merge_without_conflicts : bool)
| ImportAsSynthesis (files : list LineList) (merge_without_conflicts : bool)
    (input_elements : option (list (list string))) (dialogs : list (list string))
| ImportMeasured (files : list LineList)
| DeleteModels (rows : list nat)
| DeleteLines (rows : list nat).

Definition change (c : Change) : M Session unit :=
  match c with
  | AddSelectedAsProfiles rows => add_selected_rows_as_profile_models rows
  | AddSelectedAsSynthesis rows dialog => add_selected_rows_as_synthesis_model rows dialog
  | ImportAsProfiles files flag => add_imported_lines_as_profile_models files flag
  | ImportAsSynthesis files flag input_elements dialogs =>
      add_imported_lines_as_synthesis_model files flag input_elements dialogs
  | ImportMeasured files => import_transitions_with_measured_equivalent_widths files
  | DeleteModels rows => SpectralModelsTableView.delete_selected_rows rows
  | DeleteLines rows => LineListTableView.delete_selected_rows rows;;; ret tt
  end.


(** Transition [t] is one that a model of [models] refers to. *)
Definition referred (models : list SpectralModel) (t : Transition) : Prop :=
  hash t ∈ models ≫= _transition_hashes.

#[local] Instance referred_dec models t : Decision (referred models t).
Proof. unfold referred. apply _. Defined.








Section Detector.

(** What is assumed of the detector, whose code is not among the sources:
    of the line list it looks at no other rows than those the models refer
    to.  The detector of the specification, which looks at the hashes of
    the models alone, is one such. *)
Hypothesis unreferred_rows_play_no_part : ∀ models ll ll',
  filter (referred models) ll' = filter (referred models) ll →
  spectral_model_conflicts models ll' = spectral_model_conflicts models ll.




End Detector.

(** *** The hash index *)

(** The stored index is the argsort of the hash column of the line list
    that the session holds now. *)
Definition index_current (s : Session) : Prop :=
  ∃ ll, line_list s = Some ll ∧
        line_list_argsort_hashes s = Some (Np.argsort (column_hash ll)).

Lemma update_line_list_argsort_hashes_current s s' u :
  update_line_list_argsort_hashes s = Returned s' u → index_current s'.
Proof.
  unfold update_line_list_argsort_hashes.
  intros (s1 & ll & [-> Hll]%metadata_line_list_Returned & ->%modify_Returned)%bind_Returned.
  by exists ll.
Qed.

Lemma sort_refreshes_index column order s s' :
  LineListTableModel.sort column order s = Returned s' tt →
  (line_list s = None ∧ s' = s) ∨ index_current s'.
Proof.
  unfold LineListTableModel.sort.
  intros (s1 & a & [-> ->]%get_Returned & Hr)%bind_Returned.
  destruct (line_list s) as [ll|] eqn:Hll.
  - right. do 2 apply bind_Returned in Hr as (? & ? & _ & Hr).
    by eapply update_line_list_argsort_hashes_current.
  - left. by apply ret_Returned in Hr as [-> _].
Qed.

Lemma delete_lines_refreshes_index rows s s' w :
  LineListTableView.delete_selected_rows rows s = Returned s' w →
  s' = s ∨ index_current s'.
Proof.
  unfold LineListTableView.delete_selected_rows.
  intros (s1 & ll & [-> Hll]%metadata_line_list_Returned & Hr)%bind_Returned.
  apply bind_Returned in Hr as (s1 & a & [-> ->]%get_Returned & Hr).
  apply bind_Returned in Hr as (s1 & r & [-> _]%subscript_Returned & Hr).
  destruct (Np.all r.1).
  - left. by apply ret_Returned in Hr as [-> _].
  - right. apply bind_Returned in Hr as (s1 & [] & _ & Hr).
    apply bind_Returned in Hr as (s2 & [] & Hu & Hr).
    apply ret_Returned in Hr as [-> _].
    by eapply update_line_list_argsort_hashes_current.
Qed.

Lemma import_refreshes_index files flag s s' r :
  import_from_filename files flag s = Returned s' (Some r) → index_current s'.
Proof.
  unfold import_from_filename. destruct files as [|f rest]; [done|].
  intros Hr. do 3 apply bind_Returned in Hr as (? & ? & _ & Hr).
  apply bind_Returned in Hr as (? & ? & Hu & Hr).
  apply ret_Returned in Hr as [-> _].
  by eapply update_line_list_argsort_hashes_current.
Qed.

(** Importing pre-measured transitions into a session that has a line
    list: the index is computed from the table that is about to be
    replaced. *)
Lemma import_measured_indexes_old_table files s old s' :
  files ≠ [] → line_list s = Some old →
  import_transitions_with_measured_equivalent_widths files s = Returned s' tt →
  line_list_argsort_hashes s' = Some (Np.argsort (column_hash old)).
Proof.
  intros Hne Hold. unfold import_transitions_with_measured_equivalent_widths.
  destruct files as [|f rest]; [done|]. intros Hr.
  apply bind_Returned in Hr as (s1 & loaded & Hl & Hr).
  assert (s1 = s) as ->.
  { unfold lift_exn in Hl. destruct (merge_files _ _ _ _); [done|]. by apply ret_Returned in Hl as [-> _]. }
  apply bind_Returned in Hr as (s1 & a & [-> ->]%get_Returned & Hr).
  rewrite Hold in Hr.
  apply bind_Returned in Hr as (s1 & merged & Hm & Hr).
  assert (s1 = s) as ->.
  { unfold lift_exn in Hm. destruct (merge _ _ _ _); [done|]. by apply ret_Returned in Hm as [-> _]. }
  apply bind_Returned in Hr as (s1 & [] & Hu & Hr).
  unfold update_line_list_argsort_hashes in Hu.
  apply bind_Returned in Hu as (s2 & ll & [-> Hll]%metadata_line_list_Returned & ->%modify_Returned).
  assert (ll = old) as -> by congruence.
  apply bind_Returned in Hr as (s1 & ? & [-> _]%subscript_Returned & Hr).
  apply bind_Returned in Hr as (s1 & ? & ->%modify_Returned & Hr).
  apply bind_Returned in Hr as (s1 & ? & [-> ->]%get_Returned & Hr).
  apply bind_Returned in Hr as (s1 & ? & ->%modify_Returned & Hr).
  apply bind_Returned in Hr as (s1 & ? & He & Hr).
  unfold extend_spectral_models in He.
  apply bind_Returned in He as (s2 & ? & [-> _]%metadata_spectral_models_Returned & ->%modify_Returned).
  unfold update_spectral_model_conflicts in Hr.
  apply bind_Returned in Hr as (s2 & ? & [-> _]%metadata_spectral_models_Returned & Hr).
  apply bind_Returned in Hr as (s2 & ? & [-> _]%metadata_line_list_Returned & ->%modify_Returned).
  simpl. by destruct (spectral_models s).
Qed.

End Conflicts.

(** The detector of the specification finds the group of the example. *)
Example compute_groups_the_example :
  ConflictDetector.compute (get_spectral_models Sample.two_models_session) Sample.three_lines
    = [[0; 1]].
Proof. by vm_compute. Qed.


(** C3 fails in [import_transitions_with_measured_equivalent_widths].
    The session holds one line, [h2]; a file with one measured line, [h1],
    is imported.  The handler returns with a line list of two rows,
    [h2; h1], and with the index [[0]], the argsort of the table it has
    just replaced; the argsort of the hash column now in the session is
    [[1; 0]]. *)
Theorem import_measured_leaves_stale_index :
  ∃ s',
    @import_transitions_with_measured_equivalent_widths
      Sample.sample_linelists Sample.sample_models Sample.sample_utils Sample.sample_numpy
      [Sample.measured_file] Sample.one_measured_line = Returned s' tt ∧
    column_hash <$> line_list s' = Some ["h2"; "h1"] ∧
    line_list_argsort_hashes s' = Some [0] ∧
    Np.argsort ["h2"; "h1"] = [1; 0].
Proof.
  eexists. split_and!; by vm_compute.
Qed.

End LineListFacts.

(** * Properties of the abundances tab *)

Module FitFacts.
Import PyFacts ChemicalAbundancesTab.

Section Fit.
Context `{SpectralModels} `{RadiativeTransfer}.

(** The exceptions that the handlers around [m.fit()] take for a failed
    fit. *)
Definition fit_failure (o : option exn) : Prop :=
  o = None ∨ o = Some ValueError ∨ o = Some RuntimeError.

Definition models_of (t : Tab) : list SpectralModel := get_spectral_models (session t).

(** The tab after the model at [i] was replaced and the outcome of its fit
    was logged. *)
Definition fitted_at (i : nat) (m : SpectralModel) (t : Tab) : Tab :=
  {| session := set_spectral_models (<[i := (fit m).1]> (models_of t)) (session t);
     debug_log := debug_log t ++ option_list (fit m).2;
     cog_calls := cog_calls t |}.

(** One guarded call of [fit]: the model is replaced, a failure is logged,
    and the handler goes on. *)
Lemma try_fit_spec i m t :
  models_of t !! i = Some m → fit_failure (fit m).2 →
  try_fit i t = Returned (fitted_at i m t) tt.
Proof.
  intros Hi Hf. unfold try_fit, try_except, call_fit, all_spectral_models, store_model,
    bind, get, ret, subscript, modify, raise, logger_debug.
  fold (models_of t). rewrite Hi. simpl.
  unfold fitted_at. destruct Hf as [Hf|[Hf|Hf]]; rewrite Hf; simpl.
  - by rewrite app_nil_r; destruct t.
  - done.
  - done.
Qed.

Lemma fit_by_kind_spec i m t :
  models_of t !! i = Some m → fit_failure (fit m).2 →
  fit_by_kind i m t = Returned (fitted_at i m t) tt.
Proof.
  intros Hi Hf. unfold fit_by_kind, isinstance_synthesis, isinstance_profile.
  destruct (kind m); unfold bind; simpl.
  - by rewrite (try_fit_spec i m).
  - by rewrite (try_fit_spec i m).
Qed.

Definition acceptable (m : SpectralModel) : bool := is_acceptable (metadata m).

(** The models of a list with those in a subset replaced by what their fit
    leaves, and the failures of that subset in list order. *)
Definition fit_where (P : SpectralModel → bool) (ms : list SpectralModel)
    : list SpectralModel :=
  (λ m, if P m then (fit m).1 else m) <$> ms.

Definition failures_where (P : SpectralModel → bool) (ms : list SpectralModel) : list exn :=
  omap (λ m, if P m then (fit m).2 else None) ms.

Lemma models_of_fitted_at i m t :
  models_of (fitted_at i m t) = <[i := (fit m).1]> (models_of t).
Proof. done. Qed.

Lemma insert_middle {A} (done rest : list A) (x y : A) :
  <[length done := y]> (done ++ x :: rest) = (done ++ [y]) ++ rest.
Proof.
  rewrite insert_app_r_alt; [lia|]. rewrite Nat.sub_diag. simpl. by rewrite -app_assoc.
Qed.

(** An exception that the handlers around [m.fit()] do not take: it
    leaves them as it came. *)
Definition escapes (o : option exn) (e : exn) : Prop :=
  o = Some e ∧ e ≠ ValueError ∧ e ≠ RuntimeError.

(** The tab after the model at [i] was replaced by what a fit left of it
    that raised past the handler: nothing is logged. *)
Definition left_at (i : nat) (m : SpectralModel) (t : Tab) : Tab :=
  {| session := set_spectral_models (<[i := (fit m).1]> (models_of t)) (session t);
     debug_log := debug_log t;
     cog_calls := cog_calls t |}.

Lemma try_fit_escapes i m t e :
  models_of t !! i = Some m → escapes (fit m).2 e →
  try_fit i t = Raised (left_at i m t) e.
Proof.
  intros Hi (Hf & Hv & Hr). unfold try_fit, try_except, call_fit, all_spectral_models,
    store_model, bind, get, ret, subscript, modify, raise, logger_debug.
  fold (models_of t). rewrite Hi. simpl. rewrite Hf. simpl.
  rewrite bool_decide_eq_false_2 //. set_solver.
Qed.

Lemma fit_by_kind_escapes i m t e :
  models_of t !! i = Some m → escapes (fit m).2 e →
  fit_by_kind i m t = Raised (left_at i m t) e.
Proof.
  intros Hi Hf. unfold fit_by_kind, isinstance_synthesis, isinstance_profile.
  destruct (kind m); unfold bind; simpl.
  - by rewrite (try_fit_escapes i m t e).
  - by rewrite (try_fit_escapes i m t e).
Qed.

Lemma fit_acceptable_cons i rest n t m :
  models_of t !! i = Some m → (acceptable m = true → fit_failure (fit m).2) →
  fit_acceptable (i :: rest) n t =
    if acceptable m then fit_acceptable rest n (fitted_at i m t)
    else fit_acceptable rest (S n) t.
Proof.
  intros Hi Hf. simpl. unfold bind at 1. unfold all_spectral_models at 1.
  unfold bind at 1. unfold get at 1. unfold ret at 1.
  unfold bind at 1. fold (models_of t). rewrite Hi. simpl.
  fold (acceptable m). destruct (acceptable m); simpl; [|done].
  unfold bind at 1. by rewrite (fit_by_kind_spec i m t Hi (Hf eq_refl)).
Qed.

Lemma fit_acceptable_cons_escapes i rest n t m e :
  models_of t !! i = Some m → acceptable m = true → escapes (fit m).2 e →
  fit_acceptable (i :: rest) n t = Raised (left_at i m t) e.
Proof.
  intros Hi Hacc Hf. simpl. unfold bind at 1. unfold all_spectral_models at 1.
  unfold bind at 1. unfold get at 1. unfold ret at 1.
  unfold bind at 1. fold (models_of t). rewrite Hi. simpl.
  fold (acceptable m). rewrite Hacc. simpl.
  unfold bind at 1. by rewrite (fit_by_kind_escapes i m t e).
Qed.

(** The body of the second loop of [fit_all]. *)
Definition fit_at (i : nat) : M Tab unit :=
  let! models := all_spectral_models in
  let! m := subscript IndexError (models !! i) in
  fit_by_kind i m.

Lemma fit_everything_cons i rest t m :
  models_of t !! i = Some m → fit_failure (fit m).2 →
  for_each (i :: rest) fit_at t = for_each rest fit_at (fitted_at i m t).
Proof.
  intros Hi Hf. simpl. unfold bind at 1. unfold fit_at at 1.
  unfold bind at 1. unfold all_spectral_models at 1.
  unfold bind at 1. unfold get at 1. unfold ret at 1.
  unfold bind at 1. fold (models_of t). rewrite Hi. simpl.
  by rewrite (fit_by_kind_spec i m).
Qed.

Lemma fit_everything_cons_escapes i rest t m e :
  models_of t !! i = Some m → escapes (fit m).2 e →
  for_each (i :: rest) fit_at t = Raised (left_at i m t) e.
Proof.
  intros Hi Hf. simpl. unfold bind at 1. unfold fit_at at 1.
  unfold bind at 1. unfold all_spectral_models at 1.
  unfold bind at 1. unfold get at 1. unfold ret at 1.
  unfold bind at 1. fold (models_of t). rewrite Hi. simpl.
  by rewrite (fit_by_kind_escapes i m t e).
Qed.

(** The first loop, when every fit it makes fails in no other way than
    the handler takes. *)
Lemma fit_acceptable_spec : ∀ rest done t n,
  models_of t = done ++ rest →
  Forall (λ m, acceptable m = true → fit_failure (fit m).2) rest →
  ∃ t',
    fit_acceptable (seq (length done) (length rest)) n t
      = Returned t' (n + length (filter (λ m, acceptable m = false) rest)) ∧
    models_of t' = done ++ fit_where acceptable rest ∧
    debug_log t' = debug_log t ++ failures_where acceptable rest ∧
    cog_calls t' = cog_calls t.
Proof.
  induction rest as [|m rest IH]; intros done t n Hms Hf; cbn [length seq].
  - exists t. simpl. rewrite Nat.add_0_r !app_nil_r. by rewrite app_nil_r in Hms.
  - inversion Hf as [|? ? Hm Hrest]; subst.
    rewrite (fit_acceptable_cons _ _ _ _ m) //; [by rewrite Hms list_lookup_middle|].
    destruct (acceptable m) eqn:Hacc.
    + destruct (IH (done ++ [(fit m).1]) (fitted_at (length done) m t) n) as (t' & Hr & Hm' & Hl & Hc);
        [by rewrite models_of_fitted_at Hms insert_middle|done|].
      rewrite length_app /= Nat.add_1_r in Hr.
      exists t'. rewrite Hr. split_and!.
      * rewrite filter_cons_False; [by rewrite Hacc|]. done.
      * rewrite Hm' -app_assoc. unfold fit_where. simpl. by rewrite Hacc.
      * rewrite Hl /=. unfold failures_where. simpl. rewrite Hacc.
        rewrite -app_assoc. f_equal. by destruct (fit m).2.
      * done.
    + destruct (IH (done ++ [m]) t (S n)) as (t' & Hr & Hm' & Hl & Hc);
        [by rewrite Hms -app_assoc|done|].
      rewrite length_app /= Nat.add_1_r in Hr.
      exists t'. rewrite Hr. split_and!.
      * rewrite filter_cons_True //=. f_equal. lia.
      * rewrite Hm' -app_assoc. unfold fit_where. simpl. by rewrite Hacc.
      * rewrite Hl. unfold failures_where. simpl. by rewrite Hacc.
      * done.
Qed.

(** The first loop, when the fit of an acceptable model raises past the
    handler: the loop ends there. *)
Lemma fit_acceptable_escapes m post e : ∀ pre done t n,
  models_of t = done ++ pre ++ m :: post →
  Forall (λ m, acceptable m = true → fit_failure (fit m).2) pre →
  acceptable m = true → escapes (fit m).2 e →
  ∃ t',
    fit_acceptable (seq (length done) (length (pre ++ m :: post))) n t = Raised t' e ∧
    models_of t' = done ++ fit_where acceptable pre ++ (fit m).1 :: post ∧
    debug_log t' = debug_log t ++ failures_where acceptable pre ∧
    cog_calls t' = cog_calls t.
Proof.
  induction pre as [|m0 pre IH]; intros done t n Hms Hf Hacc He; cbn [length seq app].
  - rewrite (fit_acceptable_cons_escapes _ _ _ _ m e) //; [by rewrite Hms list_lookup_middle|].
    eexists. split; [done|]. simpl. rewrite app_nil_r. split_and!; [|done|done].
    change (models_of (left_at (length done) m t)) with (<[length done := (fit m).1]> (models_of t)).
    by rewrite Hms insert_middle -app_assoc.
  - inversion Hf as [|? ? Hm Hrest]; subst. simpl in Hms.
    rewrite (fit_acceptable_cons _ _ _ _ m0) //; [by rewrite Hms list_lookup_middle|].
    destruct (acceptable m0) eqn:Hacc0.
    + destruct (IH (done ++ [(fit m0).1]) (fitted_at (length done) m0 t) n)
        as (t' & Hr & Hm' & Hl & Hc);
        [by rewrite models_of_fitted_at Hms insert_middle|done|done|done|].
      rewrite length_app /= Nat.add_1_r in Hr.
      exists t'. rewrite Hr. split_and!; [done| | |done].
      * rewrite Hm' -app_assoc. unfold fit_where. simpl. by rewrite Hacc0.
      * rewrite Hl /=. unfold failures_where. simpl. rewrite Hacc0.
        rewrite -app_assoc. f_equal. by destruct (fit m0).2.
    + destruct (IH (done ++ [m0]) t (S n)) as (t' & Hr & Hm' & Hl & Hc);
        [by rewrite Hms -app_assoc|done|done|done|].
      rewrite length_app /= Nat.add_1_r in Hr.
      exists t'. rewrite Hr. split_and!; [done| | |done].
      * rewrite Hm' -app_assoc. unfold fit_where. simpl. by rewrite Hacc0.
      * rewrite Hl. unfold failures_where. simpl. by rewrite Hacc0.
Qed.

Lemma fit_everything_spec : ∀ rest done t,
  models_of t = done ++ rest →
  Forall (λ m, fit_failure (fit m).2) rest →
  ∃ t',
    for_each (seq (length done) (length rest)) fit_at t = Returned t' tt ∧
    models_of t' = done ++ fit_where (λ _, true) rest ∧
    debug_log t' = debug_log t ++ failures_where (λ _, true) rest ∧
    cog_calls t' = cog_calls t.
Proof.
  induction rest as [|m rest IH]; intros done t Hms Hf; cbn [length seq].
  - exists t. simpl. rewrite !app_nil_r. by rewrite app_nil_r in Hms.
  - inversion Hf as [|? ? Hm Hrest]; subst.
    rewrite (fit_everything_cons _ _ _ m) //; [by rewrite Hms list_lookup_middle|].
    destruct (IH (done ++ [(fit m).1]) (fitted_at (length done) m t)) as (t' & Hr & Hm' & Hl & Hc);
      [by rewrite models_of_fitted_at Hms insert_middle|done|].
    rewrite length_app /= Nat.add_1_r in Hr.
    exists t'. rewrite Hr. split_and!; [done| | |done].
    + by rewrite Hm' -app_assoc.
    + rewrite Hl /=. unfold failures_where. simpl.
      rewrite -app_assoc. f_equal. by destruct (fit m).2.
Qed.

Lemma fit_everything_escapes m post e : ∀ pre done t,
  models_of t = done ++ pre ++ m :: post →
  Forall (λ m, fit_failure (fit m).2) pre →
  escapes (fit m).2 e →
  ∃ t',
    for_each (seq (length done) (length (pre ++ m :: post))) fit_at t = Raised t' e ∧
    models_of t' = done ++ fit_where (λ _, true) pre ++ (fit m).1 :: post ∧
    debug_log t' = debug_log t ++ failures_where (λ _, true) pre ∧
    cog_calls t' = cog_calls t.
Proof.
  induction pre as [|m0 pre IH]; intros done t Hms Hf He; cbn [length seq app].
  - rewrite (fit_everything_cons_escapes _ _ _ m e) //; [by rewrite Hms list_lookup_middle|].
    eexists. split; [done|]. simpl. rewrite app_nil_r. split_and!; [|done|done].
    change (models_of (left_at (length done) m t)) with (<[length done := (fit m).1]> (models_of t)).
    by rewrite Hms insert_middle -app_assoc.
  - inversion Hf as [|? ? Hm Hrest]; subst. simpl in Hms.
    rewrite (fit_everything_cons _ _ _ m0) //; [by rewrite Hms list_lookup_middle|].
    destruct (IH (done ++ [(fit m0).1]) (fitted_at (length done) m0 t))
      as (t' & Hr & Hm' & Hl & Hc);
      [by rewrite models_of_fitted_at Hms insert_middle|done|done|].
    rewrite length_app /= Nat.add_1_r in Hr.
    exists t'. rewrite Hr. split_and!; [done| | |done].
    + by rewrite Hm' -app_assoc.
    + rewrite Hl /=. unfold failures_where. simpl.
      rewrite -app_assoc. f_equal. by destruct (fit m0).2.
Qed.

Lemma none_acceptable ms :
  existsb acceptable ms = false →
  fit_where acceptable ms = ms ∧ failures_where acceptable ms = [] ∧
  length (filter (λ m, acceptable m = false) ms) = length ms.
Proof.
  induction ms as [|m ms IH]; [done|]. simpl.
  intros [Hm Hms]%orb_false_iff. destruct (IH Hms) as (Hf & Hl & Hn).
  unfold fit_where, failures_where in *. simpl. rewrite Hm Hf Hl.
  rewrite filter_cons_True //=. by rewrite Hn.
Qed.

Lemma some_acceptable ms :
  existsb acceptable ms = true →
  length (filter (λ m, acceptable m = false) ms) ≠ length ms.
Proof.
  induction ms as [|m ms IH]; [done|]. simpl.
  pose proof (length_filter (λ m, acceptable m = false) ms) as Hle.
  destruct (acceptable m) eqn:Hm; simpl.
  - intros _. rewrite filter_cons_False; [by rewrite Hm|]. lia.
  - intros Hms. rewrite filter_cons_True //=. specialize (IH Hms). lia.
Qed.

(** The tab as [_check_for_spectral_models] leaves it. *)
Definition after_check (transitions_dialog : Session → Session) (t : Tab) : Tab :=
  if existsb (λ sm, use_for_stellar_composition_inference (metadata sm)) (models_of t)
  then t else set_session transitions_dialog t.

Lemma check_run transitions_dialog t :
  ∃ b, _check_for_spectral_models transitions_dialog t
       = Returned (after_check transitions_dialog t) b.
Proof.
  unfold _check_for_spectral_models, after_check, models_of, bind, get, modify, ret.
  destruct (existsb _ _); eauto.
Qed.

(** The subset that [fit_all] fits: the acceptable models, or all of
    them when none is acceptable. *)
Definition batch (ms : list SpectralModel) : SpectralModel → bool :=
  if existsb acceptable ms then acceptable else λ _, true.

(** [fit_all] from the first loop on. *)
Lemma fit_all_unfold transitions_dialog t :
  fit_all transitions_dialog t =
  (let! n := fit_acceptable
               (seq 0 (length (models_of (after_check transitions_dialog t)))) 0 in
   let! models := all_spectral_models in
   if bool_decide (n = length models)
   then for_each (seq 0 (length models)) fit_at
   else ret tt) (after_check transitions_dialog t).
Proof.
  destruct (check_run transitions_dialog t) as [b Hb].
  unfold fit_all. unfold bind at 1. rewrite Hb.
  unfold bind at 1. unfold all_spectral_models at 1. unfold bind at 1, get at 1, ret at 1.
  done.
Qed.

(** C4, as amended.  [fit_all] fits every acceptable model, and every
    model when none is acceptable.  A fit that fails with [ValueError] or
    [RuntimeError], the classes that the handler around [m.fit()] names,
    does not stop the batch: when no fit of the subset fails in another
    way the handler returns, every model of the subset holds what its own
    fit left, whether an earlier or a later fit failed or not, the models
    outside the subset are as they were, and the failures are in the
    debug log, in order.  A fit of the subset that raises any other
    exception ends the batch: the exception leaves [fit_all] unlogged, the
    models before it hold what their fits left, and the models after it
    are not fitted. *)
Theorem fit_all_skips_the_failures_it_names (transitions_dialog : Session → Session)
    (t : Tab) :
  let ms := models_of (after_check transitions_dialog t) in
  ((∀ m, m ∈ ms → batch ms m = true → fit_failure (fit m).2) →
   ∃ t',
     fit_all transitions_dialog t = Returned t' tt ∧
     models_of t' = fit_where (batch ms) ms ∧
     debug_log t' = debug_log t ++ failures_where (batch ms) ms ∧
     cog_calls t' = cog_calls t) ∧
  (∀ pre m post e,
     ms = pre ++ m :: post →
     (∀ m', m' ∈ pre → batch ms m' = true → fit_failure (fit m').2) →
     batch ms m = true → escapes (fit m).2 e →
     ∃ t',
       fit_all transitions_dialog t = Raised t' e ∧
       models_of t' = fit_where (batch ms) pre ++ (fit m).1 :: post ∧
       debug_log t' = debug_log t ++ failures_where (batch ms) pre ∧
       cog_calls t' = cog_calls t).
Proof.
  intros ms.
  assert (debug_log (after_check transitions_dialog t) = debug_log t ∧
          cog_calls (after_check transitions_dialog t) = cog_calls t) as [Hlog Hcog].
  { unfold after_check. by destruct (existsb _ _). }
  rewrite fit_all_unfold. fold ms. split.
  - intros Hf.
    assert (Forall (λ m, acceptable m = true → fit_failure (fit m).2) ms) as Hacc.
    { apply Forall_forall. intros m Hm Ha. apply Hf; [done|].
      unfold batch. by destruct (existsb acceptable ms). }
    destruct (fit_acceptable_spec ms [] (after_check transitions_dialog t) 0 eq_refl Hacc)
      as (t1 & Hr1 & Hm1 & Hl1 & Hc1).
    simpl in Hr1, Hm1. unfold bind at 1. rewrite Hr1.
    unfold bind at 1. unfold all_spectral_models at 1. unfold bind at 1, get at 1, ret at 1.
    fold (models_of t1). rewrite Hm1.
    unfold batch in *. destruct (existsb acceptable ms) eqn:Hex.
    + rewrite bool_decide_eq_false_2.
      { unfold fit_where. rewrite length_fmap. by apply some_acceptable. }
      exists t1. split_and!; [done|done|congruence|congruence].
    + destruct (none_acceptable ms Hex) as (Hfw & Hfl & Hn).
      rewrite Hfw Hn bool_decide_eq_true_2 //.
      destruct (fit_everything_spec ms [] t1) as (t2 & Hr2 & Hm2 & Hl2 & Hc2);
        [by rewrite Hm1 Hfw|apply Forall_forall; intros m Hm; by apply Hf|].
      simpl in Hr2, Hm2. exists t2. split_and!; [done|done| |congruence].
      rewrite Hl2 Hl1 Hfl app_nil_r. congruence.
  - intros pre m post e Hms Hpre Hm He.
    unfold batch in *. destruct (existsb acceptable ms) eqn:Hex.
    + assert (Forall (λ m, acceptable m = true → fit_failure (fit m).2) pre) as Hacc.
      { apply Forall_forall. intros m' Hm' Ha. by apply Hpre. }
      destruct (fit_acceptable_escapes m post e pre [] (after_check transitions_dialog t) 0)
        as (t1 & Hr1 & Hm1 & Hl1 & Hc1); [done|done|done|done|].
      simpl in Hr1, Hm1. rewrite Hms. unfold bind at 1. rewrite Hr1.
      exists t1. split_and!; [done|done|congruence|congruence].
    + destruct (none_acceptable ms Hex) as (Hfw & Hfl & Hn).
      assert (Forall (λ m, acceptable m = true → fit_failure (fit m).2) ms) as Hacc.
      { apply Forall_forall. intros m' Hm' Ha. exfalso.
        assert (existsb acceptable ms = true); [|congruence].
        apply existsb_exists. exists m'. split; [by apply list_elem_of_In|done]. }
      destruct (fit_acceptable_spec ms [] (after_check transitions_dialog t) 0 eq_refl Hacc)
        as (t1 & Hr1 & Hm1 & Hl1 & Hc1).
      simpl in Hr1, Hm1. unfold bind at 1. rewrite Hr1.
      unfold bind at 1. unfold all_spectral_models at 1. unfold bind at 1, get at 1, ret at 1.
      fold (models_of t1). rewrite Hm1 Hfw Hn bool_decide_eq_true_2 //.
      destruct (fit_everything_escapes m post e pre [] t1) as (t2 & Hr2 & Hm2 & Hl2 & Hc2);
        [by rewrite Hm1 Hfw|apply Forall_forall; intros m' Hm'; by apply Hpre|done|].
      simpl in Hr2, Hm2. rewrite Hms Hr2.
      exists t2. split_and!; [done|done| |congruence].
      rewrite Hl2 Hl1 Hfl app_nil_r. congruence.
Qed.

End Fit.

(** The theorem on two acceptable models.  When the fit of the first ends
    in [ValueError], the second is fitted all the same; when it ends in
    [IndexError], [fit_all] ends with it. *)
Lemma fit_all_skips_the_failures_it_names_witness :
  (∃ t',
     @fit_all Sample.failing_models id Sample.two_acceptable = Returned t' tt ∧
     @models_of t' =
       [Sample.acceptable_on []; fst (Sample.fit_unless_empty (Sample.acceptable_on ["h1"]))] ∧
     debug_log t' = [ValueError] ∧
     cog_calls t' = []) ∧
  (∃ t',
     @fit_all Sample.stumbling_models id Sample.two_acceptable = Raised t' IndexError ∧
     @models_of t' = [Sample.acceptable_on []; Sample.acceptable_on ["h1"]] ∧
     debug_log t' = [] ∧
     cog_calls t' = []).
Proof.
  split.
  - apply (proj1 (@fit_all_skips_the_failures_it_names Sample.failing_models id
                    Sample.two_acceptable)).
    intros m Hm _.
    apply elem_of_cons in Hm as [->|Hm]; [right; left; reflexivity|].
    apply elem_of_cons in Hm as [->|Hm]; [left; reflexivity|].
    by apply elem_of_nil in Hm.
  - apply (proj2 (@fit_all_skips_the_failures_it_names Sample.stumbling_models id
                    Sample.two_acceptable)
             [] (Sample.acceptable_on []) [Sample.acceptable_on ["h1"]] IndexError).
    + reflexivity.
    + intros m' Hm'. by apply elem_of_nil in Hm'.
    + reflexivity.
    + split_and!; [reflexivity|discriminate|discriminate].
Defined.

(** C4 as stated fails.  Two models are acceptable; the fit of the first
    raises [IndexError], which the handler around [m.fit()] does not
    name.  [fit_all] ends with that exception: the second model, which is
    in the subset and whose fit would have recorded an equivalent width,
    is left as it was, and nothing is logged. *)
Lemma fit_all_stops_at_another_exception :
  let fit1 := @fit Sample.stumbling_models in
  (fit1 (Sample.acceptable_on [])).2 = Some IndexError ∧
  FitFacts.acceptable (Sample.acceptable_on ["h1"]) = true ∧
  (fit1 (Sample.acceptable_on ["h1"])).2 = None ∧
  (fit1 (Sample.acceptable_on ["h1"])).1 ≠ Sample.acceptable_on ["h1"] ∧
  ∃ t',
    @fit_all Sample.stumbling_models id Sample.two_acceptable = Raised t' IndexError ∧
    models_of t' !! 1 = Some (Sample.acceptable_on ["h1"]) ∧
    debug_log t' = [].
Proof.
  split_and!; [reflexivity|reflexivity|reflexivity|discriminate|].
  eexists. split_and!; by vm_compute.
Qed.

End FitFacts.


Module MeasureFacts.
Import PyFacts ChemicalAbundancesTab FitFacts.

(** The equivalent width, in mA, that [measure_all] records for a model. *)
Definition recorded_width (m : SpectralModel) : option float :=
  match equivalent_width_mA m with inr ew => Some ew | inl _ => None end.


(** The profile models of an enumerated list. *)
Definition profiles (enumerated : list (nat * SpectralModel)) : list (nat * SpectralModel) :=
  filter (λ p, isinstance_profile p.2 = true) enumerated.



(** The model has a finite recorded width. *)
Definition finite_width (m : SpectralModel) : bool :=
  match recorded_width m with Some w => Np.isfinite w | None => false end.

(** The profile models that are measured, with their positions, in the
    order of the model list. *)
Definition measured (ms : list SpectralModel) : list (nat * SpectralModel) :=
  filter (λ p, finite_width p.2 = true) (profiles (imap pair ms)).













Section Measure.
Context `{SpectralModels} `{RadiativeTransfer}.


End Measure.



End MeasureFacts.


(** * Properties of masks *)

Module MaskFacts.
Import PyFacts Mask ChemicalAbundancesTab.

Lemma first_containing_shift reversed x : ∀ k,
  first_containing reversed x (S k) = S <$> first_containing reversed x k.
Proof.
  induction reversed as [|iv rest IH]; intros k; simpl; [done|].
  destruct (contains x iv); [done|]. apply IH.
Qed.

Lemma first_containing_lt reversed x : ∀ i,
  first_containing reversed x 0 = Some i → i < length reversed.
Proof.
  induction reversed as [|iv rest IH]; intros i; simpl; [done|].
  destruct (contains x iv); [intros [= <-]; lia|].
  rewrite first_containing_shift. destruct (first_containing rest x 0) as [j|]; [|done].
  intros [= <-]. specialize (IH j eq_refl). lia.
Qed.

(** The search seen from the end of the list, the side where intervals
    are appended. *)
Lemma remove_containing_snoc mask interval x :
  remove_containing (mask ++ [interval]) x =
    if contains x interval then Some mask
    else (λ remaining, remaining ++ [interval]) <$> remove_containing mask x.
Proof.
  unfold remove_containing. rewrite reverse_snoc. simpl.
  destruct (contains x interval).
  - f_equal. rewrite length_app /=.
    replace (length mask + 1 - 1 - 0) with (length mask) by lia.
    by rewrite delete_middle app_nil_r.
  - rewrite first_containing_shift.
    destruct (first_containing (reverse mask) x 0) as [i|] eqn:Hi; [|done]. simpl. f_equal.
    apply first_containing_lt in Hi. rewrite length_reverse in Hi.
    rewrite length_app /=.
    replace (length mask + 1 - 1 - S i) with (length mask - 1 - i) by lia.
    rewrite !delete_take_drop take_app_le; [lia|]. rewrite drop_app_le; [lia|].
    by rewrite app_assoc.
Qed.

(** What the double-click search does to a mask list.  It removes an
    interval exactly when some interval holds [x]; the one removed is the
    last such interval of the list, which is the one added most recently,
    and the others stay in their order. *)
Lemma remove_containing_spec x (intervals : list (float * float)) :
  match remove_containing intervals x with
  | Some remaining =>
      ∃ before interval after,
        intervals = before ++ interval :: after ∧
        contains x interval = true ∧
        Forall (λ later, contains x later = false) after ∧
        remaining = before ++ after
  | None => Forall (λ interval, contains x interval = false) intervals
  end.
Proof.
  induction intervals as [|interval mask IH] using rev_ind; [by constructor|].
  rewrite remove_containing_snoc. destruct (contains x interval) eqn:Hc.
  - exists mask, interval, []. by rewrite app_nil_r.
  - destruct (remove_containing mask x) as [remaining|]; simpl.
    + destruct IH as (before & found & after & -> & Hfound & Hafter & ->).
      exists before, found, (after ++ [interval]). split_and!.
      * by rewrite -app_assoc.
      * done.
      * apply Forall_app. split; [done|]. by repeat constructor.
      * by rewrite app_assoc.
    + apply Forall_app. split; [done|]. by repeat constructor.
Qed.


(** The double click of the abundances tab on a model with three mask
    intervals, two of which hold the position clicked: the later of the
    two goes, the model is fitted again and the handler returns. *)
Example double_click_removes_latest_interval :
  ∃ t',
    @spectrum_axis_mouse_press Sample.sample_models true (Some 0) 2.5%float
      Sample.masked_tab = Returned t' tt ∧
    (λ m, mask (metadata m)) <$> get_spectral_models (session t')
      = [[(1, 3); (6, 7)]%float].
Proof. eexists. split; by vm_compute. Qed.

End MaskFacts.

(** * Properties of the spectrum display *)

Module DisplayFacts.
Import PyFacts SMHSpecDisplay.

Definition models_of (d : Display) : list SpectralModel := get_spectral_models (session d).
Definition mask_of (m : SpectralModel) : list (float * float) := mask (metadata m).
Definition flag_of (m : SpectralModel) : option bool := antimask_flag (metadata m).

(** What the user and the toolkit can make the display do. *)
Inductive Event : Type :=
| Press (event : MouseEvent) (parent_selected : option nat) (now : float) (cid : nat)
| Motion (event_xdata : option float) (now : float)
| Release (event_xdata : option float) (parent_selected : option nat) (now : float)
| ShiftKey (pressed : bool)
| Select (model : option nat).

(** How a model's mask and flag may differ across one event: the mask is
    emptied, or the flag stays and the mask stays or grows by one interval
    at its end. *)
Definition mask_change (m0 m1 : SpectralModel) : Prop :=
  mask_of m1 = [] ∨
  (flag_of m1 = flag_of m0 ∧
   (mask_of m1 = mask_of m0 ∨ ∃ interval, mask_of m1 = mask_of m0 ++ [interval])).

(** A record kept beside the masks for the sake of the argument: for each
    interval of a model's mask, the value that [antimask_flag] had when the
    interval was appended.  After an event the record of a model is
    emptied with its mask, and otherwise grows by the current flag for each
    interval that the mask has gained. *)
Definition retag (m0 m1 : SpectralModel) (tags : list (option bool)) : list (option bool) :=
  match mask_of m1 with
  | [] => []
  | _ => tags ++ replicate (length (mask_of m1) - length (mask_of m0)) (flag_of m1)
  end.

Definition retag_all (before after : list SpectralModel) (g : list (list (option bool)))
    : list (list (option bool)) :=
  zip_with (λ p tags, retag p.1 p.2 tags) (zip before after) g.

(** Every interval of the model's mask was appended under the flag that
    the model has now. *)
Definition same_mode (m : SpectralModel) (tags : list (option bool)) : Prop :=
  length tags = length (mask_of m) ∧ Forall (λ tag, tag = flag_of m) tags.

Definition touches_one (l l' : list SpectralModel) : Prop :=
  l' = l ∨ ∃ i m0 m1, l !! i = Some m0 ∧ l' = <[i := m1]> l ∧ mask_change m0 m1.

Section Display.
Context `{SpectralModels}.

Definition handle (e : Event) : M Display unit :=
  match e with
  | Press event parent_selected now cid =>
      spectrum_left_mouse_press event parent_selected now cid
  | Motion event_xdata now => update_mask_region event_xdata now
  | Release event_xdata parent_selected now =>
      spectrum_left_mouse_release event_xdata parent_selected now
  | ShiftKey pressed => set_shift_key_pressed pressed
  | Select model => set_selected_model model
  end.

(** The display after an event; an exception that leaves a handler does
    not undo what the handler has written. *)
Definition step (e : Event) (d : Display) : Display := state_of (handle e d).

(** A run of events, with the record of modes carried along. *)
Fixpoint run (events : list Event) (d : Display) (g : list (list (option bool)))
    : Display * list (list (option bool)) :=
  match events with
  | [] => (d, g)
  | e :: rest => run rest (step e d) (retag_all (models_of d) (models_of (step e d)) g)
  end.

Definition one_mode_each (d : Display) (g : list (list (option bool))) : Prop :=
  Forall2 same_mode (models_of d) g.

Lemma models_of_store i m d :
  models_of (set_session
               (λ s, set_spectral_models (<[i := m]> (get_spectral_models s)) s) d)
  = <[i := m]> (models_of d).
Proof. done. Qed.

Lemma update_spectrum_figure_models sel d :
  models_of (state_of (update_spectrum_figure sel d)) = models_of d.
Proof.
  unfold update_spectrum_figure, update_selected_model, set_selected_model,
    bind, get, modify, ret, subscript, raise. simpl. by destruct sel.
Qed.

Lemma np_is_not_bound d : global_name "np" d = Raised d NameError.
Proof. reflexivity. Qed.

Lemma time_is_not_bound d : global_name "time" d = Raised d NameError.
Proof. reflexivity. Qed.

Lemma motion_models x now d : models_of (step (Motion x now) d) = models_of d.
Proof.
  unfold step, handle, update_mask_region, bind, get, raise.
  destruct x; [|done]. by destruct (_interactive_mask_region_signal d).
Qed.

Lemma release_models x sel now d :
  models_of (step (Release x sel now) d) = models_of d.
Proof.
  unfold step, handle, spectrum_left_mouse_release. unfold bind at 1, get at 1.
  by destruct (_interactive_mask_region_signal d).
Qed.

(** A single click on the axes, up to the name [np]. *)
Lemma press_run event sel now cid d :
  button event = 1 → inaxes event = true → dblclick event = false →
  spectrum_left_mouse_press event sel now cid d =
    (update_selected_model sel;;;
     let! d := get in
     let! r := deref (selected_model d) in
     let! flag := subscript KeyError (antimask_flag (metadata r.2)) in
     (if negb (eqb flag (shift_key_pressed d)) then
        store_model r.1
          (set_metadata (λ md, Mask.set_antimask_flag (negb flag) (Mask.set_mask [] md)) r.2)
      else ret tt);;;
     raise NameError) d.
Proof.
  intros Hb Hin Hdbl. unfold spectrum_left_mouse_press. rewrite Hb Hin Hdbl. simpl.
  unfold update_selected_model, set_selected_model, deref, store_model,
    bind, get, modify, ret, subscript, raise. simpl.
  destruct sel as [i|]; [|done]. simpl.
  destruct (get_spectral_models (session d) !! i) as [m|]; [|done]. simpl.
  destruct (antimask_flag (metadata m)) as [flag|]; [|done]. simpl.
  by destruct (negb (eqb flag (shift_key_pressed d))).
Qed.

Lemma press_touches event sel now cid d :
  touches_one (models_of d) (models_of (step (Press event sel now cid) d)).
Proof.
  unfold step, handle.
  destruct (decide (button event = 1)) as [Hb|Hb]; cycle 1.
  { unfold spectrum_left_mouse_press. rewrite bool_decide_eq_false_2 //. by left. }
  destruct (inaxes event) eqn:Hin; cycle 1.
  { unfold spectrum_left_mouse_press. rewrite bool_decide_eq_true_2 // Hin. by left. }
  destruct (dblclick event) eqn:Hdbl.
  { unfold spectrum_left_mouse_press. rewrite bool_decide_eq_true_2 // Hin Hdbl. simpl.
    unfold update_selected_model, set_selected_model, _remove_mask,
      bind, get, modify, ret, subscript, raise. simpl. by left. }
  rewrite press_run //.
  unfold update_selected_model, set_selected_model, deref, store_model,
    bind, get, modify, ret, subscript, raise. simpl.
  destruct sel as [i|]; [|by left]. simpl. fold (models_of d).
  destruct (models_of d !! i) as [m|] eqn:Hi; [|by left]. simpl.
  destruct (antimask_flag (metadata m)) as [flag|] eqn:Hflag; [|by left]. simpl.
  destruct (negb (eqb flag (shift_key_pressed d))); simpl; [|by left].
  right. eexists i, m, _. split_and!; [done|done|]. by left.
Qed.

Lemma step_touches e d : touches_one (models_of d) (models_of (step e d)).
Proof.
  destruct e.
  - apply press_touches.
  - left. apply motion_models.
  - left. apply release_models.
  - by left.
  - by left.
Qed.

Lemma mask_change_refl m : mask_change m m.
Proof. right. split; [done|]. by left. Qed.

Lemma retag_same_mode m0 m1 tags :
  mask_change m0 m1 → same_mode m0 tags → same_mode m1 (retag m0 m1 tags).
Proof.
  intros Hc [Hlen Hall]. unfold retag, same_mode.
  destruct (mask_of m1) as [|iv rest] eqn:Hm1; [by split|].
  destruct Hc as [Hc|[Hflag [Hsame|[iv' Happ]]]]; [congruence| |].
  - rewrite -Hm1 Hsame Nat.sub_diag /= app_nil_r. split; [done|]. by rewrite Hflag.
  - rewrite -Hm1 Happ !length_app /=.
    replace (length (mask_of m0) + 1 - length (mask_of m0)) with 1 by lia. simpl.
    split; [lia|].
    apply Forall_app. split; [by rewrite Hflag|]. by repeat constructor.
Qed.

Lemma touches_one_pointwise l l' :
  touches_one l l' →
  length l' = length l ∧
  ∀ j m0 m1, l !! j = Some m0 → l' !! j = Some m1 → mask_change m0 m1.
Proof.
  intros [->|(i & m0 & m1 & Hi & -> & Hc)].
  - split; [done|]. intros j m0 m1 H0 H1. assert (m1 = m0) as -> by congruence.
    apply mask_change_refl.
  - split; [by rewrite length_insert|]. intros j a b Ha Hb.
    destruct (decide (j = i)) as [->|Hne].
    + rewrite list_lookup_insert_eq in Hb; [by eapply lookup_lt_Some|]. congruence.
    + rewrite list_lookup_insert_ne // in Hb. assert (b = a) as -> by congruence.
      apply mask_change_refl.
Qed.

Lemma retag_all_same_mode : ∀ l l' g,
  length l' = length l →
  (∀ j m0 m1, l !! j = Some m0 → l' !! j = Some m1 → mask_change m0 m1) →
  Forall2 same_mode l g → Forall2 same_mode l' (retag_all l l' g).
Proof.
  induction l as [|m0 l IH]; intros [|m1 l'] g Hlen Hc Hg; simplify_eq/=.
  - inversion Hg. constructor.
  - inversion Hg as [|? tags ? g' Hm Hg']; subst. unfold retag_all. simpl. constructor.
    + apply retag_same_mode; [|done]. by apply (Hc 0).
    + apply IH; [done| |done]. intros j a b Ha Hb. by apply (Hc (S j)).
Qed.

Lemma run_one_mode_each events : ∀ d g,
  one_mode_each d g →
  one_mode_each (run events d g).1 (run events d g).2.
Proof.
  induction events as [|e rest IH]; intros d g Hinv; [done|]. simpl.
  apply IH. unfold one_mode_each.
  destruct (touches_one_pointwise _ _ (step_touches e d)) as [Hlen Hc].
  by apply retag_all_same_mode.
Qed.

(** A click that starts a drag, on a model whose flag differs from the
    state of the shift key. *)
Lemma press_switches_mode event now cid d i m flag :
  button event = 1 → inaxes event = true → dblclick event = false →
  models_of d !! i = Some m → flag_of m = Some flag → flag ≠ shift_key_pressed d →
  ∃ d' m',
    spectrum_left_mouse_press event (Some i) now cid d = Raised d' NameError ∧
    models_of d' = <[i := m']> (models_of d) ∧
    m' = set_metadata (λ md, Mask.set_antimask_flag (negb flag) (Mask.set_mask [] md)) m ∧
    mask_of m' = [] ∧ flag_of m' = Some (negb flag) ∧
    flag_of m' = Some (shift_key_pressed d) ∧
    _interactive_mask_region_signal d' = _interactive_mask_region_signal d.
Proof.
  intros Hb Hin Hdbl Hi Hflag Hne. rewrite press_run //.
  unfold update_selected_model, set_selected_model, deref, store_model,
    bind, get, modify, ret, subscript, raise. simpl.
  fold (models_of d). rewrite Hi. simpl.
  unfold flag_of in Hflag. rewrite Hflag. simpl.
  rewrite (proj2 (eqb_false_iff _ _)) //=.
  eexists _, _. split_and!; [done|done|done|done|done| |done].
  unfold flag_of. simpl. f_equal. by destruct flag, (shift_key_pressed d).
Qed.

(** A click that starts a drag, on a model whose flag is that of the
    shift key: the mask and the flag are not touched. *)
Lemma press_keeps_mode event now cid d i m flag :
  button event = 1 → inaxes event = true → dblclick event = false →
  models_of d !! i = Some m → flag_of m = Some flag → flag = shift_key_pressed d →
  ∃ d',
    spectrum_left_mouse_press event (Some i) now cid d = Raised d' NameError ∧
    models_of d' = models_of d.
Proof.
  intros Hb Hin Hdbl Hi Hflag Heq. rewrite press_run //.
  unfold update_selected_model, set_selected_model, deref, store_model,
    bind, get, modify, ret, subscript, raise. simpl.
  fold (models_of d). rewrite Hi. simpl.
  unfold flag_of in Hflag. rewrite Hflag. simpl.
  rewrite (proj2 (eqb_true_iff _ _)) //=.
  by eexists.
Qed.

(** C10.  A click that starts a drag on a model whose [antimask_flag]
    differs from the state of the shift key empties the model's mask and
    inverts the flag, which then agrees with the shift key, and changes
    nothing else of the model; no interval has been added when that is
    done.  (The handler goes on to the name [np], which the module does
    not bind, and ends there in [NameError] with the mask emptied, the
    flag inverted and no drag armed.)  A click on a model whose flag is
    that of the shift key leaves mask and flag alone.  And over any run of
    events of the display, whether their handlers return or raise, for
    every model all the intervals in its mask were appended while
    [antimask_flag] had the value it has now: a mask never holds intervals
    made in mask mode beside intervals made in antimask mode. *)
Theorem mask_modes_never_mix :
  (∀ event now cid d i m flag,
     button event = 1 → inaxes event = true → dblclick event = false →
     models_of d !! i = Some m → flag_of m = Some flag → flag ≠ shift_key_pressed d →
     ∃ d' m',
       spectrum_left_mouse_press event (Some i) now cid d = Raised d' NameError ∧
       models_of d' = <[i := m']> (models_of d) ∧
       m' = set_metadata (λ md, Mask.set_antimask_flag (negb flag) (Mask.set_mask [] md)) m ∧
       mask_of m' = [] ∧ flag_of m' = Some (negb flag) ∧
       flag_of m' = Some (shift_key_pressed d) ∧
       _interactive_mask_region_signal d' = _interactive_mask_region_signal d) ∧
  (∀ event now cid d i m flag,
     button event = 1 → inaxes event = true → dblclick event = false →
     models_of d !! i = Some m → flag_of m = Some flag → flag = shift_key_pressed d →
     ∃ d',
       spectrum_left_mouse_press event (Some i) now cid d = Raised d' NameError ∧
       models_of d' = models_of d) ∧
  (∀ events d g,
     one_mode_each d g → one_mode_each (run events d g).1 (run events d g).2).
Proof.
  split_and!.
  - intros event now cid d i m flag. apply press_switches_mode.
  - intros event now cid d i m flag. apply press_keeps_mode.
  - intros events d g. by apply run_one_mode_each.
Qed.

End Display.

(** C6 fails in [_remove_mask]: whatever the model and the position of
    the double click, the handler ends with a [NameError] at the name
    [spectral_model], before it looks at the mask; it neither removes an
    interval nor returns a truth value, and the display is as it was. *)
Theorem _remove_mask_raises_NameError (d : Display) (selected_model : option nat)
    (xdata : float) :
  _remove_mask selected_model xdata d = Raised d NameError.
Proof.
  unfold _remove_mask. unfold bind at 1.
  assert (lookup_name [("selected_model"%string, selected_model)] "spectral_model" = None)
    as -> by reflexivity.
  reflexivity.
Qed.


(** The same double click as in the abundances tab, in the display: the
    handler is left by the [NameError] and all three intervals are still
    there. *)
Example display_double_click_removes_nothing :
  ∃ d',
    @spectrum_left_mouse_press Sample.sample_models
      (mkMouseEvent 1 true true 2.5%float) (Some 0) 10%float 1 Sample.masked_display
      = Raised d' NameError ∧
    mask_of <$> models_of d' = [[(1, 3); (2, 5); (6, 7)]%float].
Proof. eexists. split; by vm_compute. Qed.

(** A click at 2.5, the mouse dragged to 4, and the button released. *)
Definition one_drag : list Event :=
  [Press (mkMouseEvent 1 true false 2.5%float) (Some 0) 10%float 1;
   Motion (Some 4%float) 11%float;
   Release (Some 4%float) (Some 0) 12%float].

(** The theorem on the display with one masked model in mask mode, shift
    held down: the click empties the mask and switches to antimask mode
    before it ends in [NameError], and over the three events of a drag the
    mask holds no interval of another mode than the model's. *)
Lemma mask_modes_never_mix_witness :
  (∃ d' m',
     @spectrum_left_mouse_press Sample.sample_models
       (mkMouseEvent 1 true false 2.5%float) (Some 0) 10%float 1 Sample.shift_display
       = Raised d' NameError ∧
     models_of d' = <[0 := m']> (models_of Sample.shift_display) ∧
     m' = set_metadata (λ md, Mask.set_antimask_flag (negb false) (Mask.set_mask [] md))
            Sample.masked_model ∧
     mask_of m' = [] ∧ flag_of m' = Some (negb false) ∧
     flag_of m' = Some (shift_key_pressed Sample.shift_display) ∧
     _interactive_mask_region_signal d'
       = _interactive_mask_region_signal Sample.shift_display) ∧
  one_mode_each
    (@run Sample.sample_models one_drag Sample.shift_display [replicate 3 (Some false)]).1
    (@run Sample.sample_models one_drag Sample.shift_display [replicate 3 (Some false)]).2.
Proof.
  destruct (@mask_modes_never_mix Sample.sample_models) as (Hpress & _ & Hrun).
  split.
  - apply (Hpress (mkMouseEvent 1 true false 2.5%float) 10%float 1 Sample.shift_display
             0 Sample.masked_model false); [reflexivity..|discriminate].
  - apply Hrun. repeat constructor.
Defined.

(** What the run of the witness leaves.  The click has emptied the mask
    and set the flag; the motion and the release find no signal, for the
    click ended before it set one, and no interval is added. *)
Example one_drag_result :
  let r := @run Sample.sample_models one_drag Sample.shift_display
             [replicate 3 (Some false)] in
  mask_of <$> models_of r.1 = [[]] ∧
  flag_of <$> models_of r.1 = [Some true] ∧
  r.2 = [[]] ∧
  @handle Sample.sample_models (Motion (Some 4%float) 11%float) Sample.shift_display
    = Raised Sample.shift_display TypeError ∧
  @handle Sample.sample_models (Release (Some 4%float) (Some 0) 12%float) Sample.shift_display
    = Raised Sample.shift_display TypeError.
Proof. by vm_compute. Qed.

(** With a signal in place, the motion and the release end at the name
    [time], before the release looks at the mask. *)
Example armed_release_adds_nothing :
  @handle Sample.sample_models (Motion (Some 4%float) 11%float) Sample.armed_display
    = Raised Sample.armed_display NameError ∧
  @handle Sample.sample_models (Release (Some 4%float) (Some 0) 12%float) Sample.armed_display
    = Raised Sample.armed_display NameError.
Proof. by vm_compute. Qed.

End DisplayFacts.


(** * Properties of the fit options table *)

Module BalmerFacts.
Import PyFacts BalmerLineOptionsTableModel.

Lemma setdefault_bounds_present parameter o b :
  bounds o !! parameter = Some b → setdefault_bounds parameter o = o.
Proof. intros Hb. unfold setdefault_bounds. by rewrite Hb. Qed.

Lemma get_bounds_setdefault parameter o p :
  get_bounds (setdefault_bounds parameter o) p = get_bounds o p.
Proof.
  unfold setdefault_bounds, get_bounds.
  destruct (bounds o !! parameter) eqn:Hb; [done|]. simpl.
  destruct (decide (parameter = p)) as [->|Hne].
  - by rewrite lookup_insert_eq Hb.
  - by rewrite lookup_insert_ne.
Qed.

Section Bounds.
Context (parse : string → option float) (show : nat → string).

(** C8.  For a cell of the bounds columns whose value reads as a number:
    a lower bound at or above the stored upper bound, and an upper bound
    at or below the stored lower bound, end [setData] with [ValueError],
    and the options are then exactly what they were.  A value that is not
    finite is never stored: the handler answers [False], or raises
    [ValueError] when the value also breaks the order, and every bound
    stored before is unchanged (a parameter without an entry gets the
    empty entry [[None, None]], which reads the same as none). *)
Theorem setData_rejects_bad_bounds (o : Options) (row : nat) (parameter : string)
    (value : Value) (x : float) (dialog : nat * bool) :
  _parameters o !! row = Some parameter →
  py_float parse value = Some x →
  (∀ lower upper,
     bounds o !! parameter = Some (lower, Some upper) → PrimFloat.leb upper x = true →
     setData parse show row 1 value dialog o = Raised o ValueError) ∧
  (∀ lower upper,
     bounds o !! parameter = Some (Some lower, upper) → PrimFloat.leb x lower = true →
     setData parse show row 2 value dialog o = Raised o ValueError) ∧
  (∀ column,
     column = 1 ∨ column = 2 → Np.isfinite x = false →
     let after := setdefault_bounds parameter o in
     (setData parse show row column value dialog o = Returned after false ∨
      setData parse show row column value dialog o = Raised after ValueError) ∧
     (∀ p, get_bounds after p = get_bounds o p) ∧
     (∀ p b, bounds o !! p = Some b → bounds after !! p = Some b)).
Proof.
  intros Hrow Hx. split_and!.
  - intros lower upper Hb Hle.
    unfold setData, bind, get, subscript, modify, ret, raise. rewrite Hrow. simpl.
    rewrite (setdefault_bounds_present _ _ _ Hb) Hx. unfold get_bounds. rewrite Hb. simpl.
    by rewrite Hle.
  - intros lower upper Hb Hle.
    unfold setData, bind, get, subscript, modify, ret, raise. rewrite Hrow. simpl.
    rewrite (setdefault_bounds_present _ _ _ Hb) Hx. unfold get_bounds. rewrite Hb. simpl.
    by rewrite Hle.
  - intros column Hcol Hfin after. split_and!.
    + unfold setData, bind, get, subscript, modify, ret, raise.
      destruct Hcol as [-> | ->]; rewrite Hrow; simpl; rewrite Hx; fold after;
        match goal with |- context [if ?c then _ else _] => destruct c end;
        rewrite ?Hfin; simpl; auto.
    + intros p. apply get_bounds_setdefault.
    + intros p b Hp. unfold after, setdefault_bounds.
      destruct (bounds o !! parameter) eqn:Hb; [done|]. simpl.
      rewrite lookup_insert_ne //. intros ->. congruence.
Qed.

End Bounds.

(** The theorem on bounds 0.2 and 1: a lower bound of 5, an upper bound of
    0.1, and an infinite lower bound for a parameter without bounds. *)
Lemma setData_rejects_bad_bounds_witness :
  setData Sample.no_parse Sample.no_show 0 1 (VNumber 5) (0, false) Sample.bounded_options
    = Raised Sample.bounded_options ValueError ∧
  setData Sample.no_parse Sample.no_show 0 2 (VNumber 0.1) (0, false) Sample.bounded_options
    = Raised Sample.bounded_options ValueError ∧
  (setData Sample.no_parse Sample.no_show 1 1 (VNumber infinity) (0, false) Sample.bounded_options
     = Returned (setdefault_bounds "smoothing" Sample.bounded_options) false ∨
   setData Sample.no_parse Sample.no_show 1 1 (VNumber infinity) (0, false) Sample.bounded_options
     = Raised (setdefault_bounds "smoothing" Sample.bounded_options) ValueError).
Proof.
  split_and!.
  - apply (proj1 (setData_rejects_bad_bounds Sample.no_parse Sample.no_show Sample.bounded_options 0 "redshift"
                    (VNumber 5) 5 (0, false) eq_refl eq_refl) (Some 0.2%float) 1%float);
      reflexivity.
  - apply (proj1 (proj2 (setData_rejects_bad_bounds Sample.no_parse Sample.no_show Sample.bounded_options 0 "redshift"
                    (VNumber 0.1) 0.1 (0, false) eq_refl eq_refl)) 0.2%float (Some 1%float));
      reflexivity.
  - apply (proj2 (proj2 (setData_rejects_bad_bounds Sample.no_parse Sample.no_show Sample.bounded_options 1 "smoothing"
                    (VNumber infinity) infinity (0, false) eq_refl eq_refl)) 1);
      [by left|reflexivity].
Defined.

(** The specification's example: with the lower bound set to 0.2, an upper
    bound of 0.1 is refused and the lower bound stays. *)
Example lower_above_upper_is_refused :
  ∃ o1,
    setData Sample.no_parse Sample.no_show 0 1 (VNumber 0.2) (0, false) Sample.fresh_options = Returned o1 true ∧
    get_bounds o1 "redshift" = (Some 0.2%float, None) ∧
    setData Sample.no_parse Sample.no_show 0 2 (VNumber 0.1) (0, false) o1 = Raised o1 ValueError.
Proof. eexists. split_and!; by vm_compute. Qed.

End BalmerFacts.

(** * Properties of the exporters *)

Module ExportFacts.
Import PyFacts ModelExport.

(** The metadata of a state with the two transient entries taken out. *)
Definition stripped (metadata : gmap string PyVal) : gmap string PyVal :=
  delete "is_acceptable"%string (delete "fitted_result"%string metadata).

Lemma stripped_lookup metadata key :
  stripped metadata !! key =
    if bool_decide (key = "fitted_result"%string ∨ key = "is_acceptable"%string)
    then None else metadata !! key.
Proof.
  unfold stripped. case_bool_decide as Hk.
  - destruct Hk as [-> | ->]; [|by rewrite lookup_delete_eq].
    rewrite lookup_delete_ne // lookup_delete_eq //.
  - rewrite !lookup_delete_ne //; naive_solver.
Qed.

(** [state] is a copy of the state of [m] as it was in [st], stripped,
    with a metadata dictionary that no model of [st] refers to. *)
Definition clean_copy (st cur : Store) (m : ModelObject) (state : State) : Prop :=
  state_entries state = obj_entries m ∧
  state_transition_hashes state = obj_transition_hashes m ∧
  dicts st !! state_metadata state = None ∧
  dicts cur !! state_metadata state = Some (stripped (the_dict st (obj_metadata m))).

Lemma clean_state_run m cur :
  ∃ cur' state,
    clean_state m cur = Returned cur' state ∧
    state_entries state = obj_entries m ∧
    state_transition_hashes state = obj_transition_hashes m ∧
    dicts cur !! state_metadata state = None ∧
    dicts cur' !! state_metadata state = Some (stripped (the_dict cur (obj_metadata m))) ∧
    (∀ l, l ≠ state_metadata state → dicts cur' !! l = dicts cur !! l) ∧
    spectral_models cur' = spectral_models cur ∧ line_list cur' = line_list cur.
Proof.
  unfold clean_state, deepcopy, metadata_pop, set_dicts, __getstate__,
    bind, get, modify, ret. simpl.
  eexists _, _. split; [done|]. simpl. split_and!; try done.
  - apply not_elem_of_dom, is_fresh.
  - by rewrite !lookup_alter_eq lookup_insert_eq.
  - intros l Hl. by rewrite !lookup_alter_ne // lookup_insert_ne.
Qed.

Section Exporters.
Context (reindex : LineList → list string → list nat).

(** Every model's metadata dictionary is in the store. *)
Definition well_formed (st : Store) : Prop :=
  Forall (λ m, is_Some (dicts st !! obj_metadata m)) (spectral_models st).

Definition indices_of (st : Store) (m : ModelObject) : list nat :=
  reindex (line_list st) (obj_transition_hashes m).

(** [m'] is the model [m] of [st]: the same entries, hashes and metadata
    dictionary, and for its transitions either the row numbers [m] had or
    the ones [index_transitions] finds in the line list of [st]. *)
Definition same_but_indices (st : Store) (m m' : ModelObject) : Prop :=
  obj_entries m' = obj_entries m ∧
  obj_transition_hashes m' = obj_transition_hashes m ∧
  obj_metadata m' = obj_metadata m ∧
  (obj_transition_indices m' = obj_transition_indices m ∨
   obj_transition_indices m' = indices_of st m).

(** The store [cur] still holds every dictionary of [st] with its
    contents, and its models and line list. *)
Definition preserves (st cur : Store) : Prop :=
  (∀ l, is_Some (dicts st !! l) → dicts cur !! l = dicts st !! l) ∧
  Forall2 (same_but_indices st) (spectral_models st) (spectral_models cur) ∧
  line_list cur = line_list st.

(** Where every model already has the row numbers of its transitions,
    a store that preserves [st] has the very models of [st]. *)
Lemma preserves_indexed st cur :
  preserves st cur →
  Forall (λ m, obj_transition_indices m = indices_of st m) (spectral_models st) →
  spectral_models cur = spectral_models st.
Proof.
  intros (_ & Hm & _) Hix. induction Hm as [|m m' ms ms' Hsame _ IH]; [done|].
  apply Forall_cons in Hix as [Hi Hix]. rewrite IH //. f_equal.
  destruct Hsame as (He & Hh & Hmd & Hidx). destruct m, m'. simpl in *.
  f_equal; try done. destruct Hidx; congruence.
Qed.

(** One turn of either exporter's loop: re-index the model in row
    [index], then take a clean copy of its state. *)
Lemma export_turn st cur index m :
  well_formed st → preserves st cur →
  spectral_models st !! index = Some m →
  ∃ cur1 m1 cur' state,
    index_transitions reindex index cur = Returned cur1 m1 ∧
    clean_state m1 cur1 = Returned cur' state ∧
    obj_transition_indices m1 = indices_of st m ∧
    preserves st cur' ∧
    clean_copy st cur' m state ∧
    (∀ m2 s2, clean_copy st cur m2 s2 → clean_copy st cur' m2 s2).
Proof.
  intros Hwf (Hd & Hm & Hll) Hi.
  destruct (Forall2_lookup_l _ _ _ _ _ Hm Hi) as (mc & Hic & He & Hh & Hmd & _).
  unfold index_transitions. unfold bind at 1, get at 1. unfold bind at 1. rewrite Hic. simpl.
  set (m1 := mkModelObject _ _ _ _).
  set (cur1 := mkStore _ _ _).
  destruct (clean_state_run m1 cur1) as (cur' & state & Hrun & Hse & Hsh & Hfresh & Hcopy & Hother & Hms & Hll').
  exists cur1, m1, cur', state. unfold bind, put, ret. simpl.
  assert (is_Some (dicts st !! obj_metadata m)) as Hin
    by (eapply (proj1 (Forall_lookup _ _) Hwf); eauto).
  assert (dicts st !! state_metadata state = None) as Hnew.
  { destruct (dicts st !! state_metadata state) eqn:Hs; [|done]. exfalso.
    assert (dicts cur !! state_metadata state = dicts st !! state_metadata state) as Hsame
      by (apply Hd; rewrite Hs; eauto).
    simpl in Hfresh. congruence. }
  split_and!; try done.
  - simpl. unfold indices_of. by rewrite Hll Hh.
  - split_and!.
    + intros l Hl. rewrite Hother; [|by apply Hd]. intros ->. destruct Hl. congruence.
    + rewrite Hms. simpl. apply Forall2_lookup. intros j.
      destruct (decide (j = index)) as [->|Hne].
      * rewrite Hi list_lookup_insert_eq; [by eapply lookup_lt_Some|]. constructor.
        split_and!; [done..|]. right. simpl. unfold indices_of. by rewrite Hll Hh.
      * rewrite list_lookup_insert_ne //. by apply Forall2_lookup.
    + by rewrite Hll'.
  - split_and!; [by rewrite Hse|by rewrite Hsh|done|].
    rewrite Hcopy. do 2 f_equal. unfold the_dict. simpl. by rewrite Hmd Hd.
  - intros m2 s2 (H1 & H2 & H3 & H4). split_and!; try done.
    rewrite Hother //. intros Heq. simpl in Hfresh. congruence.
Qed.

Lemma export_loop_spec st :
  well_formed st → ∀ rows cur states idxs srcs,
  preserves st cur → Forall2 (clean_copy st cur) srcs states →
  Forall (λ r, r < length (spectral_models st)) rows →
  ∃ cur' new picks,
    export_loop reindex rows states idxs cur
      = Returned cur' (states ++ new, idxs ++ (picks ≫= indices_of st)) ∧
    preserves st cur' ∧
    Forall2 (λ r m, spectral_models st !! r = Some m) rows picks ∧
    Forall2 (clean_copy st cur') (srcs ++ picks) (states ++ new).
Proof.
  intros Hwf. induction rows as [|index rows IH]; intros cur states idxs srcs Hp Hc Hr.
  - exists cur, [], []. simpl. rewrite !app_nil_r. by split_and!; [|done|constructor|].
  - apply Forall_cons in Hr as [Hi Hr].
    destruct (lookup_lt_is_Some_2 _ _ Hi) as [m Hm].
    destruct (export_turn st cur index m Hwf Hp Hm)
      as (cur1 & m1 & cur2 & state & Hix & Hcs & Hidx & Hp2 & Hcopy & Hmono).
    destruct (IH cur2 (states ++ [state]) (idxs ++ obj_transition_indices m1) (srcs ++ [m]) Hp2)
      as (cur' & new & picks & Hrun & Hp' & Hpicks & Hall); [|done|].
    { apply Forall2_app.
      - eapply Forall2_impl; [exact Hc|]. intros ? ?. apply Hmono.
      - constructor; [exact Hcopy|constructor]. }
    exists cur', (state :: new), (m :: picks). split_and!.
    + simpl. unfold bind at 1. rewrite Hix. unfold bind at 1. rewrite Hcs.
      rewrite Hrun Hidx. by rewrite -!app_assoc.
    + done.
    + by constructor.
    + by rewrite -!app_assoc in Hall.
Qed.

Lemma default_states_spec st :
  well_formed st → ∀ rows cur states srcs,
  preserves st cur → Forall2 (clean_copy st cur) srcs states →
  Forall (λ r, r < length (spectral_models st)) rows →
  ∃ cur' new picks,
    default_states reindex rows states cur = Returned cur' (states ++ new) ∧
    preserves st cur' ∧
    Forall2 (λ r m, spectral_models st !! r = Some m) rows picks ∧
    Forall2 (clean_copy st cur') (srcs ++ picks) (states ++ new).
Proof.
  intros Hwf. induction rows as [|index rows IH]; intros cur states srcs Hp Hc Hr.
  - exists cur, [], []. simpl. rewrite !app_nil_r. by split_and!; [|done|constructor|].
  - apply Forall_cons in Hr as [Hi Hr].
    destruct (lookup_lt_is_Some_2 _ _ Hi) as [m Hm].
    destruct (export_turn st cur index m Hwf Hp Hm)
      as (cur1 & m1 & cur2 & state & Hix & Hcs & Hidx & Hp2 & Hcopy & Hmono).
    set (state' := mkState (state_entries state) ((λ h, h) <$> state_transition_hashes state)
                     (state_metadata state)).
    destruct (IH cur2 (states ++ [state']) (srcs ++ [m]) Hp2)
      as (cur' & new & picks & Hrun & Hp' & Hpicks & Hall); [|done|].
    { apply Forall2_app.
      - eapply Forall2_impl; [exact Hc|]. intros ? ?. apply Hmono.
      - constructor; [|constructor].
        destruct Hcopy as (H1 & H2 & H3 & H4). split_and!; [done| |done|done].
        simpl. by rewrite list_fmap_id. }
    exists cur', (state' :: new), (m :: picks). split_and!.
    + simpl. unfold bind at 1. rewrite Hix. unfold bind at 1. rewrite Hcs.
      fold state'. by rewrite Hrun -!app_assoc.
    + done.
    + by constructor.
    + by rewrite -!app_assoc in Hall.
Qed.

(** What is written for a model: its state with the two transient entries
    of the metadata gone and everything else as the model has it. *)
Definition written_for (st : Store) (m : ModelObject) (w : Written) : Prop :=
  written_entries w = obj_entries m ∧
  written_transition_hashes w = obj_transition_hashes m ∧
  written_metadata w !! "fitted_result"%string = None ∧
  written_metadata w !! "is_acceptable"%string = None ∧
  ∀ key, key ≠ "fitted_result"%string → key ≠ "is_acceptable"%string →
         written_metadata w !! key = the_dict st (obj_metadata m) !! key.

Lemma clean_copy_written st cur m state :
  clean_copy st cur m state → written_for st m (write_state cur state).
Proof.
  intros (He & Hh & _ & Hd).
  assert (written_metadata (write_state cur state) = stripped (the_dict st (obj_metadata m)))
    as Hw by (unfold write_state, the_dict at 1; simpl; by rewrite Hd).
  unfold written_for. rewrite Hw. split_and!; [done|done|..].
  - rewrite stripped_lookup bool_decide_eq_true_2 //. by left.
  - rewrite stripped_lookup bool_decide_eq_true_2 //. by right.
  - intros key H1 H2. rewrite stripped_lookup bool_decide_eq_false_2 //. naive_solver.
Qed.

Lemma preserves_refl st : preserves st st.
Proof.
  split_and!; [done| |done]. apply Forall2_lookup. intros j.
  destruct (spectral_models st !! j); constructor. split_and!; [done..|by left].
Qed.

(** C7.  In a store where every model has its metadata dictionary, both
    exporters return, [export_selected_spectral_models] for any selection
    of rows whose transitions are rows of the line list and
    [save_as_default] always.  What they write for a model is its state
    with [fitted_result] and [is_acceptable] absent from the metadata and
    with every other entry of the metadata, every other entry of the
    state and the transition hashes as the model has them.  And the
    session is left alone: every dictionary that was in the store,
    the metadata of every model among them, holds what it held, and each
    model has the entries, hashes and metadata dictionary it had, with
    the row numbers of its transitions either as they were or as
    [index_transitions] finds them in the line list. *)
Theorem exports_strip_a_copy (st : Store) :
  well_formed st →
  (∀ path selectedRows,
     Forall (λ r, r < length (spectral_models st)) selectedRows →
     Forall (λ m, Forall (λ i, i < length (line_list st)) (indices_of st m))
       (spectral_models st) →
     ∃ st' line_list_subset written picks,
       export_selected_spectral_models reindex (Some path) selectedRows st
         = Returned st' (Some (line_list_subset, written)) ∧
       Forall2 (λ r m, spectral_models st !! r = Some m) selectedRows picks ∧
       Forall2 (written_for st) picks written ∧
       preserves st st') ∧
  (∃ st' written,
     save_as_default reindex st = Returned st' written ∧
     Forall2 (written_for st) (spectral_models st) written ∧
     preserves st st').
Proof.
  intros Hwf. split.
  - intros path rows Hrows Hidx.
    destruct (export_loop_spec st Hwf rows st [] [] [] (preserves_refl st) (Forall2_nil_2 _ _ _) Hrows)
      as (cur' & new & picks & Hrun & Hp & Hpicks & Hall).
    simpl in Hrun, Hall.
    assert (is_Some (Np.take (line_list cur') (picks ≫= indices_of st))) as [subset Hsub].
    { unfold Np.take. apply mapM_is_Some. apply Forall_forall. intros i Hi.
      apply list_elem_of_bind in Hi as (m & Hi & Hm). simpl.
      apply lookup_lt_is_Some_2. destruct Hp as (_ & _ & ->).
      assert (m ∈ spectral_models st) as Hin.
      { apply list_elem_of_lookup_1 in Hm as [k Hk].
        destruct (Forall2_lookup_r _ _ _ _ _ Hpicks Hk) as (r & _ & Hr).
        by eapply list_elem_of_lookup_2. }
      pose proof (proj1 (Forall_forall _ _) Hidx m Hin) as Hm2.
      exact (proj1 (Forall_forall _ _) Hm2 i Hi). }
    exists cur', subset, (write_state cur' <$> new), picks. split_and!; [|done| |done].
    + unfold export_selected_spectral_models. unfold bind at 1. rewrite Hrun.
      unfold bind at 1, get at 1. unfold bind at 1. simpl. by rewrite Hsub.
    + apply Forall2_fmap_r. eapply Forall2_impl; [exact Hall|].
      intros m state. apply clean_copy_written.
  - destruct (default_states_spec st Hwf (seq 0 (length (spectral_models st))) st [] []
                (preserves_refl st) (Forall2_nil_2 _ _ _))
      as (cur' & new & picks & Hrun & Hp & Hpicks & Hall).
    { apply Forall_forall. intros r Hr%elem_of_seq. lia. }
    simpl in Hrun, Hall.
    assert (picks = spectral_models st) as ->.
    { apply list_eq. intros j.
      destruct (decide (j < length (spectral_models st))) as [Hj|Hj].
      - destruct (Forall2_lookup_l _ _ _ j j Hpicks) as (m & Hm & Hst).
        { apply lookup_seq. lia. }
        by rewrite Hm Hst.
      - rewrite (lookup_ge_None_2 (spectral_models st)); [lia|].
        apply lookup_ge_None_2. rewrite -(Forall2_length _ _ _ Hpicks) length_seq. lia. }
    exists cur', (write_state cur' <$> new). split_and!; [| |done].
    + unfold save_as_default. unfold bind at 1, get at 1. unfold bind at 1. rewrite Hrun.
      done.
    + apply Forall2_fmap_r. eapply Forall2_impl; [exact Hall|].
      intros m state. apply clean_copy_written.
Qed.

End Exporters.

(** The theorem on a store with one fitted model, exported from row 0 and
    saved as the default. *)
Lemma exports_strip_a_copy_witness :
  (∃ st' line_list_subset written picks,
     export_selected_spectral_models Sample.rows_by_hash (Some "models.pkl"%string) [0]
       Sample.one_model_store
       = Returned st' (Some (line_list_subset, written)) ∧
     Forall2 (λ r m, spectral_models Sample.one_model_store !! r = Some m) [0] picks ∧
     Forall2 (written_for Sample.one_model_store) picks written ∧
     preserves Sample.rows_by_hash Sample.one_model_store st') ∧
  (∃ st' written,
     save_as_default Sample.rows_by_hash Sample.one_model_store = Returned st' written ∧
     Forall2 (written_for Sample.one_model_store)
       (spectral_models Sample.one_model_store) written ∧
     preserves Sample.rows_by_hash Sample.one_model_store st').
Proof.
  destruct (exports_strip_a_copy Sample.rows_by_hash Sample.one_model_store) as [Hexport Hsave].
  - repeat constructor. by eexists.
  - split; [|exact Hsave].
    apply Hexport.
    + repeat constructor.
    + repeat constructor.
Defined.

(** What the export of the witness writes and leaves: the copy has lost
    the two entries and kept the window; the model's own dictionary still
    has all of them. *)
Example export_of_one_model :
  ∃ st' subset w,
    export_selected_spectral_models Sample.rows_by_hash (Some "models.pkl"%string) [0]
      Sample.one_model_store = Returned st' (Some (subset, [w])) ∧
    column_hash subset = ["h1"%string] ∧
    written_metadata w !! "fitted_result"%string = None ∧
    written_metadata w !! "is_acceptable"%string = None ∧
    written_metadata w !! "window"%string = Some (PFloat 5) ∧
    dicts st' !! 0 = dicts Sample.one_model_store !! 0.
Proof. eexists _, _, _. split_and!; by vm_compute. Qed.

End ExportFacts.

(** * Comparisons of floating-point numbers *)

Module FloatFacts.

Lemma SFcompare_swap (f1 f2 : spec_float) :
  SFcompare f2 f1 = CompOpp <$> SFcompare f1 f2.
Proof.
  destruct f1 as [s1|s1| |s1 m1 e1], f2 as [s2|s2| |s2 m2 e2]; simpl;
    try done; try (by destruct s1); try (by destruct s2); try (by destruct s1, s2).
  destruct s1, s2; simpl; try done.
  - rewrite (Z.compare_antisym e1 e2). destruct (e1 ?= e2)%Z; simpl; try done.
    by rewrite (Pos.compare_cont_antisym m1 m2 Eq).
  - rewrite (Z.compare_antisym e1 e2). destruct (e1 ?= e2)%Z; simpl; try done.
    by rewrite (Pos.compare_cont_antisym m1 m2 Eq).
Qed.

Lemma is_nan_spec (x : float) : is_nan x = false → Prim2SF x ≠ S754_nan.
Proof.
  unfold is_nan. rewrite FloatAxioms.eqb_spec /SFeqb. intros Hx Hnan. by rewrite Hnan in Hx.
Qed.

Lemma SFcompare_is_Some f1 f2 :
  f1 ≠ S754_nan → f2 ≠ S754_nan → is_Some (SFcompare f1 f2).
Proof. destruct f1, f2; simpl; try done; eauto. Qed.

(** Of two numbers, when the first is not below or at the second, the
    second is below the first. *)
Lemma leb_false_ltb (x y : float) :
  is_nan x = false → is_nan y = false → PrimFloat.leb x y = false → PrimFloat.ltb y x = true.
Proof.
  intros Hx%is_nan_spec Hy%is_nan_spec. rewrite FloatAxioms.leb_spec FloatAxioms.ltb_spec /SFleb /SFltb.
  rewrite (SFcompare_swap (Prim2SF x) (Prim2SF y)).
  destruct (SFcompare_is_Some _ _ Hx Hy) as [c ->]. by destruct c.
Qed.

Lemma isfinite_not_nan (x : float) : Np.isfinite x = true → is_nan x = false.
Proof. unfold Np.isfinite. by destruct (is_nan x). Qed.

Lemma isfinite_not_inf (x : float) :
  Np.isfinite x = true →
  PrimFloat.eqb x infinity = false ∧ PrimFloat.eqb x neg_infinity = false.
Proof.
  unfold Np.isfinite, is_infinity. intros [_ Hinf%negb_true_iff]%andb_true_iff.
  revert Hinf. rewrite !FloatAxioms.eqb_spec abs_spec /SFeqb.
  change (Prim2SF infinity) with (S754_infinity false).
  change (Prim2SF neg_infinity) with (S754_infinity true).
  destruct (Prim2SF x) as [s|s| |s m e]; simpl; try done; by destruct s.
Qed.

End FloatFacts.

(** * Sorting the tables *)

Module SortFacts.
Import PyFacts LineListManager LineListManager.LineListTableModel.

Section Argsort.
Context {A : Type} (ltb : A → A → bool).

Lemma insert_sorted_perm (x : A * nat) l : Np.insert_sorted ltb x l ≡ₚ x :: l.
Proof.
  induction l as [|y l IH]; simpl; [done|].
  destruct (ltb y.1 x.1); [|done]. rewrite IH. apply Permutation_swap.
Qed.

Lemma argsort_by_perm (keys : list A) : Np.argsort_by ltb keys ≡ₚ seq 0 (length keys).
Proof.
  unfold Np.argsort_by.
  assert (∀ l : list (A * nat), foldr (Np.insert_sorted ltb) [] l ≡ₚ l) as Hfold.
  { induction l as [|x l IH]; simpl; [done|]. by rewrite insert_sorted_perm IH. }
  rewrite Hfold snd_zip // length_seq //.
Qed.
End Argsort.

Lemma lookup_all_rows_from {A} (l pre : list A) :
  omap (λ i, (pre ++ l) !! i) (seq (length pre) (length l)) = l.
Proof.
  revert pre. induction l as [|x l IH]; intros pre; [done|].
  simpl. rewrite list_lookup_middle //. f_equal.
  specialize (IH (pre ++ [x])). rewrite length_app /= Nat.add_1_r -app_assoc /= in IH. done.
Qed.

Lemma lookup_all_rows {A} (l : list A) : omap (λ i, l !! i) (seq 0 (length l)) = l.
Proof. apply (lookup_all_rows_from l []). Qed.

Lemma sort_by_insertion_perm c (ll : LineList) :
  @table_sort Sample.sort_by_insertion c ll ≡ₚ ll.
Proof.
  simpl. rewrite argsort_by_perm length_fmap. by rewrite lookup_all_rows.
Qed.

Section Sorting.
Context `{Table}.

(** X1.  Sorting the table of transitions.  Without a line list in the
    session [sort] returns and changes nothing; a column the table does
    not have ends in [IndexError] with the session as it was.  Otherwise
    the line list becomes what the table's own sort makes of it for that
    column, turned round for a descending sort; as long as that sort only
    reorders rows, the transitions are the same ones, none lost and none
    twice; the index of hashes is computed anew from the sorted table; the
    spectral models and the stored conflicts are not touched. *)
Theorem sort_reorders_line_list (s : Session) (column : nat) (order : SortOrder)
    (Hreorders : ∀ c ll, table_sort c ll ≡ₚ ll) :
  (line_list s = None → sort column order s = Returned s tt) ∧
  (∀ ll, line_list s = Some ll → columns !! column = None →
         sort column order s = Raised s IndexError) ∧
  (∀ ll c, line_list s = Some ll → columns !! column = Some c →
     ∃ s' sorted,
       sort column order s = Returned s' tt ∧
       line_list s' = Some sorted ∧
       sorted = match order with
                | AscendingOrder => table_sort c ll
                | DescendingOrder => reverse (table_sort c ll)
                end ∧
       sorted ≡ₚ ll ∧
       line_list_argsort_hashes s' = Some (Np.argsort (column_hash sorted)) ∧
       spectral_models s' = spectral_models s ∧
       _spectral_model_conflicts s' = _spectral_model_conflicts s).
Proof.
  split_and!.
  - intros Hll. unfold sort, bind, get. by rewrite Hll.
  - intros ll Hll Hc. unfold sort, bind, get. rewrite Hll /=. by rewrite Hc.
  - intros ll c Hll Hc. eexists _, _. split_and!.
    + unfold sort, update_line_list_argsort_hashes, metadata_line_list,
        bind, get, subscript, modify, ret. rewrite Hll /= Hc /=. reflexivity.
    + done.
    + done.
    + destruct order; [|rewrite reverse_Permutation]; apply Hreorders.
    + done.
    + done.
    + done.
Qed.

End Sorting.

(** The theorem on the session of three lines, with a sort that keeps
    rows of equal cells in place: sorted by wavelength, largest first. *)
Lemma sort_reorders_line_list_witness :
  ∃ s' sorted,
    @sort Sample.sort_by_insertion 0 DescendingOrder Sample.two_models_session
      = Returned s' tt ∧
    line_list s' = Some sorted ∧
    sorted = reverse (@table_sort Sample.sort_by_insertion col_wavelength Sample.three_lines) ∧
    sorted ≡ₚ Sample.three_lines ∧
    line_list_argsort_hashes s' = Some (Np.argsort (column_hash sorted)) ∧
    spectral_models s' = spectral_models Sample.two_models_session ∧
    _spectral_model_conflicts s' = _spectral_model_conflicts Sample.two_models_session.
Proof.
  apply (proj2 (proj2 (@sort_reorders_line_list Sample.sort_by_insertion
                         Sample.two_models_session 0 DescendingOrder
                         sort_by_insertion_perm))
           Sample.three_lines col_wavelength); reflexivity.
Defined.

Example sort_by_wavelength_descending :
  column_hash <$> line_list (state_of (@sort Sample.sort_by_insertion 0 DescendingOrder
                                         Sample.two_models_session))
    = Some ["h3"; "h2"; "h1"] ∧
  line_list_argsort_hashes (state_of (@sort Sample.sort_by_insertion 0 DescendingOrder
                                        Sample.two_models_session))
    = Some [2; 1; 0].
Proof. by vm_compute. Qed.

End SortFacts.

Module ModelSortFacts.
Import PyFacts LineListManager SpectralModelsTableSort.

Section Sort.
Context `{Utils}.
Context (mean_wavelength : SpectralModel → float) (_repr_element : SpectralModel → string).

Lemma sort_by_key_perm key (models : list SpectralModel) : sort_by_key key models ≡ₚ models.
Proof.
  unfold sort_by_key.
  rewrite SortFacts.argsort_by_perm length_fmap. by rewrite SortFacts.lookup_all_rows.
Qed.

(** X2.  Sorting the table of spectral models.  Without models in the
    session [sort] returns and changes nothing; a column without a sorter
    ends in [KeyError] with the session as it was.  Otherwise the list of
    models becomes a reordering of itself and the stored conflicts are
    computed anew from the reordered list; in a session without a line
    list the models are reordered all the same and the handler ends in
    [KeyError]. *)
Theorem sort_reorders_models_and_recomputes_conflicts (s : Session) (column : nat)
    (order : LineListTableModel.SortOrder) :
  (spectral_models s = None →
     sort mean_wavelength _repr_element column order s = Returned s tt) ∧
  (∀ models, spectral_models s = Some models → 5 ≤ column →
     sort mean_wavelength _repr_element column order s = Raised s KeyError) ∧
  (∀ models key,
     spectral_models s = Some models →
     sorters mean_wavelength _repr_element column = Some key →
     let sorted := match order with
                   | LineListTableModel.AscendingOrder => sort_by_key key models
                   | LineListTableModel.DescendingOrder => reverse (sort_by_key key models)
                   end in
     sorted ≡ₚ models ∧
     (∀ ll, line_list s = Some ll →
        sort mean_wavelength _repr_element column order s
          = Returned (set_spectral_model_conflicts (spectral_model_conflicts sorted ll)
                        (set_spectral_models sorted s)) tt) ∧
     (line_list s = None →
        sort mean_wavelength _repr_element column order s
          = Raised (set_spectral_models sorted s) KeyError)).
Proof.
  split_and!.
  - intros Hm. unfold sort, bind, get. by rewrite Hm.
  - intros models Hm Hcol. unfold sort, bind, get. rewrite Hm /=.
    do 5 (destruct column as [|column]; [lia|]). done.
  - intros models key Hm Hkey sorted. split_and!.
    + unfold sorted. destruct order; [|rewrite reverse_Permutation]; apply sort_by_key_perm.
    + intros ll Hll.
      unfold sort, update_spectral_model_conflicts, metadata_spectral_models,
        metadata_line_list, bind, get, subscript, modify, ret.
      rewrite Hm /= Hkey /= Hll /=. by destruct order.
    + intros Hll.
      unfold sort, update_spectral_model_conflicts, metadata_spectral_models,
        metadata_line_list, bind, get, subscript, modify, ret, raise.
      rewrite Hm /= Hkey /= Hll /=. by destruct order.
Qed.

End Sort.

Example sort_models_by_kind :
  kind <$> get_spectral_models
     (state_of (@sort Sample.sample_utils (λ _, 0%float) (λ _, ""%string) 2
                  LineListTableModel.DescendingOrder
                  (set_spectral_models
                     [Sample.profile_on ["h1"]; Sample.synthesis_on ["h3"];
                      Sample.profile_on ["h2"]] Sample.two_models_session)))
  = [Synthesis ["Ti"]; Profile; Profile].
Proof. by vm_compute. Qed.

End ModelSortFacts.

(** * Editing the list of spectral models *)

Module ModelTableFacts.
Import PyFacts LineListManager.

Lemma elem_of_remaining_models sms rows m :
  m ∈ SpectralModelsTableView.remaining_models sms rows ↔
  ∃ i, (i ∉ rows) ∧ sms !! i = Some m.
Proof.
  unfold SpectralModelsTableView.remaining_models. rewrite list_elem_of_fmap. split.
  - intros ([i m'] & -> & Hin). apply list_elem_of_filter in Hin as [Hi Hin].
    apply list_elem_of_lookup_1 in Hin as [k Hk].
    rewrite list_lookup_imap in Hk. destruct (sms !! k) eqn:Hs; simplify_eq/=. eauto.
  - intros (i & Hi & Hs). exists (i, m). split; [done|].
    apply list_elem_of_filter. split; [done|].
    apply (list_elem_of_lookup_2 _ i). by rewrite list_lookup_imap Hs.
Qed.

Lemma remaining_models_sublist sms rows :
  SpectralModelsTableView.remaining_models sms rows `sublist_of` sms.
Proof.
  unfold SpectralModelsTableView.remaining_models.
  assert (∀ k (l : list SpectralModel),
            snd <$> filter (λ p, p.1 ∉ rows) (imap (λ i, pair (k + i)) l) `sublist_of` l) as Hgen.
  { intros k l. revert k. induction l as [|x l IH]; intros k; [done|].
    rewrite /= filter_cons.
    assert (imap ((λ i, pair (k + i)) ∘ S) l = imap (λ i, pair (S k + i)) l) as ->
      by (apply imap_ext; intros; simpl; f_equal; lia).
    destruct (decide _); simpl; [apply sublist_skip|apply sublist_cons]; apply (IH (S k)). }
  apply (Hgen 0).
Qed.

(** Flagging a model twice is flagging it once. *)
Lemma set_use_flag_twice attr value m :
  set_metadata (set_use_flag attr value) (set_metadata (set_use_flag attr value) m)
    = set_metadata (set_use_flag attr value) m.
Proof. by destruct m, attr. Qed.

Lemma set_spectral_models_twice a b s :
  set_spectral_models a (set_spectral_models b s) = set_spectral_models a s.
Proof. done. Qed.

Lemma set_spectral_models_same sms s :
  spectral_models s = Some sms → set_spectral_models sms s = s.
Proof. destruct s. simpl. by intros ->. Qed.

Lemma flag_rows_spec attr value rows : ∀ s sms,
  spectral_models s = Some sms →
  Forall (λ r, r < length sms) rows →
  ∃ sms',
    for_each rows (λ row, assign_use_flag row attr value) s
      = Returned (set_spectral_models sms' s) tt ∧
    length sms' = length sms ∧
    ∀ i m, sms !! i = Some m →
      sms' !! i = Some (if bool_decide (i ∈ rows)
                        then set_metadata (set_use_flag attr value) m else m).
Proof.
  induction rows as [|row rows IH]; intros s sms Hsms Hrows.
  - exists sms. split_and!; [by rewrite /= set_spectral_models_same|done|].
    intros i m Hi. rewrite bool_decide_eq_false_2 //. apply not_elem_of_nil.
  - apply Forall_cons in Hrows as [Hrow Hrows].
    destruct (lookup_lt_is_Some_2 _ _ Hrow) as [m0 Hm0].
    set (f := set_metadata (set_use_flag attr value)).
    destruct (IH (set_spectral_models (<[row := f m0]> sms) s) (<[row := f m0]> sms))
      as (sms' & Hrun & Hlen & Hlook); [done|by rewrite length_insert|].
    exists sms'. split_and!.
    + simpl. unfold assign_use_flag, metadata_spectral_models, bind at 1, bind at 1, get at 1.
      rewrite /bind /get /subscript /modify /ret Hsms /= Hm0 /=.
      fold f. by rewrite Hrun.
    + by rewrite Hlen length_insert.
    + intros i m Hi. destruct (decide (i = row)) as [->|Hne].
      * rewrite (Hlook row (f m0)); [by rewrite list_lookup_insert_eq|].
        assert (m = m0) as -> by congruence.
        rewrite (bool_decide_eq_true_2 (row ∈ row :: rows)); [left|].
        case_bool_decide; [by rewrite /f set_use_flag_twice|done].
      * rewrite (Hlook i m); [by rewrite list_lookup_insert_ne|].
        f_equal. rewrite (bool_decide_ext (i ∈ row :: rows) (i ∈ rows)) //.
        rewrite elem_of_cons. naive_solver.
Qed.

(** The use flag that [attr] names. *)
Definition use_flag (attr : UseFlag) (m : SpectralModel) : bool :=
  match attr with
  | use_for_parameters => use_for_stellar_parameter_inference (metadata m)
  | use_for_composition => use_for_stellar_composition_inference (metadata m)
  end.

Lemma use_flag_set attr value m :
  use_flag attr (set_metadata (set_use_flag attr value) m) = value.
Proof. by destruct attr. Qed.

(** X4.  Flagging the selected models.  An index other than 0 and 1 ends
    in [IndexError] and changes nothing.  Otherwise, for rows that are
    rows of the table, every selected model gets the flag at the given
    value and is otherwise as it was, every other model is as it was, and
    the line list, its index and the stored conflicts are not touched. *)
Theorem flag_selected_flags_the_selection (s : Session) (sms : list SpectralModel)
    (index : nat) (value : bool) (rows : list nat) :
  spectral_models s = Some sms →
  (2 ≤ index → SpectralModelsTableView.flag_selected index value rows s = Raised s IndexError) ∧
  (∀ attr, [use_for_parameters; use_for_composition] !! index = Some attr →
     Forall (λ r, r < length sms) rows →
     ∃ s' sms',
       SpectralModelsTableView.flag_selected index value rows s = Returned s' tt ∧
       spectral_models s' = Some sms' ∧
       length sms' = length sms ∧
       (∀ i m, sms !! i = Some m → i ∈ rows →
          ∃ m', sms' !! i = Some m' ∧ use_flag attr m' = value ∧
                m' = set_metadata (set_use_flag attr value) m) ∧
       (∀ i, i ∉ rows → sms' !! i = sms !! i) ∧
       line_list s' = line_list s ∧
       line_list_argsort_hashes s' = line_list_argsort_hashes s ∧
       _spectral_model_conflicts s' = _spectral_model_conflicts s).
Proof.
  intros Hsms. split.
  - intros Hi. unfold SpectralModelsTableView.flag_selected, bind, subscript.
    rewrite (lookup_ge_None_2 _ index) //.
  - intros attr Hattr Hrows.
    destruct (flag_rows_spec attr value rows s sms Hsms Hrows) as (sms' & Hrun & Hlen & Hlook).
    exists (set_spectral_models sms' s), sms'. split_and!; try done.
    + unfold SpectralModelsTableView.flag_selected, bind, subscript. by rewrite Hattr /= Hrun.
    + intros i m Hi Hin. eexists. split_and!; [|apply use_flag_set|done].
      by rewrite (Hlook i m Hi) bool_decide_eq_true_2.
    + intros i Hin. destruct (sms !! i) as [m|] eqn:Hi.
      * by rewrite (Hlook i m Hi) bool_decide_eq_false_2.
      * apply lookup_ge_None_2. rewrite Hlen. by apply lookup_ge_None_1.
Qed.

Section Models.
Context `{Utils}.

(** X3.  Deleting spectral models.  The models kept are those at the rows
    that are not selected, in the order they had; with a line list in the
    session the conflicts are computed anew from the models kept, and
    without one the models are removed all the same and the handler ends
    in [KeyError]. *)
Theorem delete_selected_rows_keeps_the_rest (s : Session) (sms : list SpectralModel)
    (rows : list nat) :
  spectral_models s = Some sms →
  let kept := SpectralModelsTableView.remaining_models sms rows in
  kept `sublist_of` sms ∧
  (∀ m, m ∈ kept ↔ ∃ i, (i ∉ rows) ∧ sms !! i = Some m) ∧
  (∀ ll, line_list s = Some ll →
     SpectralModelsTableView.delete_selected_rows rows s
       = Returned (set_spectral_model_conflicts (spectral_model_conflicts kept ll)
                     (set_spectral_models kept s)) tt) ∧
  (line_list s = None →
     SpectralModelsTableView.delete_selected_rows rows s
       = Raised (set_spectral_models kept s) KeyError).
Proof.
  intros Hsms kept. split_and!.
  - apply remaining_models_sublist.
  - intros m. apply elem_of_remaining_models.
  - intros ll Hll.
    unfold SpectralModelsTableView.delete_selected_rows, update_spectral_model_conflicts,
      metadata_spectral_models, metadata_line_list, bind, get, subscript, modify, ret.
    rewrite Hsms /= Hll //.
  - intros Hll.
    unfold SpectralModelsTableView.delete_selected_rows, update_spectral_model_conflicts,
      metadata_spectral_models, metadata_line_list, bind, get, subscript, modify, ret, raise.
    rewrite Hsms /= Hll //.
Qed.

End Models.

(** The theorem on the session of two models, the second one deleted. *)
Lemma delete_selected_rows_keeps_the_rest_witness :
  let kept :=
    SpectralModelsTableView.remaining_models
      [Sample.profile_on ["h1"]; Sample.profile_on ["h1"; "h2"]] [1] in
  kept `sublist_of` [Sample.profile_on ["h1"]; Sample.profile_on ["h1"; "h2"]] ∧
  (∀ m, m ∈ kept ↔
        ∃ i, (i ∉ [1]) ∧ [Sample.profile_on ["h1"]; Sample.profile_on ["h1"; "h2"]] !! i = Some m) ∧
  (∀ ll, line_list Sample.two_models_session = Some ll →
     @SpectralModelsTableView.delete_selected_rows Sample.sample_utils [1]
       Sample.two_models_session
       = Returned (set_spectral_model_conflicts
                     (@spectral_model_conflicts Sample.sample_utils kept ll)
                     (set_spectral_models kept Sample.two_models_session)) tt) ∧
  (line_list Sample.two_models_session = None →
     @SpectralModelsTableView.delete_selected_rows Sample.sample_utils [1]
       Sample.two_models_session
       = Raised (set_spectral_models kept Sample.two_models_session) KeyError).
Proof.
  apply (@delete_selected_rows_keeps_the_rest Sample.sample_utils Sample.two_models_session
           [Sample.profile_on ["h1"]; Sample.profile_on ["h1"; "h2"]] [1]).
  reflexivity.
Defined.

(** The theorem on the session of two models: both taken out of the
    abundance determination. *)
Lemma flag_selected_flags_the_selection_witness :
  ∃ s' sms',
    SpectralModelsTableView.flag_selected 1 false [0; 1] Sample.two_models_session
      = Returned s' tt ∧
    spectral_models s' = Some sms' ∧
    length sms' = 2 ∧
    (∀ i m, [Sample.profile_on ["h1"]; Sample.profile_on ["h1"; "h2"]] !! i = Some m →
       i ∈ [0; 1] →
       ∃ m', sms' !! i = Some m' ∧ use_flag use_for_composition m' = false ∧
             m' = set_metadata (set_use_flag use_for_composition false) m) ∧
    (∀ i, i ∉ [0; 1] →
       sms' !! i = [Sample.profile_on ["h1"]; Sample.profile_on ["h1"; "h2"]] !! i) ∧
    line_list s' = line_list Sample.two_models_session ∧
    line_list_argsort_hashes s' = line_list_argsort_hashes Sample.two_models_session ∧
    _spectral_model_conflicts s' = _spectral_model_conflicts Sample.two_models_session.
Proof.
  apply (proj2 (flag_selected_flags_the_selection Sample.two_models_session
                  [Sample.profile_on ["h1"]; Sample.profile_on ["h1"; "h2"]]
                  1 false [0; 1] eq_refl) use_for_composition eq_refl).
  repeat constructor.
Defined.

End ModelTableFacts.

Module AddModelsFacts.
Import PyFacts LineListManager LineListManager.LineListTableView.

Section Add.
Context `{LineLists} `{SpectralModels} `{Utils} `{Numpy}.

Lemma profile_models_of_rows_spec s (ll : LineList) rows :
  Forall (λ r, r < length ll) rows →
  ∃ new,
    profile_models_of_rows s (column_hash ll) rows = Some new ∧
    Forall2 (λ r m, ∃ t, ll !! r = Some t ∧ m = ProfileFittingModel s [hash t]) rows new.
Proof.
  unfold profile_models_of_rows. induction rows as [|r rows IH]; intros Hrows.
  - exists []. by split; [|constructor].
  - apply Forall_cons in Hrows as [Hr Hrows]. destruct (IH Hrows) as (new & Hnew & Hall).
    destruct (lookup_lt_is_Some_2 _ _ Hr) as [t Ht].
    exists (ProfileFittingModel s [hash t] :: new). split.
    + rewrite /= /column_hash list_lookup_fmap Ht /=.
      unfold profile_models_of_rows, column_hash in Hnew. by rewrite Hnew.
    + constructor; eauto.
Qed.

Lemma profile_models_of_rows_None s (ll : LineList) rows r :
  r ∈ rows → length ll ≤ r → profile_models_of_rows s (column_hash ll) rows = None.
Proof.
  intros Hin Hr. unfold profile_models_of_rows.
  destruct (mapM _ rows) as [new|] eqn:Hm; [|done]. exfalso.
  apply mapM_Some_1 in Hm.
  apply list_elem_of_lookup_1 in Hin as [k Hk].
  destruct (Forall2_lookup_l _ _ _ _ _ Hm Hk) as (m & _ & Hx).
  rewrite /column_hash list_lookup_fmap lookup_ge_None_2 // in Hx.
Qed.

(** X5.  Profile models from selected rows.  For rows of the line list,
    one profile model per selected row is appended after the models the
    session has, in the order of the selection, each on the hash of its
    row, and the conflicts are computed from the longer list.  A selected
    row that the line list does not have ends in [IndexError] and leaves
    the session as it was. *)
Theorem add_selected_rows_as_profile_models_appends (s : Session) (ll : LineList)
    (rows : list nat) :
  line_list s = Some ll →
  (Forall (λ r, r < length ll) rows →
   ∃ new,
     Forall2 (λ r m, ∃ t, ll !! r = Some t ∧ kind m = Profile ∧
                          _transition_hashes m = [hash t]) rows new ∧
     let sms := get_spectral_models s ++ new in
     add_selected_rows_as_profile_models rows s
       = Returned (set_spectral_model_conflicts (spectral_model_conflicts sms ll)
                     (set_spectral_models sms s)) tt) ∧
  (∀ r, r ∈ rows → length ll ≤ r →
     add_selected_rows_as_profile_models rows s = Raised s IndexError).
Proof.
  intros Hll. split.
  - intros Hrows. destruct (profile_models_of_rows_spec s ll rows Hrows) as (new & Hnew & Hall).
    exists new. split.
    + eapply Forall2_impl; [exact Hall|]. intros r m (t & Ht & ->). eauto.
    + unfold add_selected_rows_as_profile_models, setdefault_spectral_models,
        extend_spectral_models, update_spectral_model_conflicts,
        metadata_spectral_models, metadata_line_list, get_spectral_models,
        bind, get, subscript, modify, ret.
      destruct rows as [|r rows].
      * injection Hnew as <-. destruct (spectral_models s) as [old|] eqn:Hold; simpl.
        -- rewrite Hold /= Hll //.
        -- rewrite Hll //.
      * rewrite Hll. cbv beta iota. rewrite Hnew /=.
        destruct (spectral_models s) as [old|] eqn:Hold; simpl.
        -- rewrite Hold /= Hll //.
        -- rewrite Hll //.
  - intros r Hin Hr.
    unfold add_selected_rows_as_profile_models, metadata_line_list,
      bind, get, subscript, modify, ret, raise.
    destruct rows as [|r0 rows]; [by apply elem_of_nil in Hin|].
    rewrite Hll. cbv beta iota.
    rewrite (profile_models_of_rows_None s ll (r0 :: rows) r) //.
Qed.

Lemma take_hashes (ll transitions : LineList) rows :
  Np.take ll rows = Some transitions →
  Forall2 (λ r h, ∃ t, ll !! r = Some t ∧ hash t = h) rows (column_hash transitions).
Proof.
  intros Htake%mapM_Some_1. unfold column_hash. apply Forall2_fmap_r.
  eapply Forall2_impl; [exact Htake|]. simpl. eauto.
Qed.

(** X6.  A synthesis model from selected rows.  The handler returns with
    the line list and its index untouched.  When the selected transitions
    are of more than one element and the dialog hands back no element,
    no model is added and the conflicts stay as stored; otherwise one
    synthesis model is appended, on the hashes of the selected rows in the
    order of the selection, for the one element of the transitions or for
    the elements of the dialog, and the conflicts are computed anew. *)
Theorem add_selected_rows_as_synthesis_model_appends (s : Session) (ll transitions : LineList)
    (rows : list nat) (dialog : list string) :
  line_list s = Some ll →
  Np.take ll rows = Some transitions →
  let elements := unique_elements transitions in
  ∃ s',
    add_selected_rows_as_synthesis_model rows dialog s = Returned s' tt ∧
    line_list s' = Some ll ∧
    line_list_argsort_hashes s' = line_list_argsort_hashes s ∧
    if bool_decide (length elements ≠ 1 ∧ dialog = [])
    then spectral_models s' = Some (get_spectral_models s) ∧
         _spectral_model_conflicts s' = _spectral_model_conflicts s
    else ∃ m,
         spectral_models s' = Some (get_spectral_models s ++ [m]) ∧
         kind m = Synthesis (if bool_decide (length elements = 1) then elements else dialog) ∧
         Forall2 (λ r h, ∃ t, ll !! r = Some t ∧ hash t = h) rows (_transition_hashes m) ∧
         _spectral_model_conflicts s'
           = spectral_model_conflicts (get_spectral_models s ++ [m]) ll.
Proof.
  intros Hll Htake elements.
  pose proof (take_hashes _ _ _ Htake) as Hhashes.
  unfold add_selected_rows_as_synthesis_model, append_synthesis_model,
    setdefault_spectral_models,
    extend_spectral_models, update_spectral_model_conflicts,
    metadata_spectral_models, metadata_line_list, get_spectral_models,
    bind, get, subscript, modify, ret.
  rewrite Hll /= Htake /=. fold elements.
  destruct (bool_decide (length elements = 1)) eqn:Hone.
  - apply bool_decide_eq_true_1 in Hone.
    rewrite bool_decide_eq_false_2; [naive_solver|].
    destruct (spectral_models s) as [old|] eqn:Hold; simpl; rewrite ?Hold /= Hll /=;
      (eexists; split_and!; [done..|]; eexists; split_and!; [done|done|exact Hhashes|done]).
  - apply bool_decide_eq_false_1 in Hone.
    destruct dialog as [|d dialog].
    + rewrite (bool_decide_eq_true_2 (_ ∧ _)) //=.
      destruct (spectral_models s) as [old|] eqn:Hold; simpl;
        (eexists; split_and!; [done..|]); by rewrite /= ?Hold.
    + rewrite (bool_decide_eq_false_2 (_ ∧ _)); [by intros [_ ?]|]. simpl.
      destruct (spectral_models s) as [old|] eqn:Hold; simpl; rewrite ?Hold /= Hll /=;
        (eexists; split_and!; [done..|]; eexists; split_and!; [done|done|exact Hhashes|done]).
Qed.

End Add.

(** The theorem on the session of three lines: rows 2 and 0 become two
    profile models, in that order. *)
Lemma add_selected_rows_as_profile_models_appends_witness :
  ∃ new,
    Forall2 (λ r m, ∃ t, Sample.three_lines !! r = Some t ∧ kind m = Profile ∧
                         _transition_hashes m = [hash t]) [2; 0] new ∧
    let sms := get_spectral_models Sample.two_models_session ++ new in
    @add_selected_rows_as_profile_models Sample.sample_models Sample.sample_utils [2; 0]
      Sample.two_models_session
      = Returned (set_spectral_model_conflicts
                    (@spectral_model_conflicts Sample.sample_utils sms Sample.three_lines)
                    (set_spectral_models sms Sample.two_models_session)) tt.
Proof.
  apply (proj1 (@add_selected_rows_as_profile_models_appends Sample.sample_models
                  Sample.sample_utils Sample.two_models_session Sample.three_lines [2; 0]
                  eq_refl)).
  repeat constructor.
Defined.

(** The theorem on the session of three lines: the two iron lines make a
    synthesis model of iron without a dialog. *)
Lemma add_selected_rows_as_synthesis_model_appends_witness :
  ∃ s',
    @add_selected_rows_as_synthesis_model Sample.sample_linelists Sample.sample_models
      Sample.sample_utils [0; 1] [] Sample.two_models_session = Returned s' tt ∧
    line_list s' = Some Sample.three_lines ∧
    line_list_argsort_hashes s' = line_list_argsort_hashes Sample.two_models_session ∧
    ∃ m,
      spectral_models s' = Some (get_spectral_models Sample.two_models_session ++ [m]) ∧
      kind m = Synthesis ["Fe"] ∧
      Forall2 (λ r h, ∃ t, Sample.three_lines !! r = Some t ∧ hash t = h) [0; 1]
        (_transition_hashes m) ∧
      _spectral_model_conflicts s'
        = @spectral_model_conflicts Sample.sample_utils
            (get_spectral_models Sample.two_models_session ++ [m]) Sample.three_lines.
Proof.
  apply (@add_selected_rows_as_synthesis_model_appends Sample.sample_linelists
           Sample.sample_models Sample.sample_utils Sample.two_models_session
           Sample.three_lines (take 2 Sample.three_lines) [0; 1] []); reflexivity.
Defined.

End AddModelsFacts.

(** * Importing line lists *)

Module ImportFacts.
Import PyFacts LineListManager LineListManager.LineListTableView.

Section Merging.
Context `{LineLists} `{SpectralModels} `{Utils} `{Numpy}.

(** The table a session holds once [loaded] has been merged into it with
    the given keywords. *)
Definition merged_into (s : Session) (loaded : LineList)
    (skip_exactly_equal_lines ignore_conflicts : option bool) : exn + LineList :=
  match line_list s with
  | None => inr loaded
  | Some current => merge current loaded skip_exactly_equal_lines ignore_conflicts
  end.

(** X7.  Importing files into the line list.  Whatever the files, the
    import ends in one of three ways.  It raises, because a merge failed,
    and the session is as it was.  It returns nothing, because there was
    no file, and the session is as it was.  Or it returns the merged
    table of the files: then the session's line list is that table, merged
    into the line list the session had if it had one, the index of hashes
    is that of the new line list, and the models and stored conflicts are
    not touched. *)
Theorem import_from_filename_all_or_nothing (s : Session) (files : list LineList)
    (merge_without_conflicts : bool) :
  match import_from_filename files merge_without_conflicts s with
  | Raised s' e =>
      s' = s ∧
      ∃ first rest, files = first :: rest ∧
        (merge_files first rest (Some true) (Some merge_without_conflicts) = inl e ∨
         ∃ loaded,
           merge_files first rest (Some true) (Some merge_without_conflicts) = inr loaded ∧
           merged_into s loaded (Some true) (Some merge_without_conflicts) = inl e)
  | Returned s' None => s' = s ∧ files = []
  | Returned s' (Some (loaded, filename_transitions)) =>
      filename_transitions = files ∧
      ∃ first rest final, files = first :: rest ∧
        merge_files first rest (Some true) (Some merge_without_conflicts) = inr loaded ∧
        merged_into s loaded (Some true) (Some merge_without_conflicts) = inr final ∧
        line_list s' = Some final ∧
        line_list_argsort_hashes s' = Some (Np.argsort (column_hash final)) ∧
        spectral_models s' = spectral_models s ∧
        _spectral_model_conflicts s' = _spectral_model_conflicts s
  end.
Proof.
  unfold import_from_filename, merged_into. destruct files as [|first rest]; [done|].
  unfold update_line_list_argsort_hashes, metadata_line_list, lift_exn,
    bind, get, subscript, modify, ret, raise.
  destruct (merge_files first rest _ _) as [e|loaded] eqn:Hfiles; simpl.
  { split; [done|]. eexists _, _. split; [done|]. by left. }
  destruct (line_list s) as [current|] eqn:Hcur; simpl.
  - destruct (merge current loaded _ _) as [e|final] eqn:Hmerge; simpl.
    + split; [done|]. eexists _, _. split; [done|]. right. by exists loaded.
    + split; [done|]. by eexists _, _, final.
  - split; [done|]. by eexists _, _, loaded.
Qed.

(** The import when the merges go through. *)
Lemma import_from_filename_merged (s : Session) (first : LineList) (rest : list LineList)
    (merge_without_conflicts : bool) (loaded final : LineList) :
  merge_files first rest (Some true) (Some merge_without_conflicts) = inr loaded →
  merged_into s loaded (Some true) (Some merge_without_conflicts) = inr final →
  ∃ s1,
    import_from_filename (first :: rest) merge_without_conflicts s
      = Returned s1 (Some (loaded, first :: rest)) ∧
    line_list s1 = Some final ∧
    spectral_models s1 = spectral_models s ∧
    _spectral_model_conflicts s1 = _spectral_model_conflicts s.
Proof.
  intros Hfiles Hfinal. unfold merged_into in Hfinal.
  unfold import_from_filename, update_line_list_argsort_hashes, metadata_line_list, lift_exn,
    bind, get, subscript, modify, ret, raise.
  rewrite Hfiles /=. destruct (line_list s) as [current|] eqn:Hcur; simpl.
  - rewrite Hfinal /=. by eexists.
  - injection Hfinal as <-. by eexists.
Qed.

(** X8.  Profile models from imported files.  When the files merge, and
    merge into the session's line list, one profile model is appended per
    transition of the files (not of the whole line list), each on the
    hash of its transition, and the conflicts are computed from the
    longer list of models and the new line list. *)
Theorem add_imported_lines_as_profile_models_one_per_line (s : Session)
    (first : LineList) (rest : list LineList) (merge_without_conflicts : bool)
    (loaded final : LineList) :
  merge_files first rest (Some true) (Some merge_without_conflicts) = inr loaded →
  merged_into s loaded (Some true) (Some merge_without_conflicts) = inr final →
  ∃ s' new,
    add_imported_lines_as_profile_models (first :: rest) merge_without_conflicts s
      = Returned s' tt ∧
    line_list s' = Some final ∧
    spectral_models s' = Some (get_spectral_models s ++ new) ∧
    Forall2 (λ t m, kind m = Profile ∧ _transition_hashes m = [hash t]) loaded new ∧
    _spectral_model_conflicts s'
      = spectral_model_conflicts (get_spectral_models s ++ new) final.
Proof.
  intros Hfiles Hfinal.
  destruct (import_from_filename_merged s first rest merge_without_conflicts loaded final
              Hfiles Hfinal) as (s1 & Hrun & Hll & Hsms & Hc).
  unfold add_imported_lines_as_profile_models. unfold bind at 1. rewrite Hrun.
  unfold setdefault_spectral_models,
    extend_spectral_models, update_spectral_model_conflicts,
    metadata_spectral_models, metadata_line_list, get_spectral_models,
    bind, get, subscript, modify, ret.
  rewrite -Hsms. destruct (spectral_models s1) as [old|] eqn:Hold; simpl;
    rewrite ?Hold /= Hll /=;
    eexists _, ((λ t, ProfileFittingModel s1 [hash t]) <$> loaded);
    (split; [reflexivity|]); simpl;
    (split_and!; [done|done| |done]);
    apply Forall2_fmap_r, Forall_Forall2_diag, Forall_forall; done.
Qed.

(** A profile model that carries a measured equivalent width [w], given in
    milliAngstroms. *)
Definition carries_width (m : SpectralModel) (t : Transition) (w : float) : Prop :=
  kind m = Profile ∧ _transition_hashes m = [hash t] ∧
  is_acceptable (metadata m) = true ∧
  ∃ rew,
    fitted_result (metadata m)
      = Some {| fit_equivalent_width := Some (1e-3 * w, 0, 0)%float;
                fit_reduced_equivalent_width := Some (rew, 0%float, 0%float);
                fit_abundances := None |}.

(** X9.  Importing measured lines.  When the files merge, and merge into
    the session's line list, and every row of the result has an
    equivalent width, one profile model is appended per row of the whole
    resulting line list: acceptable, on the hash of the row, with
    1e-3 times the width of the row as its fitted equivalent width and
    uncertainties of 0.  When a row has no equivalent width the handler
    ends in [KeyError]: models and conflicts are as they were, and the
    session keeps its line list, or has that of the files if it had
    none. *)
Theorem import_measured_builds_fitted_models (s : Session)
    (first : LineList) (rest : list LineList) (loaded final : LineList) :
  merge_files first rest None None = inr loaded →
  merged_into s loaded None None = inr final →
  (∀ widths, column_equivalent_width final = Some widths →
     ∃ s' new,
       import_transitions_with_measured_equivalent_widths (first :: rest) s
         = Returned s' tt ∧
       line_list s' = Some final ∧
       spectral_models s' = Some (get_spectral_models s ++ new) ∧
       length new = length final ∧
       Forall2 (λ p m, carries_width m p.1 p.2) (zip final widths) new) ∧
  (column_equivalent_width final = None →
     ∃ s',
       import_transitions_with_measured_equivalent_widths (first :: rest) s
         = Raised s' KeyError ∧
       line_list s' = Some (default loaded (line_list s)) ∧
       spectral_models s' = spectral_models s ∧
       _spectral_model_conflicts s' = _spectral_model_conflicts s).
Proof.
  intros Hfiles Hfinal. unfold merged_into in Hfinal. split.
  - intros widths Hw.
    unfold import_transitions_with_measured_equivalent_widths,
      update_line_list_argsort_hashes, setdefault_spectral_models,
      extend_spectral_models, update_spectral_model_conflicts,
      metadata_spectral_models, metadata_line_list, get_spectral_models, lift_exn,
      bind, get, subscript, modify, ret, raise.
    rewrite Hfiles /=.
    assert (length widths = length final) as Hlen.
    { apply mapM_Some_1 in Hw. symmetry. by eapply Forall2_length. }
    destruct (line_list s) as [current|] eqn:Hcur; simpl.
    + rewrite Hfinal /= Hcur /= Hw /=.
      destruct (spectral_models s) as [old|] eqn:Hold; simpl; rewrite ?Hold /=;
        (eexists _, _; split_and!;
           [done|done|done
           |rewrite length_fmap length_zip; lia
           |apply Forall2_fmap_r, Forall_Forall2_diag, Forall_forall;
            intros [t w] _; split_and!; try done; by eexists]).
    + injection Hfinal as <-. rewrite Hw /=.
      destruct (spectral_models s) as [old|] eqn:Hold; simpl; rewrite ?Hold /=;
        (eexists _, _; split_and!;
           [done|done|done
           |rewrite length_fmap length_zip; lia
           |apply Forall2_fmap_r, Forall_Forall2_diag, Forall_forall;
            intros [t w] _; split_and!; try done; by eexists]).
  - intros Hw.
    unfold import_transitions_with_measured_equivalent_widths,
      update_line_list_argsort_hashes, metadata_line_list, lift_exn,
      bind, get, subscript, modify, ret, raise.
    rewrite Hfiles /=.
    destruct (line_list s) as [current|] eqn:Hcur; simpl.
    + rewrite Hfinal /= Hcur /= Hw /=. by eexists.
    + injection Hfinal as <-. rewrite Hw /=. by eexists.
Qed.

End Merging.

(** The theorem on a session with one line, importing a file with another. *)
Lemma add_imported_lines_as_profile_models_one_per_line_witness :
  ∃ s' new,
    @add_imported_lines_as_profile_models Sample.sample_linelists Sample.sample_models
      Sample.sample_utils [Sample.measured_file] false Sample.one_measured_line
      = Returned s' tt ∧
    line_list s' = Some [Sample.line 5000 "Fe" "h2" (Some 10%float);
                         Sample.line 5100 "Fe" "h1" (Some 20%float)] ∧
    spectral_models s' = Some (get_spectral_models Sample.one_measured_line ++ new) ∧
    Forall2 (λ t m, kind m = Profile ∧ _transition_hashes m = [hash t])
      Sample.measured_file new ∧
    _spectral_model_conflicts s'
      = @spectral_model_conflicts Sample.sample_utils
          (get_spectral_models Sample.one_measured_line ++ new)
          [Sample.line 5000 "Fe" "h2" (Some 10%float);
           Sample.line 5100 "Fe" "h1" (Some 20%float)].
Proof.
  apply (@add_imported_lines_as_profile_models_one_per_line Sample.sample_linelists
           Sample.sample_models Sample.sample_utils Sample.one_measured_line
           Sample.measured_file [] false Sample.measured_file); reflexivity.
Defined.

(** The theorem on the same session and file, the widths taken over: 10
    and 20 milliAngstroms for the two lines. *)
Lemma import_measured_builds_fitted_models_witness :
  ∃ s' new,
    @import_transitions_with_measured_equivalent_widths Sample.sample_linelists
      Sample.sample_models Sample.sample_utils Sample.sample_numpy
      [Sample.measured_file] Sample.one_measured_line = Returned s' tt ∧
    line_list s' = Some [Sample.line 5000 "Fe" "h2" (Some 10%float);
                         Sample.line 5100 "Fe" "h1" (Some 20%float)] ∧
    spectral_models s' = Some (get_spectral_models Sample.one_measured_line ++ new) ∧
    length new = 2 ∧
    Forall2 (λ p m, @carries_width m p.1 p.2)
      [(Sample.line 5000 "Fe" "h2" (Some 10%float), 10%float);
       (Sample.line 5100 "Fe" "h1" (Some 20%float), 20%float)] new.
Proof.
  apply (proj1 (@import_measured_builds_fitted_models Sample.sample_linelists
                  Sample.sample_models Sample.sample_utils Sample.sample_numpy
                  Sample.one_measured_line Sample.measured_file []
                  Sample.measured_file
                  [Sample.line 5000 "Fe" "h2" (Some 10%float);
                   Sample.line 5100 "Fe" "h1" (Some 20%float)] eq_refl eq_refl)
           [10; 20]%float).
  reflexivity.
Defined.

End ImportFacts.

Module SynthesisImportFacts.
Import PyFacts LineListManager LineListManager.LineListTableView ImportFacts.

Section Merging.
Context `{LineLists} `{SpectralModels} `{Utils} `{Numpy}.

Lemma assert_each_nonempty (elems : list (list string)) (s : Session) :
  for_each elems (λ elements_to_measure,
    if bool_decide (1 ≤ length elements_to_measure) then ret tt
    else raise AssertionError) s
  = if bool_decide (Forall (λ e, 1 ≤ length e) elems) then Returned s tt
    else Raised s AssertionError.
Proof.
  induction elems as [|e elems IH]; [done|].
  simpl. unfold bind. destruct (decide (1 ≤ length e)) as [He|He].
  - rewrite (bool_decide_eq_true_2 (1 ≤ length e)) //= IH.
    destruct (decide (Forall (λ e, 1 ≤ length e) elems)) as [Hall|Hall].
    + rewrite !bool_decide_eq_true_2 //. by constructor.
    + rewrite !bool_decide_eq_false_2 //. by intros [_ ?]%Forall_cons.
  - rewrite (bool_decide_eq_false_2 (1 ≤ length e)) //=.
    rewrite bool_decide_eq_false_2 //. by intros [? _]%Forall_cons.
Qed.

Lemma append_each (pairs : list (LineList * list string)) : ∀ s old,
  spectral_models s = Some old →
  ∃ new,
    for_each pairs (λ p, append_synthesis_model p.1 p.2) s
      = Returned (set_spectral_models (old ++ new) s) tt ∧
    Forall2 (λ p m, kind m = Synthesis p.2 ∧ _transition_hashes m = column_hash p.1)
      pairs new.
Proof.
  induction pairs as [|[transitions elements] pairs IH]; intros s old Hold.
  - exists []. split; [|constructor]. rewrite app_nil_r /=. f_equal.
    destruct s. simpl in *. by subst.
  - set (m := SpectralSynthesisModel s (column_hash transitions) elements).
    destruct (IH (set_spectral_models (old ++ [m]) s) (old ++ [m]) eq_refl)
      as (new & Hrun & Hall).
    exists (m :: new). split; [|by constructor].
    simpl. unfold append_synthesis_model, extend_spectral_models, metadata_spectral_models,
      bind at 1, bind at 1, get at 1.
    rewrite /bind /get /subscript /modify /ret Hold /=. fold m.
    rewrite Hrun -app_assoc //.
Qed.

(** X10.  Synthesis models from imported files, with the elements given
    per file.  When the files merge and every file has at least one
    element to measure, one synthesis model is appended per file, in the
    order of the files, on the hashes of the file's transitions and for
    the file's elements, and the conflicts are computed anew.  When some
    file has no element the handler ends in [AssertionError] after the
    line list has been replaced: no model is added and the conflicts stay
    as stored. *)
Theorem add_imported_lines_as_synthesis_model_one_per_file (s : Session)
    (first : LineList) (rest : list LineList) (merge_without_conflicts : bool)
    (loaded final : LineList) (input_elements : list (list string))
    (dialogs : list (list string)) :
  merge_files first rest (Some true) (Some merge_without_conflicts) = inr loaded →
  merged_into s loaded (Some true) (Some merge_without_conflicts) = inr final →
  length input_elements = length (first :: rest) →
  let old := get_spectral_models s in
  (Forall (λ e, 1 ≤ length e) input_elements →
   ∃ s' new,
     add_imported_lines_as_synthesis_model (first :: rest) merge_without_conflicts
       (Some input_elements) dialogs s = Returned s' tt ∧
     line_list s' = Some final ∧
     spectral_models s' = Some (old ++ new) ∧
     Forall2 (λ p m, kind m = Synthesis p.2 ∧ _transition_hashes m = column_hash p.1)
       (zip (first :: rest) input_elements) new ∧
     _spectral_model_conflicts s' = spectral_model_conflicts (old ++ new) final) ∧
  (¬ Forall (λ e, 1 ≤ length e) input_elements →
   ∃ s',
     add_imported_lines_as_synthesis_model (first :: rest) merge_without_conflicts
       (Some input_elements) dialogs s = Raised s' AssertionError ∧
     line_list s' = Some final ∧
     spectral_models s' = Some old ∧
     _spectral_model_conflicts s' = _spectral_model_conflicts s).
Proof.
  intros Hfiles Hfinal Hlen old.
  destruct (import_from_filename_merged s first rest merge_without_conflicts loaded final
              Hfiles Hfinal) as (s1 & Himport & Hll & Hsms & Hc).
  assert (∃ s2,
    spectral_models s2 = Some old ∧ line_list s2 = Some final ∧
    _spectral_model_conflicts s2 = _spectral_model_conflicts s ∧
    add_imported_lines_as_synthesis_model (first :: rest) merge_without_conflicts
      (Some input_elements) dialogs s
    = match for_each input_elements (λ elements_to_measure,
              if bool_decide (1 ≤ length elements_to_measure) then ret tt
              else raise AssertionError) s2 with
      | Returned s3 _ =>
          (for_each (zip (first :: rest) input_elements)
             (λ p, append_synthesis_model p.1 p.2);;;
           update_spectral_model_conflicts) s3
      | Raised s3 e => Raised s3 e
      end) as (s2 & Hold2 & Hll2 & Hc2 & ->).
  { unfold add_imported_lines_as_synthesis_model. unfold bind at 1. rewrite Himport.
    rewrite bool_decide_eq_true_2 //.
    exists (match spectral_models s1 with Some _ => s1 | None => set_spectral_models [] s1 end).
    split_and!.
    - unfold old, get_spectral_models. rewrite -Hsms. by destruct (spectral_models s1) eqn:Hs1.
    - by destruct (spectral_models s1).
    - by destruct (spectral_models s1).
    - unfold bind, setdefault_spectral_models, modify.
      by destruct (for_each input_elements _ _). }
  rewrite assert_each_nonempty. split.
  - intros Hall. rewrite bool_decide_eq_true_2 //.
    destruct (append_each (zip (first :: rest) input_elements) s2 old Hold2) as (new & Hrun & Hnew).
    unfold bind at 1. rewrite Hrun.
    exists (set_spectral_model_conflicts (spectral_model_conflicts (old ++ new) final)
              (set_spectral_models (old ++ new) s2)), new.
    split_and!; try done.
    unfold update_spectral_model_conflicts, metadata_spectral_models, metadata_line_list,
      bind, get, subscript, modify, ret.
    by rewrite /= Hll2.
  - intros Hnot. rewrite bool_decide_eq_false_2 //. by exists s2.
Qed.

End Merging.

(** The theorem on a session with one line and one file that is to be
    synthesised for titanium. *)
Lemma add_imported_lines_as_synthesis_model_one_per_file_witness :
  ∃ s' new,
    @add_imported_lines_as_synthesis_model Sample.sample_linelists Sample.sample_models
      Sample.sample_utils [Sample.measured_file] false (Some [["Ti"%string]]) []
      Sample.one_measured_line = Returned s' tt ∧
    line_list s' = Some [Sample.line 5000 "Fe" "h2" (Some 10%float);
                         Sample.line 5100 "Fe" "h1" (Some 20%float)] ∧
    spectral_models s' = Some (get_spectral_models Sample.one_measured_line ++ new) ∧
    Forall2 (λ p m, kind m = Synthesis p.2 ∧ _transition_hashes m = column_hash p.1)
      [(Sample.measured_file, ["Ti"%string])] new ∧
    _spectral_model_conflicts s'
      = @spectral_model_conflicts Sample.sample_utils
          (get_spectral_models Sample.one_measured_line ++ new)
          [Sample.line 5000 "Fe" "h2" (Some 10%float);
           Sample.line 5100 "Fe" "h1" (Some 20%float)].
Proof.
  apply (proj1 (@add_imported_lines_as_synthesis_model_one_per_file Sample.sample_linelists
                  Sample.sample_models Sample.sample_utils Sample.one_measured_line
                  Sample.measured_file [] false Sample.measured_file
                  [Sample.line 5000 "Fe" "h2" (Some 10%float);
                   Sample.line 5100 "Fe" "h1" (Some 20%float)]
                  [["Ti"%string]] [] eq_refl eq_refl eq_refl)).
  repeat constructor.
Defined.

End SynthesisImportFacts.

(** * Double clicks and measurements on the abundances tab *)

Module AbundanceTabFacts.
Import PyFacts Mask ChemicalAbundancesTab.

Definition tab_models (t : Tab) : list SpectralModel := get_spectral_models (session t).

(** The tab with the model in row [i] replaced. *)
Definition with_model (i : nat) (m : SpectralModel) (t : Tab) : Tab :=
  set_session (set_spectral_models (<[i := m]> (tab_models t))) t.

Lemma store_model_run i m t : store_model i m t = Returned (with_model i m t) tt.
Proof. done. Qed.

Lemma with_model_twice i m m' t :
  with_model i m' (with_model i m t) = with_model i m' t.
Proof.
  unfold with_model, set_session, tab_models, get_spectral_models. simpl.
  by rewrite list_insert_insert_eq.
Qed.

Lemma tab_models_with_model i m t : tab_models (with_model i m t) = <[i := m]> (tab_models t).
Proof. done. Qed.

Section Tab.
Context `{SpectralModels}.

Lemma call_fit_run i m t :
  tab_models t !! i = Some m →
  call_fit i t = match (fit m).2 with
                 | None => Returned (with_model i (fit m).1 t) tt
                 | Some e => Raised (with_model i (fit m).1 t) e
                 end.
Proof.
  intros Hi. unfold call_fit, all_spectral_models, bind, get, ret, subscript.
  fold (tab_models t). rewrite Hi /=. by destruct (fit m).2.
Qed.

(** X11.  A double click on the spectrum of the abundances tab.  The
    selected model loses the last interval of its mask that holds the
    position of the click, and nothing when no interval holds it; the
    model is fitted in both cases, and the handler ends as the fit
    ends. *)
Theorem double_click_removes_latest_mask (t : Tab) (index : nat) (m : SpectralModel)
    (xdata : float) :
  tab_models t !! index = Some m →
  ∃ m',
    ((∃ before interval after,
        mask (metadata m) = before ++ interval :: after ∧
        contains xdata interval = true ∧
        Forall (λ later, contains xdata later = false) after ∧
        m' = set_metadata (set_mask (before ++ after)) m) ∨
     (Forall (λ interval, contains xdata interval = false) (mask (metadata m)) ∧ m' = m)) ∧
    spectrum_axis_mouse_press true (Some index) xdata t
      = match (fit m').2 with
        | None => Returned (with_model index (fit m').1 t) tt
        | Some e => Raised (with_model index (fit m').1 t) e
        end.
Proof.
  intros Hi. pose proof (MaskFacts.remove_containing_spec xdata (mask (metadata m))) as Hspec.
  assert (spectrum_axis_mouse_press true (Some index) xdata t
          = match remove_containing (mask (metadata m)) xdata with
            | Some remaining =>
                (store_model index (set_metadata (set_mask remaining) m);;; call_fit index) t
            | None => call_fit index t
            end) as ->.
  { unfold spectrum_axis_mouse_press, all_spectral_models, bind at 1, bind at 1, bind at 1.
    rewrite /subscript /get /ret /=. fold (tab_models t). rewrite Hi /bind /=. by destruct (remove_containing _ _). }
  destruct (remove_containing (mask (metadata m)) xdata) as [remaining|].
  - destruct Hspec as (before & interval & after & Hmask & Hin & Hlater & ->).
    exists (set_metadata (set_mask (before ++ after)) m). split.
    + left. by exists before, interval, after.
    + unfold bind. rewrite store_model_run.
      rewrite (call_fit_run index (set_metadata (set_mask (before ++ after)) m)).
      { rewrite tab_models_with_model list_lookup_insert_eq //. by eapply lookup_lt_Some. }
      rewrite !with_model_twice. done.
  - exists m. split; [by right|]. by apply call_fit_run.
Qed.

End Tab.

Section Measure.
Context `{SpectralModels} `{RadiativeTransfer}.
Import MeasureFacts.

Lemma collect_widths : ∀ enumerated acc,
  Forall (λ p, is_Some (recorded_width p.2)) (profiles enumerated) →
  ∃ c widths,
    collect enumerated acc = inr c ∧
    equivalent_widths c = equivalent_widths acc ++ widths ∧
    Forall2 (λ p w, recorded_width p.2 = Some w) (profiles enumerated) widths.
Proof.
  induction enumerated as [|[i m] rest IH]; intros acc Hall.
  - exists acc, []. split_and!; [done|by rewrite app_nil_r|constructor].
  - unfold profiles in *. rewrite filter_cons /= in Hall. simpl.
    destruct (isinstance_profile m) eqn:Hp; simpl in *.
    + apply Forall_cons in Hall as [[w Hw] Hall]. unfold recorded_width in Hw. simpl in Hw.
      destruct (equivalent_width_mA m) as [e|ew] eqn:Hew; [done|]. injection Hw as ->.
      destruct (IH {| equivalent_widths := equivalent_widths acc ++ [w];
                      transition_indices := transition_indices acc ++ _transition_indices m;
                      spectral_model_indices := spectral_model_indices acc ++ [i] |} Hall)
        as (c & widths & Hc & Hws & Hf2).
      exists c, (w :: widths). split_and!; [done|by rewrite Hws /= -app_assoc|].
      rewrite filter_cons /= Hp /=. constructor; [|done]. by rewrite /recorded_width Hew.
    + destruct (IH acc Hall) as (c & widths & Hc & Hws & Hf2).
      exists c, widths. split_and!; [done..|]. by rewrite filter_cons /= Hp.
Qed.

Lemma finite_widths_count (P : list (nat * SpectralModel)) widths :
  Forall2 (λ p w, recorded_width p.2 = Some w) P widths →
  length (filter (λ x, Np.isfinite x = true) widths)
    = length (filter (λ p, finite_width p.2 = true) P).
Proof.
  induction 1 as [|p w P widths Hw _ IH]; [done|].
  assert (finite_width p.2 = Np.isfinite w) as Hfw by (by rewrite /finite_width Hw).
  rewrite !filter_cons. destruct (decide (Np.isfinite w = true)) as [Hf|Hf].
  - rewrite decide_True; [congruence|]. by rewrite /= IH.
  - rewrite decide_False; [congruence|]. done.
Qed.

(** X12.  [measure_all] with nothing to measure.  When every acceptable
    profile model has a fitted equivalent width and no profile model has
    a finite one, the handler ends in [ValueError] and changes nothing: no
    abundance is asked for or written. *)
Theorem measure_all_needs_a_finite_width (t : Tab) (ms : list SpectralModel) :
  spectral_models (session t) = Some ms →
  Forall (λ p, is_Some (recorded_width p.2)) (profiles (imap pair ms)) →
  measured ms = [] →
  measure_all t = Raised t ValueError.
Proof.
  intros Hms Hall Hnone.
  destruct (collect_widths (imap pair ms) (mkCollected [] [] []) Hall) as (c & widths & Hc & Hws & Hf2).
  unfold measure_all, bind, get, subscript, ret, raise. rewrite Hms /= Hc Hws /=.
  rewrite (finite_widths_count _ _ Hf2). fold (measured ms). rewrite Hnone /=.
  by rewrite orb_true_r.
Qed.

End Measure.

(** The theorem on the model with mask intervals (1, 3), (2, 5) and
    (6, 7), double-clicked at 2.5: the interval (2, 5) goes. *)
Lemma double_click_removes_latest_mask_witness :
  ∃ m',
    ((∃ before interval after,
        mask (metadata Sample.masked_model) = before ++ interval :: after ∧
        contains 2.5 interval = true ∧
        Forall (λ later, contains 2.5 later = false) after ∧
        m' = set_metadata (set_mask (before ++ after)) Sample.masked_model) ∨
     (Forall (λ interval, contains 2.5 interval = false) (mask (metadata Sample.masked_model)) ∧
      m' = Sample.masked_model)) ∧
    @spectrum_axis_mouse_press Sample.sample_models true (Some 0) 2.5 Sample.masked_tab
      = match (@fit Sample.sample_models m').2 with
        | None => Returned (with_model 0 (@fit Sample.sample_models m').1 Sample.masked_tab) tt
        | Some e => Raised (with_model 0 (@fit Sample.sample_models m').1 Sample.masked_tab) e
        end.
Proof.
  apply (@double_click_removes_latest_mask Sample.sample_models Sample.masked_tab 0
           Sample.masked_model 2.5).
  reflexivity.
Defined.

(** A tab whose only profile model is not acceptable. *)
Definition nothing_measured : Tab :=
  mkTab (mkSession (Some Sample.three_lines) (Some [0; 1; 2])
           (Some [Sample.fitted_profile 1 "h2" false; Sample.synthesis_on ["h3"]]) [])
    [] [].

(** The theorem on that tab. *)
Lemma measure_all_needs_a_finite_width_witness :
  @measure_all Sample.echo_transfer nothing_measured = Raised nothing_measured ValueError.
Proof.
  apply (@measure_all_needs_a_finite_width Sample.echo_transfer nothing_measured
           [Sample.fitted_profile 1 "h2" false; Sample.synthesis_on ["h3"]]).
  - reflexivity.
  - repeat constructor. by eexists.
  - reflexivity.
Defined.

End AbundanceTabFacts.

(** * Drawing masks on the abundances tab *)

Module MaskGestureFacts.
Import PyFacts Mask MaskGesture.

Definition axis_models (a : Axis) : list SpectralModel :=
  get_spectral_models (ChemicalAbundancesTab.session (tab a)).

(** The axis once a gesture is over: no signal, an empty patch. *)
Definition at_rest (t : ChemicalAbundancesTab.Tab) : Axis :=
  {| tab := t; signal := None; patch_xy := (nan, nan) |}.

(** The tab with the model in row [i] replaced. *)
Definition with_model (i : nat) (m : SpectralModel) (t : ChemicalAbundancesTab.Tab)
    : ChemicalAbundancesTab.Tab :=
  ChemicalAbundancesTab.set_session
    (set_spectral_models
       (<[i := m]> (get_spectral_models (ChemicalAbundancesTab.session t)))) t.

Section Gesture.
Context `{SpectralModels}.

Lemma release_adds_interval (a : Axis) (ms : list SpectralModel) (index : nat)
    (m : SpectralModel) (signal_time : float) (cid : nat) (event_xdata : option float)
    (now : float) :
  spectral_models (ChemicalAbundancesTab.session (tab a)) = Some ms →
  ms !! index = Some m →
  signal a = Some (signal_time, cid) →
  PrimFloat.ltb DOUBLE_CLICK_INTERVAL (now - signal_time) = true →
  PrimFloat.ltb 0 (abs ((patch_xy a).1 - default (patch_xy a).2 event_xdata)) = true →
  let m' := set_metadata (λ md, set_mask (mask md ++ [patch_xy a]) md) m in
  spectrum_axis_mouse_release event_xdata (Some index) now a
    = match (fit m').2 with
      | None => Returned (at_rest (with_model index (fit m').1 (tab a))) tt
      | Some e => Raised (set_tab (with_model index (fit m').1 (tab a)) a) e
      end.
Proof.
  intros Hms Hi Hsig Hlate Hmoved m'.
  unfold spectrum_axis_mouse_release. unfold bind at 1, get at 1. rewrite Hsig.
  assert (match event_xdata with Some x => x | None => (patch_xy a).2 end
          = default (patch_xy a).2 event_xdata) as -> by (by destruct event_xdata).
  rewrite Hlate Hmoved /=.
  unfold _get_selected_model, on_tab, ChemicalAbundancesTab.store_model,
    ChemicalAbundancesTab.call_fit, ChemicalAbundancesTab.all_spectral_models,
    bind, get, subscript, modify, ret, raise.
  rewrite Hms /= Hi /=.
  rewrite /get_spectral_models Hms /= list_lookup_insert_eq; [by eapply lookup_lt_Some|].
  simpl. destruct (patch_xy a) as [x0 x1] eqn:Hxy. simpl. fold m'.
  destruct (fit m').2; simpl;
    unfold with_model, at_rest, set_tab, ChemicalAbundancesTab.set_session,
      get_spectral_models; simpl; rewrite Hms /= list_insert_insert_eq //.
Qed.

(** X13.  Drawing a mask on the abundances tab.  A click at [x0], a motion
    to [x1] and a release at another place than [x0], the last two more
    than the double-click interval after the click, append the interval
    [(x0, x1)] to the mask of the selected model, as dragged and not put
    in order, and fit the model.  When the fit returns the signal is gone
    and the patch is empty; when it raises both are left as they were. *)
Theorem drag_appends_the_dragged_interval (a : Axis) (ms : list SpectralModel)
    (index : nat) (m : SpectralModel) (x0 x1 x2 t0 t1 t2 : float) (cid : nat) :
  spectral_models (ChemicalAbundancesTab.session (tab a)) = Some ms →
  ms !! index = Some m →
  PrimFloat.ltb DOUBLE_CLICK_INTERVAL (t1 - t0) = true →
  PrimFloat.ltb DOUBLE_CLICK_INTERVAL (t2 - t0) = true →
  PrimFloat.ltb 0 (abs (x0 - x2)) = true →
  let m' := set_metadata (λ md, set_mask (mask md ++ [(x0, x1)]) md) m in
  let fitted := with_model index (fit m').1 (tab a) in
  (spectrum_axis_mouse_press false (Some index) x0 t0 cid;;;
   update_mask_region (Some x1) t1;;;
   spectrum_axis_mouse_release (Some x2) (Some index) t2) a
    = match (fit m').2 with
      | None => Returned (at_rest fitted) tt
      | Some e => Raised {| tab := fitted; signal := Some (t0, cid); patch_xy := (x0, x1) |} e
      end.
Proof.
  intros Hms Hi Hmotion Hlate Hmoved m' fitted.
  unfold bind at 1. unfold spectrum_axis_mouse_press, modify.
  unfold bind at 1. unfold update_mask_region, bind at 1, get at 1. simpl.
  rewrite Hmotion /put.
  by rewrite (release_adds_interval _ ms index m t0 cid (Some x2) t2).
Qed.

(** X14.  Releases that add no mask.  A release with no click before it
    returns and changes nothing.  A release within the double-click
    interval of the click, or at the place of the click, leaves the tab as
    it is and clears the signal and the patch, so that a further release
    does nothing; so a click and a release within the interval change
    nothing. *)
Theorem release_of_a_click_adds_nothing (a : Axis) (event_xdata : option float)
    (selected : option nat) (now : float) :
  (signal a = None →
     spectrum_axis_mouse_release event_xdata selected now a = Returned a tt) ∧
  (∀ signal_time cid,
     signal a = Some (signal_time, cid) →
     PrimFloat.ltb DOUBLE_CLICK_INTERVAL (now - signal_time) = false ∨
     PrimFloat.ltb 0 (abs ((patch_xy a).1 - default (patch_xy a).2 event_xdata)) = false →
     spectrum_axis_mouse_release event_xdata selected now a = Returned (at_rest (tab a)) tt ∧
     spectrum_axis_mouse_release event_xdata selected now (at_rest (tab a))
       = Returned (at_rest (tab a)) tt) ∧
  (∀ xdata cid later,
     PrimFloat.ltb DOUBLE_CLICK_INTERVAL (later - now) = false →
     (spectrum_axis_mouse_press false selected xdata now cid;;;
      spectrum_axis_mouse_release event_xdata selected later) a
       = Returned (at_rest (tab a)) tt).
Proof.
  split_and!.
  - intros Hsig. unfold spectrum_axis_mouse_release, bind, get. by rewrite Hsig.
  - intros signal_time cid Hsig Htest. split; [|done].
    unfold spectrum_axis_mouse_release. unfold bind at 1, get at 1. rewrite Hsig.
    assert (match event_xdata with Some x => x | None => (patch_xy a).2 end
            = default (patch_xy a).2 event_xdata) as -> by (by destruct event_xdata).
    destruct Htest as [-> | ->]; rewrite ?andb_false_r //.
  - intros xdata cid later Hquick.
    unfold bind at 1. unfold spectrum_axis_mouse_press, modify.
    unfold spectrum_axis_mouse_release. unfold bind at 1, get at 1. simpl.
    by rewrite Hquick.
Qed.

Lemma leb_nan_r (x : float) : PrimFloat.leb x nan = false.
Proof.
  rewrite FloatAxioms.leb_spec. change (Prim2SF nan) with S754_nan.
  unfold SFleb, SFcompare. by destruct (Prim2SF x).
Qed.

(** X15.  A click held without a motion event.  A click at [x0] followed,
    later than the double-click interval and at another place, by a
    release with no motion seen in between appends [(x0, nan)] to the
    mask.  No position lies in that interval, so a double click removes
    from the new mask what it removes from the old one and never the new
    interval. *)
Theorem held_click_leaves_an_open_interval (a : Axis) (ms : list SpectralModel)
    (index : nat) (m : SpectralModel) (x0 x2 t0 t2 : float) (cid : nat) :
  spectral_models (ChemicalAbundancesTab.session (tab a)) = Some ms →
  ms !! index = Some m →
  PrimFloat.ltb DOUBLE_CLICK_INTERVAL (t2 - t0) = true →
  PrimFloat.ltb 0 (abs (x0 - x2)) = true →
  let m' := set_metadata (λ md, set_mask (mask md ++ [(x0, nan)]) md) m in
  (∀ xdata, contains xdata (x0, nan) = false) ∧
  (∀ xdata, remove_containing (mask (metadata m')) xdata
            = (λ remaining, remaining ++ [(x0, nan)]) <$>
                remove_containing (mask (metadata m)) xdata) ∧
  (spectrum_axis_mouse_press false (Some index) x0 t0 cid;;;
   spectrum_axis_mouse_release (Some x2) (Some index) t2) a
    = match (fit m').2 with
      | None => Returned (at_rest (with_model index (fit m').1 (tab a))) tt
      | Some e =>
          Raised {| tab := with_model index (fit m').1 (tab a);
                    signal := Some (t0, cid); patch_xy := (x0, nan) |} e
      end.
Proof.
  intros Hms Hi Hlate Hmoved m'.
  assert (∀ xdata, contains xdata (x0, nan) = false) as Hopen.
  { intros xdata. by rewrite /contains /= leb_nan_r. }
  split_and!; [done| |].
  - intros xdata. by rewrite /= MaskFacts.remove_containing_snoc Hopen.
  - unfold bind at 1. unfold spectrum_axis_mouse_press, modify.
    by rewrite (release_adds_interval _ ms index m t0 cid (Some x2) t2).
Qed.

End Gesture.

(** The theorem on the masked model: a drag from 10 to 12 that takes one
    second. *)
Lemma drag_appends_the_dragged_interval_witness :
  let m' :=
    set_metadata (λ md, set_mask (mask md ++ [(10, 12)%float]) md) Sample.masked_model in
  let fitted := with_model 0 (@fit Sample.sample_models m').1 Sample.masked_tab in
  (@spectrum_axis_mouse_press Sample.sample_models false (Some 0) 10 100 7;;;
   update_mask_region (Some 12%float) 100.5;;;
   @spectrum_axis_mouse_release Sample.sample_models (Some 12%float) (Some 0) 101)
    (at_rest Sample.masked_tab)
    = match (@fit Sample.sample_models m').2 with
      | None => Returned (at_rest fitted) tt
      | Some e =>
          Raised {| tab := fitted; signal := Some (100%float, 7); patch_xy := (10, 12)%float |} e
      end.
Proof.
  apply (@drag_appends_the_dragged_interval Sample.sample_models (at_rest Sample.masked_tab)
           [Sample.masked_model] 0 Sample.masked_model 10 12 12 100 100.5 101 7);
    reflexivity.
Defined.

(** The theorem on the masked model: the button held for a second and let
    go at 12 with no motion seen in between. *)
Lemma held_click_leaves_an_open_interval_witness :
  let m' :=
    set_metadata (λ md, set_mask (mask md ++ [(10%float, nan)]) md) Sample.masked_model in
  (∀ xdata, contains xdata (10%float, nan) = false) ∧
  (∀ xdata, remove_containing (mask (metadata m')) xdata
            = (λ remaining, remaining ++ [(10%float, nan)]) <$>
                remove_containing (mask (metadata Sample.masked_model)) xdata) ∧
  (@spectrum_axis_mouse_press Sample.sample_models false (Some 0) 10 100 7;;;
   @spectrum_axis_mouse_release Sample.sample_models (Some 12%float) (Some 0) 101)
    (at_rest Sample.masked_tab)
    = match (@fit Sample.sample_models m').2 with
      | None =>
          Returned
            (at_rest (with_model 0 (@fit Sample.sample_models m').1 Sample.masked_tab)) tt
      | Some e =>
          Raised {| tab := with_model 0 (@fit Sample.sample_models m').1 Sample.masked_tab;
                    signal := Some (100%float, 7); patch_xy := (10%float, nan) |} e
      end.
Proof.
  apply (@held_click_leaves_an_open_interval Sample.sample_models (at_rest Sample.masked_tab)
           [Sample.masked_model] 0 Sample.masked_model 10 12 100 101 7);
    reflexivity.
Defined.

(** A drag on the masked model, run: the mask has a fourth interval. *)
Example drag_on_the_masked_model :
  ∃ a',
    (@spectrum_axis_mouse_press Sample.sample_models false (Some 0) 10 100 7;;;
     update_mask_region (Some 12%float) 100.5;;;
     @spectrum_axis_mouse_release Sample.sample_models (Some 12%float) (Some 0) 101)
      (at_rest Sample.masked_tab) = Returned a' tt ∧
    (λ m, mask (metadata m)) <$> axis_models a'
      = [[(1, 3); (2, 5); (6, 7); (10, 12)]%float] ∧
    signal a' = None.
Proof. eexists. split_and!; by vm_compute. Qed.

End MaskGestureFacts.

(** * Bounds and rows of the fit options table *)

Module BalmerTableFacts.
Import PyFacts FloatFacts BalmerLineOptionsTableModel BalmerLineOptionsTableData.

(** Every bound that is set is a finite number, and a lower bound lies
    below the upper bound of the same parameter. *)
Definition well_bounded (o : Options) : Prop :=
  ∀ parameter lower upper,
    bounds o !! parameter = Some (lower, upper) →
    (∀ x, lower = Some x → Np.isfinite x = true) ∧
    (∀ x, upper = Some x → Np.isfinite x = true) ∧
    (∀ l u, lower = Some l → upper = Some u → PrimFloat.ltb l u = true).

Lemma well_bounded_setdefault parameter o :
  well_bounded o → well_bounded (setdefault_bounds parameter o).
Proof.
  intros Hwb p lower upper. unfold setdefault_bounds.
  destruct (bounds o !! parameter) eqn:Hb; [apply Hwb|]. simpl.
  destruct (decide (p = parameter)) as [->|Hne].
  - rewrite lookup_insert_eq. intros [= <- <-]. done.
  - rewrite lookup_insert_ne //. apply Hwb.
Qed.

Lemma well_bounded_same_bounds o o' :
  bounds o' = bounds o → well_bounded o → well_bounded o'.
Proof. intros Hb Hwb p lower upper. rewrite Hb. apply Hwb. Qed.

Section Bounds.
Context (parse : string → option float) (show : nat → string).

(** X16.  The bounds stay in order.  When every stored bound is a finite
    number and every lower bound lies below the upper bound of its
    parameter, that is so again after [setData], whatever cell and value
    it is called with and however it ends. *)
Theorem setData_keeps_bounds_ordered (o : Options) (row column : nat) (value : Value)
    (dialog : nat * bool) :
  well_bounded o →
  well_bounded (state_of (setData parse show row column value dialog o)).
Proof.
  intros Hwb. unfold setData. unfold bind at 1, get at 1.
  destruct column as [|column].
  - (* the check boxes leave the bounds alone *)
    destruct (_parameters o !! row) as [parameter|]; [|done].
    eapply well_bounded_same_bounds; [|exact Hwb].
    unfold bind, put, modify, ret.
    repeat (case_bool_decide || case_match || simpl); try done;
      simplify_eq/=; done.
  - unfold bind at 1, subscript.
    destruct (_parameters o !! row) as [parameter|]; [|done].
    unfold ret at 1. unfold bind at 1, modify at 1.
    pose proof (well_bounded_setdefault parameter o Hwb) as Hwb'.
    set (o1 := setdefault_bounds parameter o) in *.
    destruct (py_float parse value) as [x|]; [|done].
    unfold bind at 1, get at 1.
    assert (bounds o1 !! parameter = Some (get_bounds o1 parameter)) as Hstored.
    { unfold o1, get_bounds, setdefault_bounds.
      destruct (bounds o !! parameter) eqn:Hb; simpl; [by rewrite Hb|].
      by rewrite lookup_insert_eq. }
    destruct (get_bounds o1 parameter) as [lower upper] eqn:Hget.
    destruct (Hwb' parameter lower upper Hstored) as (Hlo & Hup & Hord). simpl.
    match goal with |- context [if ?c then raise ValueError else _] => destruct c eqn:Htest end;
      [done|].
    destruct (Np.isfinite x) eqn:Hfin; [|done]. simpl.
    apply orb_false_iff in Htest as [Hlow Hupp].
    destruct column as [|[|column]]; [| |done].
    + (* a new lower bound *)
      intros p lo up. simpl. destruct (decide (p = parameter)) as [->|Hne].
      * rewrite lookup_insert_eq. intros [= <- <-]. split_and!; [by intros ? [= <-]|done|].
        intros l u [= <-] ->. simpl in Hlow.
        apply leb_false_ltb; [apply isfinite_not_nan; eauto|by apply isfinite_not_nan|done].
      * rewrite lookup_insert_ne //. apply Hwb'.
    + (* a new upper bound *)
      intros p lo up. simpl. destruct (decide (p = parameter)) as [->|Hne].
      * rewrite lookup_insert_eq. intros [= <- <-]. split_and!; [done|by intros ? [= <-]|].
        intros l u -> [= <-]. simpl in Hupp.
        apply leb_false_ltb; [by apply isfinite_not_nan|apply isfinite_not_nan; eauto|done].
      * rewrite lookup_insert_ne //. apply Hwb'.
Qed.

Lemma get_bounds_setdefault_bounds parameter o p :
  get_bounds (setdefault_bounds parameter o) p = get_bounds o p.
Proof.
  unfold get_bounds, setdefault_bounds. destruct (bounds o !! parameter) eqn:Hb; [done|].
  simpl. destruct (decide (p = parameter)) as [->|Hne].
  - by rewrite lookup_insert_eq Hb.
  - by rewrite lookup_insert_ne.
Qed.

(** X17.  A bound that is entered is the bound that is shown.  For a row
    of the table, a finite number that is not at or beyond the opposite
    bound is accepted by [setData]; it becomes the bound of its column for
    that parameter, the opposite bound and the bounds of the other
    parameters stay, and [data] then shows the number as it is printed,
    neither as [None] nor as an infinity. *)
Theorem setData_then_data_shows_the_bound (show_float : float → string) (o : Options)
    (row column : nat) (parameter : string) (value : Value) (x : float)
    (dialog : nat * bool) :
  _parameters o !! row = Some parameter →
  py_float parse value = Some x →
  Np.isfinite x = true →
  column = 1 ∨ column = 2 →
  (column = 1 → ∀ upper, (get_bounds o parameter).2 = Some upper →
                 PrimFloat.leb upper x = false) →
  (column = 2 → ∀ lower, (get_bounds o parameter).1 = Some lower →
                 PrimFloat.leb x lower = false) →
  ∃ o',
    setData parse show row column value dialog o = Returned o' true ∧
    get_bounds o' parameter
      = (if bool_decide (column = 1) then (Some x, (get_bounds o parameter).2)
         else ((get_bounds o parameter).1, Some x)) ∧
    (∀ p, p ≠ parameter → get_bounds o' p = get_bounds o p) ∧
    _parameters o' = _parameters o ∧
    data show_float row column DisplayRole o' = Returned o' (ShownText (show_float x)).
Proof.
  intros Hrow Hx Hfin Hcol Hlow Hupp.
  destruct (isfinite_not_inf x Hfin) as [Hinf Hninf].
  pose proof (get_bounds_setdefault_bounds parameter o parameter) as Hsame.
  destruct (get_bounds o parameter) as [lower upper] eqn:Hget. simpl in *.
  destruct Hcol as [-> | ->].
  - assert (match upper with Some u => PrimFloat.leb u x | None => false end = false) as Hok.
    { destruct upper as [u|]; [|done]. by apply Hlow. }
    eexists. split_and!.
    + unfold setData, bind, get, subscript, modify, ret. rewrite Hrow /= Hx /= Hsame /=.
      rewrite Hok Hfin /=. reflexivity.
    + by rewrite /get_bounds /= lookup_insert_eq.
    + intros p Hp. rewrite /get_bounds /= lookup_insert_ne //.
      apply (get_bounds_setdefault_bounds parameter o p).
    + unfold setdefault_bounds. by destruct (bounds o !! parameter).
    + unfold data, bind, get, subscript, ret. simpl.
      assert (_parameters (setdefault_bounds parameter o) = _parameters o) as ->
        by (unfold setdefault_bounds; by destruct (bounds o !! parameter)).
      rewrite Hrow /= /get_bounds /= lookup_insert_eq /= Hinf Hninf //.
  - assert (match lower with Some l => PrimFloat.leb x l | None => false end = false) as Hok.
    { destruct lower as [l|]; [|done]. by apply Hupp. }
    eexists. split_and!.
    + unfold setData, bind, get, subscript, modify, ret. rewrite Hrow /= Hx /= Hsame /=.
      rewrite Hok Hfin /=. reflexivity.
    + by rewrite /get_bounds /= lookup_insert_eq.
    + intros p Hp. rewrite /get_bounds /= lookup_insert_ne //.
      apply (get_bounds_setdefault_bounds parameter o p).
    + unfold setdefault_bounds. by destruct (bounds o !! parameter).
    + unfold data, bind, get, subscript, ret. simpl.
      assert (_parameters (setdefault_bounds parameter o) = _parameters o) as ->
        by (unfold setdefault_bounds; by destruct (bounds o !! parameter)).
      rewrite Hrow /= /get_bounds /= lookup_insert_eq /= Hinf Hninf //.
Qed.

(** X18.  The continuum check box.  Ticked with an order [N] of at most 30
    accepted in the dialog, it appends the [N + 1] coefficient rows
    [c0 .. cN] to the table, records the order and enables the continuum,
    leaving the bounds alone; unticked afterwards, it cuts the table back
    to its first three rows and disables the continuum, while the
    recorded order stays.  Ticked with the dialog refused, or an order
    above 30, it changes nothing and returns [False]. *)
Theorem continuum_box_grows_and_shrinks_the_table (o : Options) (value : Value)
    (N : nat) (is_ok : bool) (parameter : string) :
  _parameters o !! 2 = Some parameter →
  (py_bool value = true → is_ok = true → N ≤ _max_continuum_order →
     ∃ o',
       setData parse show 2 0 value (N, is_ok) o = Returned o' true ∧
       _parameters o' = _parameters o ++ continuum_parameters show N ∧
       BalmerLineOptionsTableData.rowCount o'
         = BalmerLineOptionsTableData.rowCount o + N + 1 ∧
       continuum_order o' = Some N ∧
       enabled o' = <[parameter := true]> (enabled o) ∧
       bounds o' = bounds o ∧
       ∀ unticked dialog, py_bool unticked = false →
         ∃ o'',
           setData parse show 2 0 unticked dialog o' = Returned o'' true ∧
           _parameters o'' = take 3 (_parameters o) ∧
           continuum_order o'' = Some N ∧
           enabled o'' = <[parameter := false]> (enabled o') ∧
           bounds o'' = bounds o) ∧
  (py_bool value = true → is_ok = false ∨ _max_continuum_order < N →
     setData parse show 2 0 value (N, is_ok) o = Returned o false).
Proof.
  intros Hrow. split.
  - intros Hv -> HN. eexists. split_and!.
    + unfold setData, bind, get, put, modify, ret. rewrite Hrow /= Hv /=.
      rewrite bool_decide_eq_false_2; [lia|]. reflexivity.
    + done.
    + rewrite /BalmerLineOptionsTableData.rowCount /= length_app /continuum_parameters
        length_fmap length_seq. lia.
    + done.
    + done.
    + done.
    + intros unticked dialog Hu. eexists. split_and!.
      * unfold setData, bind, get, put, modify, ret. simpl.
        rewrite lookup_app_l; [by eapply lookup_lt_Some|]. rewrite Hrow /= Hu /=. reflexivity.
      * simpl. rewrite take_app_le //. apply lookup_lt_Some in Hrow. lia.
      * done.
      * done.
      * done.
  - intros Hv Hno. unfold setData, bind, get, put, modify, ret. rewrite Hrow /= Hv /=.
    destruct Hno as [-> | Hbig]; [done|].
    rewrite (bool_decide_eq_true_2 (_ < _)) // orb_true_r //.
Qed.

End Bounds.

Lemma bounded_options_well_bounded : well_bounded Sample.bounded_options.
Proof.
  intros parameter lower upper Hb. simpl in Hb.
  apply lookup_singleton_Some in Hb as [_ [= <- <-]].
  split_and!; intros; by simplify_eq.
Qed.

(** The theorem on the bounds 0.2 and 1: after a lower bound of 0.5 is
    entered the bounds are still in order. *)
Lemma setData_keeps_bounds_ordered_witness :
  well_bounded
    (state_of (setData Sample.no_parse Sample.no_show 0 1 (VNumber 0.5) (0, false)
                 Sample.bounded_options)).
Proof.
  apply (setData_keeps_bounds_ordered Sample.no_parse Sample.no_show Sample.bounded_options
           0 1 (VNumber 0.5) (0, false)).
  exact bounded_options_well_bounded.
Defined.

(** The theorem on the bounds 0.2 and 1: a lower bound of 0.5 is stored
    and shown. *)
Lemma setData_then_data_shows_the_bound_witness :
  ∃ o',
    setData Sample.no_parse Sample.no_show 0 1 (VNumber 0.5) (0, false) Sample.bounded_options
      = Returned o' true ∧
    get_bounds o' "redshift" = (Some 0.5%float, Some 1%float) ∧
    (∀ p, p ≠ "redshift"%string → get_bounds o' p = get_bounds Sample.bounded_options p) ∧
    _parameters o' = _parameters Sample.bounded_options ∧
    data (λ _, "0.5"%string) 0 1 DisplayRole o' = Returned o' (ShownText "0.5").
Proof.
  apply (setData_then_data_shows_the_bound Sample.no_parse Sample.no_show (λ _, "0.5"%string)
           Sample.bounded_options 0 1 "redshift" (VNumber 0.5) 0.5 (0, false));
    try reflexivity.
  - by left.
  - intros _ upper [= <-]. reflexivity.
  - intros [=].
Defined.

(** The theorem on fresh options: the continuum box ticked with order 2. *)
Lemma continuum_box_grows_and_shrinks_the_table_witness :
  ∃ o',
    setData Sample.no_parse Sample.no_show 2 0 (VBool true) (2, true) Sample.fresh_options
      = Returned o' true ∧
    _parameters o'
      = _parameters Sample.fresh_options ++ continuum_parameters Sample.no_show 2 ∧
    BalmerLineOptionsTableData.rowCount o' = 6 ∧
    continuum_order o' = Some 2 ∧
    enabled o' = <[ "continuum"%string := true ]> (enabled Sample.fresh_options) ∧
    bounds o' = bounds Sample.fresh_options ∧
    ∀ unticked dialog, py_bool unticked = false →
      ∃ o'',
        setData Sample.no_parse Sample.no_show 2 0 unticked dialog o' = Returned o'' true ∧
        _parameters o'' = take 3 (_parameters Sample.fresh_options) ∧
        continuum_order o'' = Some 2 ∧
        enabled o'' = <[ "continuum"%string := false ]> (enabled o') ∧
        bounds o'' = bounds Sample.fresh_options.
Proof.
  apply (proj1 (continuum_box_grows_and_shrinks_the_table Sample.no_parse Sample.no_show
                  Sample.fresh_options (VBool true) 2 true "continuum" eq_refl));
    [reflexivity|reflexivity|].
  unfold _max_continuum_order. lia.
Defined.

End BalmerTableFacts.

(** * The Balmer-line dialog *)

Module BalmerDialogFacts.
Import BalmerLineFittingDialog.

Definition holds (wavelength : float) (spec : Spectrum1D) : bool :=
  PrimFloat.leb wavelength (dispersion_max spec) && PrimFloat.leb (dispersion_min spec) wavelength.

Lemma spectrum_indices_from (spectra : list Spectrum1D) wavelength : ∀ k,
  fst <$> filter (λ p, holds wavelength p.2 = true) (imap (λ i, pair (k + i)) spectra)
    `sublist_of` seq k (length spectra).
Proof.
  induction spectra as [|x l IH]; intros k; [done|].
  rewrite /= filter_cons Nat.add_0_r.
  assert (imap ((λ i, pair (k + i)) ∘ S) l = imap (λ i, pair (S k + i)) l) as ->
    by (apply imap_ext; intros; simpl; f_equal; lia).
  destruct (decide _); simpl; [apply sublist_skip|apply sublist_cons]; exact (IH (S k)).
Qed.

(** X19.  Which spectra hold which Balmer line.  The result has one list
    per Balmer line; the list of a line names, in increasing order and
    once each, exactly the spectra whose wavelengths reach from at or
    below the line to at or above it. *)
Theorem _identify_balmer_lines_finds_the_orders (observed_spectra : list Spectrum1D) :
  length (_identify_balmer_lines observed_spectra) = 4 ∧
  ∀ k wavelength,
    __balmer_line_wavelengths !! k = Some wavelength →
    ∃ indices,
      _identify_balmer_lines observed_spectra !! k = Some indices ∧
      indices `sublist_of` seq 0 (length observed_spectra) ∧
      ∀ i, i ∈ indices ↔
           ∃ spec, observed_spectra !! i = Some spec ∧
                   PrimFloat.leb wavelength (dispersion_max spec) = true ∧
                   PrimFloat.leb (dispersion_min spec) wavelength = true.
Proof.
  split; [done|]. intros k wavelength Hk.
  exists (spectrum_indices observed_spectra wavelength). split_and!.
  - by rewrite /_identify_balmer_lines list_lookup_fmap Hk.
  - apply (spectrum_indices_from observed_spectra wavelength 0).
  - intros i. unfold spectrum_indices. rewrite list_elem_of_fmap. split.
    + intros ([j spec] & -> & Hin). apply list_elem_of_filter in Hin as [Hholds Hin].
      apply list_elem_of_lookup_1 in Hin as [n Hn]. rewrite list_lookup_imap in Hn.
      destruct (observed_spectra !! n) eqn:Hs; simplify_eq/=.
      apply andb_true_iff in Hholds. eauto.
    + intros (spec & Hs & H1 & H2). exists (i, spec). split; [done|].
      apply list_elem_of_filter. split; [by rewrite /= H1 H2|].
      apply (list_elem_of_lookup_2 _ i). by rewrite list_lookup_imap Hs.
Qed.

(** Once a line after the first has been found, the loop keeps it. *)
Lemma first_available_sticks : ∀ enumerated k,
  0 < k → first_available_from enumerated (Some k) = Some k.
Proof.
  induction enumerated as [|[i indices] rest IH]; intros k Hk; [done|].
  simpl. case_bool_decide; [|by apply IH].
  destruct k; [lia|]. by apply IH.
Qed.

(** From position [n] on, the loop stops at the first line that some
    spectrum holds. *)
Lemma first_available_later : ∀ (lines : list (list nat)) n first_available,
  0 < n → first_available = None ∨ first_available = Some 0 →
  first_available_from (imap (λ i, pair (n + i)) lines) first_available
    = match list_find (λ indices, 0 < length indices) lines with
      | Some (j, _) => Some (n + j)
      | None => first_available
      end.
Proof.
  induction lines as [|indices lines IH]; intros n acc Hn Hacc; [done|].
  simpl. rewrite Nat.add_0_r. case_bool_decide as Hav.
  - rewrite decide_True //.
    assert (py_or acc n = n) as -> by (by destruct Hacc as [-> | ->]).
    rewrite Nat.add_0_r. by apply first_available_sticks.
  - rewrite decide_False //.
    assert (imap ((λ i, pair (n + i)) ∘ S) lines = imap (λ i, pair (S n + i)) lines) as ->
      by (apply imap_ext; intros; simpl; f_equal; lia).
    rewrite IH; [lia|done|].
    destruct (list_find _ lines) as [[j ?]|]; simpl; [f_equal; lia|done].
Qed.

(** X20.  The line selected when the dialog opens.  An item of the line
    box is enabled exactly when some spectrum holds its line.  No line is
    selected when no line is available.  Otherwise the line selected is
    available, and it is the first available one after the first line of
    the box; the first line is selected only when it is the only one
    available. *)
Theorem populate_widgets_selects_an_available_line (lines : list (list nat)) :
  let available k := ∃ indices, lines !! k = Some indices ∧ 0 < length indices in
  (∀ k, (populate_widgets lines).1 !! k
          = (λ indices, bool_decide (0 < length indices)) <$> lines !! k) ∧
  match (populate_widgets lines).2 with
  | None => ∀ k, ¬ available k
  | Some 0 => available 0 ∧ ∀ k, 0 < k → ¬ available k
  | Some k => available k ∧ ∀ j, 0 < j < k → ¬ available j
  end.
Proof.
  intros available. split.
  { intros k. by rewrite /populate_widgets /= list_lookup_fmap. }
  unfold populate_widgets. simpl. destruct lines as [|first rest]; simpl.
  { intros k (indices & Hk & _). by rewrite lookup_nil in Hk. }
  assert (imap (pair ∘ S) rest = imap (λ i, pair (1 + i)) rest) as -> by done.
  assert (∀ acc, acc = None ∨ acc = Some 0 →
            first_available_from (imap (λ i, pair (1 + i)) rest) acc
              = match list_find (λ indices, 0 < length indices) rest with
                | Some (j, _) => Some (S j)
                | None => acc
                end) as Hrest.
  { intros acc Hacc. rewrite first_available_later; [lia|done|].
    by destruct (list_find _ rest) as [[j ?]|]. }
  assert (∀ acc, acc = None ∨ acc = Some 0 →
            (acc = Some 0 ↔ 0 < length first) →
            match first_available_from (imap (λ i, pair (1 + i)) rest) acc with
            | None => ∀ k, ¬ available k
            | Some 0 => available 0 ∧ ∀ k, 0 < k → ¬ available k
            | Some k => available k ∧ ∀ j, 0 < j < k → ¬ available j
            end) as Hmain.
  { intros acc Hacc Hfirst. rewrite Hrest //.
    destruct (list_find _ rest) as [[j indices]|] eqn:Hfind.
    - apply list_find_Some in Hfind as (Hj & Hlen & Hbefore). split.
      + by exists indices.
      + intros i Hi (indices' & Hlook & Hlen').
        destruct i as [|i]; [lia|]. simpl in Hlook.
        apply (Hbefore i indices' Hlook); [lia|done].
    - apply list_find_None in Hfind.
      assert (∀ k, 0 < k → ¬ available k) as Hnone.
      { intros k Hk (indices & Hlook & Hlen). destruct k as [|k]; [lia|]. simpl in Hlook.
        apply (proj1 (Forall_forall _ _) Hfind indices); [|done].
        by eapply list_elem_of_lookup_2. }
      destruct Hacc as [-> | ->].
      + intros k. destruct k as [|k]; [|apply Hnone; lia].
        intros (indices & [= <-] & Hlen). by apply Hfirst in Hlen.
      + split; [|done]. exists first. split; [done|]. by apply Hfirst. }
  case_bool_decide as Hav.
  - apply Hmain; [by right|done].
  - apply Hmain; [by left|]. split; [done|]. intros ?. done.
Qed.

Lemma add_items_spec labels current : ∀ indices items selected,
  Forall (λ idx, idx < length labels) indices →
  (∀ j, selected = Some j → items !! j = Some current) →
  (current ∈ items → is_Some selected) →
  ∃ added selected',
    add_items labels (imap (λ i, pair (length items + i)) indices) current items selected
      = inr (items ++ added, selected') ∧
    Forall2 (λ idx text, labels !! idx = Some text) indices added ∧
    (∀ j, selected' = Some j → (items ++ added) !! j = Some current) ∧
    (current ∈ items ++ added → is_Some selected').
Proof.
  induction indices as [|idx indices IH]; intros items selected Hidx Hsel Hin.
  - exists [], selected. rewrite app_nil_r. by split_and!; [|constructor| |].
  - apply Forall_cons in Hidx as [Hi Hidx].
    destruct (lookup_lt_is_Some_2 _ _ Hi) as [text Htext].
    simpl. rewrite Htext Nat.add_0_r.
    assert (imap ((λ i, pair (length items + i)) ∘ S) indices
            = imap (λ i, pair (length (items ++ [text]) + i)) indices) as ->.
    { apply imap_ext. intros. rewrite length_app /=. f_equal. lia. }
    destruct (IH (items ++ [text])
                (if String.eqb text current then Some (length items) else selected) Hidx)
      as (added & selected' & Hrun & Hadded & Hsel' & Hin').
    + intros j. destruct (String.eqb text current) eqn:Heq.
      * apply String.eqb_eq in Heq as ->. intros [= <-]. by rewrite list_lookup_middle.
      * intros Hj. rewrite lookup_app_l; [|by apply Hsel].
        apply lookup_lt_Some with current. by apply Hsel.
    + destruct (String.eqb text current) eqn:Heq; [eauto|].
      apply String.eqb_neq in Heq. rewrite elem_of_app list_elem_of_singleton.
      intros [?|?]; [auto|congruence].
    + exists (text :: added), selected'. rewrite Hrun.
      rewrite -app_assoc /= in Hsel' Hin' |- *. split_and!; [done| |done|done].
      by constructor.
Qed.

(** X21.  Changing the Balmer line.  The spectrum box is filled with the
    labels of the spectra that hold the new line, in their order.  When
    the label that was selected is among them it is selected again;
    otherwise the first item is. *)
Theorem updated_balmer_line_selected_keeps_the_spectrum (lines : list (list nat))
    (labels : list string) (selected_balmer_index : nat) (indices : list nat)
    (current : string) :
  lines !! selected_balmer_index = Some indices →
  Forall (λ idx, idx < length labels) indices →
  ∃ items index,
    updated_balmer_line_selected lines labels selected_balmer_index current
      = inr (items, index) ∧
    Forall2 (λ idx text, labels !! idx = Some text) indices items ∧
    (current ∈ items → items !! index = Some current) ∧
    (current ∉ items → index = 0).
Proof.
  intros Hline Hidx.
  destruct (add_items_spec labels current indices [] None Hidx)
    as (items & selected & Hrun & Hitems & Hsel & Hin); [done|by intros ?%elem_of_nil|].
  simpl in *. exists items, (default 0 selected). split_and!.
  - unfold updated_balmer_line_selected. by rewrite Hline Hrun.
  - done.
  - intros Hcur. destruct (Hin Hcur) as [j ->]. by apply Hsel.
  - intros Hcur. destruct selected as [j|]; [|done].
    exfalso. apply Hcur. eapply list_elem_of_lookup_2. by apply Hsel.
Qed.

Lemma remove_dups_length {A} `{EqDecision A} (l : list A) :
  length (remove_dups l) ≤ length l ∧ (length (remove_dups l) = length l → NoDup l).
Proof.
  induction l as [|x l [IHle IHeq]]; simpl; [split; [done|constructor]|].
  destruct (decide_rel _ x l); simpl.
  - split; lia.
  - split; [lia|]. intros Hlen. constructor; [done|]. apply IHeq. lia.
Qed.

Lemma remove_dups_NoDup {A} `{EqDecision A} (l : list A) : NoDup l → remove_dups l = l.
Proof.
  induction 1 as [|x l Hx _ IH]; simpl; [done|].
  destruct (decide_rel _ x l); [done|]. by rewrite IH.
Qed.

(** X22.  The labels of the spectra.  When numbers print differently, the
    labels the dialog keeps are as many as the spectra and no two are the
    same: those of the caller as given, or [Order 1], [Order 2] and so on.
    The only failure is [ValueError], for labels of the caller that are
    not as many as the spectra or hold a duplicate. *)
Theorem observed_spectra_labels_are_unique (show : nat → string)
    (observed_spectra : list Spectrum1D) (given : option (list string)) :
  (∀ i j, show i = show j → i = j) →
  match observed_spectra_labels show observed_spectra given with
  | inr labels =>
      length labels = length observed_spectra ∧ NoDup labels ∧
      match given with
      | Some from_caller => labels = from_caller
      | None => ∀ i, i < length observed_spectra →
                     labels !! i = Some (String.append "Order " (show (S i)))
      end
  | inl e =>
      e = ValueError ∧
      ∃ from_caller, given = Some from_caller ∧
        (length from_caller ≠ length observed_spectra ∨ ¬ NoDup from_caller)
  end.
Proof.
  intros Hshow. unfold observed_spectra_labels. destruct given as [labels|].
  - case_bool_decide as Hlen; simpl.
    + case_bool_decide as Hdup.
      * split; [done|]. exists labels. split; [done|]. right. intros Hnd.
        rewrite remove_dups_NoDup // in Hdup. lia.
      * split_and!; [done| |done]. apply remove_dups_length.
        pose proof (proj1 (remove_dups_length labels)). lia.
    + split; [done|]. exists labels. split; [done|]. by left.
  - split_and!.
    + by rewrite length_fmap length_seq.
    + apply NoDup_fmap_2; [|apply NoDup_seq].
      intros i j Heq. apply Hshow. by simplify_eq/=.
    + intros i Hi. by rewrite list_lookup_fmap lookup_seq_lt.
Qed.


(** Two echelle orders and a rest-frame spectrum: H-alpha lies in the
    first and the third, H-beta in the second and the third. *)
Definition three_spectra : list Spectrum1D :=
  [mkSpectrum1D 6500 6600; mkSpectrum1D 4800 4900; mkSpectrum1D 4000 7000]%float.

Example identify_in_three_spectra :
  _identify_balmer_lines three_spectra = [[0; 2]; [1; 2]; [2]; [2]].
Proof. by vm_compute. Qed.

(** With H-alpha and H-beta both available, the line that ends up
    selected is H-beta. *)
Example populate_widgets_skips_the_first_line :
  populate_widgets [[0; 2]; [1; 2]; []; []] = ([true; true; false; false], Some 1) ∧
  populate_widgets [[0]; []; []; []] = ([true; false; false; false], Some 0) ∧
  populate_widgets [[]; []; []; []] = ([false; false; false; false], None).
Proof. by vm_compute. Qed.

(** The theorem on the three spectra: going from H-alpha to H-beta with
    the rest-frame spectrum selected. *)
Lemma updated_balmer_line_selected_keeps_the_spectrum_witness :
  ∃ items index,
    updated_balmer_line_selected [[0; 2]; [1; 2]; [2]; [2]] ["Order 1"; "Order 2"; "Rest"] 1
      "Rest" = inr (items, index) ∧
    Forall2 (λ idx text, ["Order 1"; "Order 2"; "Rest"]%string !! idx = Some text) [1; 2] items ∧
    ("Rest"%string ∈ items → items !! index = Some "Rest"%string) ∧
    ("Rest"%string ∉ items → index = 0).
Proof.
  apply (updated_balmer_line_selected_keeps_the_spectrum
           [[0; 2]; [1; 2]; [2]; [2]] ["Order 1"; "Order 2"; "Rest"]%string 1 [1; 2] "Rest").
  - reflexivity.
  - repeat constructor.
Defined.

(** The theorem without labels from the caller, numbers printed in
    decimal. *)
Lemma observed_spectra_labels_are_unique_witness :
  let labels := (λ i, String.append "Order " (pretty i)) <$> seq 1 3 in
  length labels = length three_spectra ∧ NoDup labels ∧
  ∀ i, i < length three_spectra →
       labels !! i = Some (String.append "Order " (pretty (S i))).
Proof.
  apply (observed_spectra_labels_are_unique pretty three_spectra None).
  intros i j. apply pretty_nat_inj.
Defined.

Example default_labels : observed_spectra_labels pretty three_spectra None
  = inr ["Order 1"; "Order 2"; "Order 3"]%string.
Proof. by vm_compute. Qed.

End BalmerDialogFacts.

(** * What an export writes *)

Module ArchiveFacts.
Import PyFacts ModelExport ExportFacts.

Section Archive.
Context (reindex : LineList → list string → list nat).

(** The state written for a model of [st]. *)
Definition archived (st : Store) (m : ModelObject) : Written :=
  {| written_entries := obj_entries m;
     written_transition_hashes := obj_transition_hashes m;
     written_metadata := stripped (the_dict st (obj_metadata m)) |}.

Lemma clean_copy_archived st cur m state :
  clean_copy st cur m state → write_state cur state = archived st m.
Proof.
  intros (He & Hh & _ & Hd). unfold write_state, archived, the_dict at 1.
  by rewrite He Hh Hd.
Qed.

(** What [export_selected_spectral_models] puts into the file. *)
Lemma export_writes st rows :
  well_formed st →
  Forall (λ r, r < length (spectral_models st)) rows →
  Forall (λ m, Forall (λ i, i < length (line_list st)) (indices_of reindex st m))
    (spectral_models st) →
  ∃ st' picks subset,
    (∀ path, export_selected_spectral_models reindex (Some path) rows st
               = Returned st' (Some (subset, archived st <$> picks))) ∧
    Forall2 (λ r m, spectral_models st !! r = Some m) rows picks ∧
    Np.take (line_list st) (picks ≫= indices_of reindex st) = Some subset ∧
    preserves reindex st st'.
Proof.
  intros Hwf Hrows Hidx.
  destruct (export_loop_spec reindex st Hwf rows st [] [] []
              (preserves_refl reindex st) (Forall2_nil_2 _ _ _) Hrows)
    as (cur' & new & picks & Hrun & Hp & Hpicks & Hall).
  simpl in Hrun, Hall.
  assert (is_Some (Np.take (line_list st) (picks ≫= indices_of reindex st))) as [subset Hsub].
  { unfold Np.take. apply mapM_is_Some. apply Forall_forall. intros i Hi.
    apply list_elem_of_bind in Hi as (m & Hi & Hm). simpl.
    apply lookup_lt_is_Some_2.
    assert (m ∈ spectral_models st) as Hin.
    { apply list_elem_of_lookup_1 in Hm as [k Hk].
      destruct (Forall2_lookup_r _ _ _ _ _ Hpicks Hk) as (r & _ & Hr).
      by eapply list_elem_of_lookup_2. }
    pose proof (proj1 (Forall_forall _ _) Hidx m Hin) as Hm2.
    exact (proj1 (Forall_forall _ _) Hm2 i Hi). }
  exists cur', picks, subset. split_and!; [|done|done|done].
  intros path. unfold export_selected_spectral_models. unfold bind at 1. rewrite Hrun.
  unfold bind at 1, get at 1. unfold bind at 1. simpl.
  destruct Hp as (_ & _ & ->). rewrite Hsub /=. unfold ret. do 3 f_equal.
  apply list_eq. intros k. rewrite !list_lookup_fmap.
  destruct (new !! k) as [state|] eqn:Hnew.
  - destruct (Forall2_lookup_r _ _ _ _ _ Hall Hnew) as (m & -> & Hcopy).
    simpl. f_equal. by apply clean_copy_archived.
  - rewrite (lookup_ge_None_2 picks) //.
    rewrite (Forall2_length _ _ _ Hall). by apply lookup_ge_None_1.
Qed.

Lemma bind_ext_Forall2 {A B C} (f : A → list C) (g : B → list C) l k :
  Forall2 (λ a b, f a = g b) l k → l ≫= f = k ≫= g.
Proof. induction 1 as [|a b l k Hab _ IH]; [done|]. by rewrite !bind_cons Hab IH. Qed.

Lemma preserves_well_formed st st' :
  well_formed st → preserves reindex st st' →
  well_formed st' ∧
  length (spectral_models st') = length (spectral_models st) ∧
  (∀ r m m', spectral_models st !! r = Some m → spectral_models st' !! r = Some m' →
     archived st' m' = archived st m ∧
     indices_of reindex st' m' = indices_of reindex st m).
Proof.
  intros Hwf (Hd & Hm & Hll). split_and!.
  - apply Forall_forall. intros m' Hin. apply list_elem_of_lookup_1 in Hin as [r Hr].
    destruct (Forall2_lookup_r _ _ _ _ _ Hm Hr) as (m & Hm0 & _ & _ & Hloc & _).
    assert (is_Some (dicts st !! obj_metadata m)) as Hsome
      by (eapply (proj1 (Forall_lookup _ _) Hwf); eauto).
    by rewrite Hloc Hd.
  - symmetry. by eapply Forall2_length.
  - intros r m m' Hr Hr'.
    destruct (Forall2_lookup_l _ _ _ _ _ Hm Hr) as (m2 & Hm2 & He & Hh & Hloc & _).
    assert (m2 = m') as -> by congruence.
    assert (is_Some (dicts st !! obj_metadata m)) as Hsome
      by (eapply (proj1 (Forall_lookup _ _) Hwf); eauto).
    split.
    + unfold archived, the_dict. by rewrite He Hh Hloc Hd.
    + unfold indices_of. by rewrite Hll Hh.
Qed.

(** X23.  Exporting twice.  In a store where every model has its metadata
    dictionary and finds its transitions in the line list, exporting a
    selection and exporting it again from the store the first export
    left write the same line list and the same states. *)
Theorem exporting_again_writes_the_same_file (st : Store) (rows : list nat)
    (path again : string) :
  well_formed st →
  Forall (λ r, r < length (spectral_models st)) rows →
  Forall (λ m, Forall (λ i, i < length (line_list st)) (indices_of reindex st m))
    (spectral_models st) →
  ∃ st1 st2 file,
    export_selected_spectral_models reindex (Some path) rows st
      = Returned st1 (Some file) ∧
    export_selected_spectral_models reindex (Some again) rows st1
      = Returned st2 (Some file).
Proof.
  intros Hwf Hrows Hidx.
  destruct (export_writes st rows Hwf Hrows Hidx)
    as (st1 & picks & subset & Hrun & Hpicks & Hsub & Hp).
  destruct (preserves_well_formed st st1 Hwf Hp) as (Hwf1 & Hlen1 & Hsame).
  assert (line_list st1 = line_list st) as Hll by apply Hp.
  destruct (export_writes st1 rows Hwf1) as (st2 & picks1 & subset1 & Hrun1 & Hpicks1 & Hsub1 & _).
  { by rewrite Hlen1. }
  { apply Forall_forall. intros m1 Hin. apply list_elem_of_lookup_1 in Hin as [r Hr].
    assert (is_Some (spectral_models st !! r)) as [m Hm].
    { apply lookup_lt_is_Some_2. rewrite -Hlen1. by eapply lookup_lt_Some. }
    rewrite (proj2 (Hsame r m m1 Hm Hr)) Hll.
    apply (proj1 (Forall_forall _ _) Hidx). by eapply list_elem_of_lookup_2. }
  assert (Forall2 (λ m1 m, archived st1 m1 = archived st m ∧
                           indices_of reindex st1 m1 = indices_of reindex st m)
            picks1 picks) as Hboth.
  { apply Forall2_same_length_lookup. split.
    - by rewrite -(Forall2_length _ _ _ Hpicks1) -(Forall2_length _ _ _ Hpicks).
    - intros k m1 m Hk1 Hk.
      destruct (Forall2_lookup_r _ _ _ _ _ Hpicks1 Hk1) as (r1 & Hr1 & Hm1).
      destruct (Forall2_lookup_r _ _ _ _ _ Hpicks Hk) as (r & Hr & Hm).
      assert (r1 = r) as -> by congruence. by apply (Hsame r). }
  exists st1, st2, (subset, archived st <$> picks). split; [apply Hrun|].
  rewrite Hrun1. do 3 f_equal.
  - assert (picks1 ≫= indices_of reindex st1 = picks ≫= indices_of reindex st) as Heq.
    { apply bind_ext_Forall2. eapply Forall2_impl; [exact Hboth|]. by intros ?? [_ ?]. }
    rewrite Heq Hll in Hsub1. congruence.
  - apply list_eq. intros k. rewrite !list_lookup_fmap.
    destruct (picks1 !! k) as [m1|] eqn:Hk1.
    + destruct (Forall2_lookup_l _ _ _ _ _ Hboth Hk1) as (m & -> & Heq & _).
      by rewrite /= Heq.
    + rewrite (lookup_ge_None_2 picks) //.
      rewrite -(Forall2_length _ _ _ Hboth). by apply lookup_ge_None_1.
Qed.

(** X24.  The transitions in an exported file.  When re-indexing finds,
    for every hash of every model, a row of the line list with that hash,
    the line list in the file has exactly the transitions the written
    states name: its hashes are the hashes of the states, state by state,
    in order. *)
Theorem exported_lines_are_those_of_the_models (st : Store) (rows : list nat) (path : string) :
  well_formed st →
  Forall (λ r, r < length (spectral_models st)) rows →
  Forall (λ m, Forall2 (λ i h, ∃ t, line_list st !! i = Some t ∧ hash t = h)
                 (indices_of reindex st m) (obj_transition_hashes m))
    (spectral_models st) →
  ∃ st' line_list_subset written,
    export_selected_spectral_models reindex (Some path) rows st
      = Returned st' (Some (line_list_subset, written)) ∧
    column_hash line_list_subset = written ≫= written_transition_hashes.
Proof.
  intros Hwf Hrows Hfound.
  destruct (export_writes st rows Hwf Hrows)
    as (st' & picks & subset & Hrun & Hpicks & Hsub & _).
  { eapply Forall_impl; [exact Hfound|]. intros m Hm. simpl in Hm.
    apply Forall_forall. intros i Hi. apply list_elem_of_lookup_1 in Hi as [k Hk].
    destruct (Forall2_lookup_l _ _ _ _ _ Hm Hk) as (h & _ & t & Ht & _).
    by eapply lookup_lt_Some. }
  exists st', subset, (archived st <$> picks). split; [apply Hrun|].
  assert (Forall (λ m, m ∈ spectral_models st) picks) as Hin.
  { apply Forall_forall. intros m Hm. apply list_elem_of_lookup_1 in Hm as [k Hk].
    destruct (Forall2_lookup_r _ _ _ _ _ Hpicks Hk) as (r & _ & Hr).
    by eapply list_elem_of_lookup_2. }
  clear Hrun Hpicks. revert subset Hsub.
  induction picks as [|m picks IH]; intros subset Hsub.
  - by injection Hsub as <-.
  - apply Forall_cons in Hin as [Hm Hin].
    rewrite bind_cons in Hsub. rewrite fmap_cons bind_cons.
    apply mapM_Some_1, Forall2_app_inv_l in Hsub as (here & later & Hhere & Hlater & ->).
    rewrite /column_hash fmap_app. f_equal.
    + pose proof (proj1 (Forall_forall _ _) Hfound m Hm) as Hhashes.
      simpl in *. clear -Hhere Hhashes. revert here Hhere.
      induction Hhashes as [|i h idxs hs (t & Ht & Hh) _ IH]; intros here Hhere.
      * by apply Forall2_nil_inv_l in Hhere as ->.
      * apply Forall2_cons_inv_l in Hhere as (t' & here' & Ht' & Hhere' & ->).
        rewrite /= -(IH here' Hhere'). f_equal. congruence.
    + apply IH; [done|]. by apply mapM_Some_2.
Qed.

End Archive.

Lemma one_model_store_well_formed : well_formed Sample.one_model_store.
Proof. repeat constructor. by eexists. Qed.

(** The theorem on the store with one fitted model. *)
Lemma exporting_again_writes_the_same_file_witness :
  ∃ st1 st2 file,
    export_selected_spectral_models Sample.rows_by_hash (Some "a.pkl"%string) [0]
      Sample.one_model_store = Returned st1 (Some file) ∧
    export_selected_spectral_models Sample.rows_by_hash (Some "b.pkl"%string) [0] st1
      = Returned st2 (Some file).
Proof.
  apply (exporting_again_writes_the_same_file Sample.rows_by_hash Sample.one_model_store [0]
           "a.pkl" "b.pkl" one_model_store_well_formed); repeat constructor.
Defined.

(** The theorem on the store with one fitted model. *)
Lemma exported_lines_are_those_of_the_models_witness :
  ∃ st' line_list_subset written,
    export_selected_spectral_models Sample.rows_by_hash (Some "a.pkl"%string) [0]
      Sample.one_model_store = Returned st' (Some (line_list_subset, written)) ∧
    column_hash line_list_subset = written ≫= written_transition_hashes.
Proof.
  apply (exported_lines_are_those_of_the_models Sample.rows_by_hash Sample.one_model_store [0]
           "a.pkl" one_model_store_well_formed); repeat constructor.
  by eexists.
Defined.

End ArchiveFacts.
